(** * Air-crash simulation toolkit: [Aircraft] and [Airport]

    A shallow embedding of [tools/aircraft.py] and [tools/airport.py].

    Conventions of the embedding.
    - Python numbers ([int], [float], and [bool] where it is used as a
      number) are rationals [Q]. A float is the rational it denotes;
      infinities, NaN and the negative zero are not values of the model. A
      number outside the range of the floats can only be an [int], and
      Python refuses to convert it to a float ([OverflowError]).
    - The rounding of floats is the operation [float_round] of the library.
      It is applied where the outcome of the code depends on it: when a
      number is converted to a float, in the sign correction of [%] and in
      the angle arithmetic of [get_active_runways]. Products and sums of
      displacements and coordinates are exact.
    - Python objects whose content the code stores or passes on verbatim are
      values of the type [value]; operations that Python refuses on a value
      raise an exception of type [exn].
    - Methods mutate [self]; they are functions in the monad [Py S], whose
      state survives a raised exception (an object mutated before the raise
      stays mutated).
    - Functions of [math] and [pygame] that the code calls are operations of
      the class [PyLib]. *)

From Stdlib Require Import ZArith QArith Qround Qabs String List Lia Lqa.
From Stdlib Require Import Permutation Sorted.
From stdpp Require Import gmap strings.
Import ListNotations.

Open Scope Q_scope.
Open Scope string_scope.
Open Scope list_scope.

(** ** Python values and exceptions *)

(** A 2D vector with float components ([pygame.math.Vector2]). *)
Definition Vec : Type := (Q * Q)%type.

#[warnings="-register-all"]
Inductive value : Type :=
| VNone
| VBool (b : bool)
| VNum (q : Q)
| VStr (s : string)
| VList (l : list value)
| VDict (kvs : list (string * value))
| VVec (p : Vec)
| VObj (n : nat).

Inductive exn : Type :=
| TypeError
| ValueError
| KeyError
| AttributeError
| OverflowError
| OSError
| JSONDecodeError.

Definition vec_add (p d : Vec) : Vec := (fst p + fst d, snd p + snd d).


Definition bool_num (b : bool) : Q := if b then 1 else 0.

(** The number a value stands for where Python accepts a real number. *)
Definition as_num (v : value) : option Q :=
  match v with
  | VNum q => Some q
  | VBool b => Some (bool_num b)
  | _ => None
  end.

(** [v == s] for a string literal [s]. *)
Definition is_str (s : string) (v : value) : bool :=
  match v with
  | VStr s' => String.eqb s' s
  | _ => false
  end.

(** Truth value of an object in an [if]. *)
Definition truthy (v : value) : bool :=
  match v with
  | VNone => false
  | VBool b => b
  | VNum q => negb (Qeq_bool q 0)
  | VStr s => negb (String.eqb s "")
  | VList l => match l with [] => false | _ => true end
  | VDict kvs => match kvs with [] => false | _ => true end
  | VVec p => negb (Qeq_bool (fst p) 0 && Qeq_bool (snd p) 0)
  | VObj _ => true
  end.

(** ** Arithmetic *)

Definition Qltb (a b : Q) : bool := negb (Qle_bool b a).

(** The exact remainder of the floored division by a positive modulus: it
    has the sign of [m]. *)
Definition Qmod (q m : Q) : Q := q - m * inject_Z (Qfloor (q / m)).

Definition is_integer (q : Q) : bool := Qeq_bool (inject_Z (Qfloor q)) q.

(** The floats are the numbers below [float_limit] in absolute value: an
    int from [float_limit] on rounds to 2^1024 and is refused. *)
Definition float_limit : Q := inject_Z (2 ^ 1024 - 2 ^ 970).

Definition in_float_range (q : Q) : bool := Qltb (Qabs q) float_limit.

(** ** External library *)

Class PyLib : Type := {
  (** the rounding of a real number in the float range to the nearest
      float *)
  float_round : Q -> Q;
  math_sin : Q -> Q;
  math_cos : Q -> Q;
  math_radians : Q -> Q;
  math_degrees : Q -> Q;
  (** [math.atan2(y, x)] for an [x] that is not the negative zero *)
  math_atan2 : Q -> Q -> Q;
  (** [math.atan2(0.0, -0.0)] *)
  math_atan2_neg_zero : Q;
  (** [Vector2.distance_to] *)
  distance_to : Vec -> Vec -> Q;
  (** [s % n] for a string [s]: printf-style formatting *)
  str_percent : string -> Q -> exn + string;
  (** [Vector2(v)] for an argument that is not a sequence of two numbers *)
  Vector2_other : value -> exn + Vec;
  (** what [Vector2] raises for an int outside the float range *)
  Vector2_overflow : exn
}.

(** A library to run the definitions on: arithmetic without rounding and
    coarse rational stand-ins for the functions of [math] (pi is 355/113,
    sine and cosine are the first terms of their series, the distance is the
    sum of the two legs), no string formatting, and vectors from sequences
    of two numbers only. *)
Definition approx_pi : Q := 355 # 113.

Definition approx_atan2 (y x : Q) : Q :=
  if Qltb 0 x then y / x
  else if Qltb x 0 then (if Qle_bool 0 y then approx_pi + y / x else y / x - approx_pi)
  else if Qltb 0 y then approx_pi / 2
  else if Qltb y 0 then - (approx_pi / 2)
  else 0.

Definition test_lib : PyLib :=
  {| float_round := fun x => x;
     math_sin := fun x => x - x * x * x / 6;
     math_cos := fun x => 1 - x * x / 2;
     math_radians := fun d => d * approx_pi / 180;
     math_degrees := fun r => r * 180 / approx_pi;
     math_atan2 := approx_atan2;
     math_atan2_neg_zero := approx_pi;
     distance_to := fun p r => Qabs (fst r - fst p) + Qabs (snd r - snd p);
     str_percent := fun _ _ => inl TypeError;
     Vector2_other := fun _ => inl TypeError;
     Vector2_overflow := OverflowError |}.

(** The rounding of IEEE 754 binary64: to 53 significant bits (fewer below
    2^-1022), ties to the even significand. *)
Definition pow2 (e : Z) : Q :=
  if (0 <=? e)%Z then inject_Z (2 ^ e) else 1 / inject_Z (2 ^ (- e)).

(** The [k] with 2^k <= a < 2^(k+1), for a positive [a]. *)
Definition floor_log2 (a : Q) : Z :=
  let k := (Z.log2 (Qnum a) - Z.log2 (Z.pos (Qden a)))%Z in
  if Qle_bool (pow2 k) a then k else (k - 1)%Z.

Definition round_half_even (x : Q) : Z :=
  let f := Qfloor x in
  let r := x - inject_Z f in
  if Qltb r (1 # 2) then f
  else if Qltb (1 # 2) r then (f + 1)%Z
  else if Z.even f then f else (f + 1)%Z.

Definition binary64 (q : Q) : Q :=
  if Qeq_bool q 0 then 0
  else
    let e := Z.max (floor_log2 (Qabs q) - 52) (- 1074) in
    let m := round_half_even (Qabs q / pow2 e) in
    Qred ((if Qltb q 0 then - (1) else 1) * inject_Z m * pow2 e).

(** The same library with the rounding of binary64. *)
Definition ieee_lib : PyLib :=
  {| float_round := binary64;
     math_sin := fun x => x - x * x * x / 6;
     math_cos := fun x => 1 - x * x / 2;
     math_radians := fun d => d * approx_pi / 180;
     math_degrees := fun r => r * 180 / approx_pi;
     math_atan2 := approx_atan2;
     math_atan2_neg_zero := approx_pi;
     distance_to := fun p r => Qabs (fst r - fst p) + Qabs (snd r - snd p);
     str_percent := fun _ _ => inl TypeError;
     Vector2_other := fun _ => inl TypeError;
     Vector2_overflow := OverflowError |}.

(** ** The monad of methods *)

Definition Py (S A : Type) : Type := S -> S * (exn + A).

Definition ret {S A} (x : A) : Py S A := fun s => (s, inr x).

Definition raise {S A} (e : exn) : Py S A := fun s => (s, inl e).

Definition bind {S A B} (m : Py S A) (k : A -> Py S B) : Py S B :=
  fun s =>
    match m s with
    | (s', inl e) => (s', inl e)
    | (s', inr x) => k x s'
    end.

Definition get {S} : Py S S := fun s => (s, inr s).

Definition modify {S} (f : S -> S) : Py S unit := fun s => (f s, inr tt).

(** [try: body / except Exception as e: handler e] *)
Definition try_except {S A} (body : Py S A) (handler : exn -> Py S A) : Py S A :=
  fun s =>
    match body s with
    | (s', inl e) => handler e s'
    | (s', inr x) => (s', inr x)
    end.

(** The result of an expression that may raise. *)
Definition lift {S A} (r : exn + A) : Py S A := fun s => (s, r).

Notation "x <- m ;; k" := (bind m (fun x => k))
  (at level 100, m at next level, right associativity).
Notation "m ;;; k" := (bind m (fun _ => k))
  (at level 100, right associativity).

(** [for x in l: body x] *)
Fixpoint for_each {S A} (l : list A) (body : A -> Py S unit) : Py S unit :=
  match l with
  | [] => ret tt
  | x :: rest => body x ;;; for_each rest body
  end.

(** [for x in l: body i x], where [i] counts the entries from [start]. *)
Fixpoint for_each_from {St A} (start : nat) (l : list A)
    (body : nat -> A -> Py St unit) : Py St unit :=
  match l with
  | [] => ret tt
  | x :: rest => body start x ;;; for_each_from (start + 1)%nat rest body
  end.

(** [q % m] on numbers, for a whole positive [m]. On ints it is exact. On
    floats it is C's [fmod], which is exact, and when that remainder is
    negative [m] is added to it: this sum is rounded. The sum is whole, and
    so exact, when [q] is whole. *)
Definition float_mod `{PyLib} (q m : Q) : Q :=
  if Qle_bool 0 q || is_integer q then Qmod q m
  else float_round (Qmod q m).

(** [v % m] for a whole positive number [m]. *)
Definition py_mod `{PyLib} (v : value) (m : Q) : exn + value :=
  match v with
  | VStr s =>
      match str_percent s m with
      | inl e => inl e
      | inr s' => inr (VStr s')
      end
  | _ =>
      match as_num v with
      | Some q => inr (VNum (float_mod q m))
      | None => inl TypeError
      end
  end.

(** [max(a, v)] for a number [a]: [v] when [v > a], else [a]. *)
Definition py_max (a : Q) (v : value) : exn + value :=
  match as_num v with
  | Some q => inr (if Qltb a q then v else VNum a)
  | None => inl TypeError
  end.

(** [min(a, v)] for a number [a]: [v] when [v < a], else [a]. *)
Definition py_min (a : Q) (v : value) : exn + value :=
  match as_num v with
  | Some q => inr (if Qltb q a then v else VNum a)
  | None => inl TypeError
  end.

(** The float that arithmetic with a float makes of the operand [v]: a
    number is rounded to a float, an int outside the float range is refused,
    and so is a value that is not a number. *)
Definition to_float `{PyLib} (v : value) : exn + Q :=
  match as_num v with
  | Some q => if in_float_range q then inr (float_round q) else inl OverflowError
  | None => inl TypeError
  end.

(** A number that is a float: the rounding leaves it. *)
Definition exact `{PyLib} (q : Q) : Prop := float_round q = q.

(** What the properties of ranges use of the rounding: it is monotone, and
    the whole numbers up to 360 are floats. *)
Definition rounding_ok `{PyLib} : Prop :=
  (forall x y : Q, x <= y -> float_round x <= float_round y) /\
  (forall z : Z, (Z.abs z <= 360)%Z -> float_round (inject_Z z) == inject_Z z).

(** ** tools/aircraft.py *)

Module Aircraft.

(** An entry of the queue [commands]: the dictionary that [add_command]
    appends. The times of the simulation are numbers. *)
Record Command : Type := mkCommand {
  cmd_type : value;
  cmd_value : value;
  execution_time : option Q;
  completed : bool
}.

(** One entry of [flight_data]. *)
Record Sample : Type := mkSample {
  s_time : Q;
  s_position : Vec;
  s_heading : value;
  s_speed : value;
  s_status : string
}.

(** The attributes of an [Aircraft]. The class assigns to [status] the
    strings of [valid_statuses] only. *)
Record t : Type := mk {
  callsign : value;
  aircraft_type : value;
  position : Vec;
  heading : value;
  speed : value;
  altitude : value;
  fuel : value;
  size : value;
  status : string;
  color : value;
  commands : list Command;
  flight_data : list Sample
}.

(** [__init__], with the vector [Vector2(position)] for [position]. *)
Definition init (callsign aircraft_type : value) (position : Vec)
    (heading speed size : value) : t :=
  {| callsign := callsign; aircraft_type := aircraft_type;
     position := position; heading := heading; speed := speed;
     altitude := VNum 0; fuel := VNum 100; size := size;
     status := "parked"; color := VList [VNum 255; VNum 255; VNum 255];
     commands := []; flight_data := [] |}.

Definition set_position (p : Vec) (a : t) : t :=
  {| callsign := callsign a; aircraft_type := aircraft_type a;
     position := p; heading := heading a; speed := speed a;
     altitude := altitude a; fuel := fuel a; size := size a;
     status := status a; color := color a;
     commands := commands a; flight_data := flight_data a |}.

Definition set_heading (h : value) (a : t) : t :=
  {| callsign := callsign a; aircraft_type := aircraft_type a;
     position := position a; heading := h; speed := speed a;
     altitude := altitude a; fuel := fuel a; size := size a;
     status := status a; color := color a;
     commands := commands a; flight_data := flight_data a |}.

Definition set_speed (v : value) (a : t) : t :=
  {| callsign := callsign a; aircraft_type := aircraft_type a;
     position := position a; heading := heading a; speed := v;
     altitude := altitude a; fuel := fuel a; size := size a;
     status := status a; color := color a;
     commands := commands a; flight_data := flight_data a |}.

Definition set_altitude (v : value) (a : t) : t :=
  {| callsign := callsign a; aircraft_type := aircraft_type a;
     position := position a; heading := heading a; speed := speed a;
     altitude := v; fuel := fuel a; size := size a;
     status := status a; color := color a;
     commands := commands a; flight_data := flight_data a |}.

Definition set_status (s : string) (a : t) : t :=
  {| callsign := callsign a; aircraft_type := aircraft_type a;
     position := position a; heading := heading a; speed := speed a;
     altitude := altitude a; fuel := fuel a; size := size a;
     status := s; color := color a;
     commands := commands a; flight_data := flight_data a |}.

Definition set_commands (cs : list Command) (a : t) : t :=
  {| callsign := callsign a; aircraft_type := aircraft_type a;
     position := position a; heading := heading a; speed := speed a;
     altitude := altitude a; fuel := fuel a; size := size a;
     status := status a; color := color a;
     commands := cs; flight_data := flight_data a |}.

Definition set_flight_data (fd : list Sample) (a : t) : t :=
  {| callsign := callsign a; aircraft_type := aircraft_type a;
     position := position a; heading := heading a; speed := speed a;
     altitude := altitude a; fuel := fuel a; size := size a;
     status := status a; color := color a;
     commands := commands a; flight_data := fd |}.

(** The two readings of [pygame.time.get_ticks()] (milliseconds) that one
    call of [move] can make: in the test and in the appended sample. *)
Record Ticks : Type := mkTicks {
  ticks_test : Z;
  ticks_stamp : Z
}.

Definition seconds (ms : Z) : Q := inject_Z ms / 1000.

(** The unit conversion constant of [move]. *)
Definition scale : Q := 1 # 10.

Definition record_sample (clock : Ticks) (a : t) : t :=
  let due :=
    match last (flight_data a) with
    | None => true
    | Some s => Qltb (s_time s + 1) (seconds (ticks_test clock))
    end in
  if due then
    set_flight_data
      (flight_data a ++
       [ {| s_time := seconds (ticks_stamp clock);
            s_position := position a;
            s_heading := heading a;
            s_speed := speed a;
            s_status := status a |} ]) a
  else a.

Section Methods.
Context `{PyLib}.

Definition move (clock : Ticks) (delta_time : value) : Py t unit :=
  self <- get ;;
  if String.eqb (status self) "crashed" then ret tt
  else
    v <- lift (to_float (speed self)) ;;
    let speed_factor := v * scale in
    h <- lift (to_float (heading self)) ;;
    let rad := math_radians h in
    dt <- lift (to_float delta_time) ;;
    let dx := math_sin rad * speed_factor * dt in
    let dy := - math_cos rad * speed_factor * dt in
    modify (set_position (vec_add (position self) (dx, dy))) ;;;
    modify (record_sample clock).

Definition set_course (new_heading : value) : Py t unit :=
  h <- lift (py_mod new_heading 360) ;;
  modify (set_heading h).

Definition change_speed (new_speed : value) : Py t unit :=
  v <- lift (py_max 0 new_speed) ;;
  modify (set_speed v).

Definition valid_statuses : list string :=
  ["parked"; "taxiing"; "takeoff"; "landing"; "airborne"; "crashed"].

Definition change_status (new_status : value) : Py t unit :=
  match new_status with
  | VStr s =>
      if existsb (String.eqb s) valid_statuses then modify (set_status s)
      else ret tt
  | _ => ret tt
  end.

Definition add_command (command_type v : value) (time : option Q) : Py t unit :=
  modify (fun a =>
    set_commands
      (commands a ++
       [ {| cmd_type := command_type; cmd_value := v;
            execution_time := time; completed := false |} ]) a).

(** [cmd["execution_time"] is None or current_time >= cmd["execution_time"]] *)
Definition is_due (current_time : Q) (cmd : Command) : bool :=
  match execution_time cmd with
  | None => true
  | Some et => Qle_bool et current_time
  end.

(** The [if]/[elif] chain on [cmd["type"]]. *)
Definition apply_command (cmd : Command) : Py t unit :=
  if is_str "heading" (cmd_type cmd) then set_course (cmd_value cmd)
  else if is_str "speed" (cmd_type cmd) then change_speed (cmd_value cmd)
  else if is_str "status" (cmd_type cmd) then change_status (cmd_value cmd)
  else if is_str "altitude" (cmd_type cmd) then modify (set_altitude (cmd_value cmd))
  else ret tt.

Definition mark_completed (cmd : Command) : Command :=
  {| cmd_type := cmd_type cmd; cmd_value := cmd_value cmd;
     execution_time := execution_time cmd; completed := true |}.

(** [cmd["completed"] = True] for the entry at index [i] of the queue. *)
Definition complete_at (i : nat) (a : t) : t :=
  set_commands (alter mark_completed i (commands a)) a.

(** The body of the loop of [process_commands] for the entry [cmd] found at
    index [i]. *)
Definition process_entry (current_time : Q) (i : nat) (cmd : Command) : Py t unit :=
  if completed cmd then ret tt
  else if is_due current_time cmd then
    apply_command cmd ;;;
    modify (complete_at i)
  else ret tt.

(** The entries of the queue are distinct dictionaries ([add_command] makes
    a new one at each call), so the flag of an entry is, when the loop comes
    to it, the one it had when the loop began. *)
Definition process_commands (current_time : Q) : Py t unit :=
  self <- get ;;
  for_each_from 0 (commands self) (process_entry current_time).

(** The successive states of an aircraft on which [process_commands] is
    called with the times [ts], one call after the other: the state before
    the first call, then the state after each call (an exception that a call
    raises is dropped, the state it leaves is kept). *)
Fixpoint states (ts : list Q) (a : t) : list t :=
  a :: match ts with
       | [] => []
       | current_time :: rest => states rest (fst (process_commands current_time a))
       end.

End Methods.

(** *** Vocabulary of the properties *)

(** A command that a call at [current_time] has to apply: not completed, and
    scheduled at no time or at a time that has come. *)
Definition fires (current_time : Q) (cmd : Command) : bool :=
  negb (completed cmd) && is_due current_time cmd.


(** The entries, with their indices from [i] on, that are not completed in
    the queue [before] and are completed in the queue [after]. *)
Fixpoint fired_from (i : nat) (before after : list Command) : list (nat * Command) :=
  match before, after with
  | c :: bs, c' :: afs =>
      (if negb (completed c) && completed c' then [(i, c)] else [])
      ++ fired_from (i + 1) bs afs
  | _, _ => []
  end.

(** The commands that a call taking the aircraft from [a] to [a'] completed. *)
Definition fired (a a' : t) : list (nat * Command) :=
  fired_from 0 (commands a) (commands a').

(** A command whose type is one that [process_commands] knows. *)
Definition known_type (cmd : Command) : bool :=
  is_str "heading" (cmd_type cmd) || is_str "speed" (cmd_type cmd)
  || is_str "status" (cmd_type cmd) || is_str "altitude" (cmd_type cmd).

(** A command whose value has the type its type asks for: a number for a
    heading and for a speed. *)
Definition well_typed (cmd : Command) : bool :=
  if is_str "heading" (cmd_type cmd) || is_str "speed" (cmd_type cmd) then
    match as_num (cmd_value cmd) with
    | Some _ => true
    | None => false
    end
  else true.

(** How a call changes one entry of the queue. *)
Definition advance (c c' : Command) : Prop :=
  c' = c \/ (completed c = false /\ c' = mark_completed c).

Definition completed_at (cs : list Command) (i : nat) : Prop :=
  exists c, cs !! i = Some c /\ completed c = true.

Section Queue.
Context `{PyLib}.

(** The loop of [process_commands] on a queue given apart from the aircraft:
    the queue it leaves, the aircraft and the outcome. *)
Fixpoint process_queue (ct : Q) (queue : list Command) (a : Aircraft.t)
    : list Command * (Aircraft.t * (exn + unit)) :=
  match queue with
  | [] => ([], (a, inr tt))
  | c :: rest =>
      if fires ct c then
        match apply_command c a with
        | (a1, inl e) => (c :: rest, (a1, inl e))
        | (a1, inr _) =>
            let '(q, o) := process_queue ct rest a1 in (mark_completed c :: q, o)
        end
      else
        let '(q, o) := process_queue ct rest a in (c :: q, o)
  end.

End Queue.

(** A value that [move] can compute with: a number in the range of the
    floats. *)
Definition usable (v : value) : Prop :=
  exists q, as_num v = Some q /\ in_float_range q = true.

(** A trace whose samples are more than one second apart. *)
Definition spaced (fd : list Sample) : Prop :=
  forall (i : nat) (s s' : Sample),
    fd !! i = Some s -> fd !! (i + 1)%nat = Some s' -> s_time s + 1 < s_time s'.

(** The clock does not go back between the two readings of one call. *)
Definition clock_ok (clock : Ticks) : Prop :=
  (ticks_test clock <= ticks_stamp clock)%Z.

(** The attributes that neither [move] nor the commands are meant to touch. *)
Definition same_identity (a a' : t) : Prop :=
  callsign a' = callsign a /\ aircraft_type a' = aircraft_type a /\
  fuel a' = fuel a /\ size a' = size a /\ color a' = color a.

(** Two entries of the queue that differ at most in the flag. *)
Definition same_command (c c' : Command) : Prop :=
  cmd_type c' = cmd_type c /\ cmd_value c' = cmd_value c /\
  execution_time c' = execution_time c.

End Aircraft.

(** ** tools/airport.py *)

(** *** Dictionaries, sequences and JSON *)

Fixpoint dict_lookup (kvs : list (string * value)) (key : string) : option value :=
  match kvs with
  | [] => None
  | (k, v) :: rest => if String.eqb k key then Some v else dict_lookup rest key
  end.

(** [d.get(key, default)]: only a dict has the method. *)
Definition py_get (d : value) (key : string) (default : value) : exn + value :=
  match d with
  | VDict kvs =>
      match dict_lookup kvs key with
      | Some v => inr v
      | None => inr default
      end
  | _ => inl AttributeError
  end.

(** [d[key]] for a string [key]. *)
Definition py_getitem (d : value) (key : string) : exn + value :=
  match d with
  | VDict kvs =>
      match dict_lookup kvs key with
      | Some v => inr v
      | None => inl KeyError
      end
  | _ => inl TypeError
  end.

Fixpoint chars (s : string) : list value :=
  match s with
  | EmptyString => []
  | String c rest => VStr (String c EmptyString) :: chars rest
  end.

(** The items that [for x in v] visits. *)
Definition py_iter (v : value) : exn + list value :=
  match v with
  | VList l => inr l
  | VStr s => inr (chars s)
  | VDict kvs => inr (map (fun kv => VStr (fst kv)) kvs)
  | VVec p => inr [VNum (fst p); VNum (snd p)]
  | _ => inl TypeError
  end.

(** [[f(x) for x in l]] where [f] may raise. *)
Fixpoint map_raise {A B} (f : A -> exn + B) (l : list A) : exn + list B :=
  match l with
  | [] => inr []
  | x :: rest =>
      match f x with
      | inl e => inl e
      | inr y =>
          match map_raise f rest with
          | inl e => inl e
          | inr ys => inr (y :: ys)
          end
      end
  end.

(** What [json.dump] can write: everything but a vector and an opaque
    object. *)
Fixpoint json_ok (v : value) : bool :=
  match v with
  | VObj _ => false
  | VVec _ => false
  | VList l => forallb json_ok l
  | VDict kvs => forallb (fun kv => json_ok (snd kv)) kvs
  | _ => true
  end.

(** [Vector2(v)] *)
Definition Vector2 `{PyLib} (v : value) : exn + Vec :=
  match v with
  | VList [VNum x; VNum y] => inr (x, y)
  | VVec p => inr p
  | _ => Vector2_other v
  end.

Definition vec_json (p : Vec) : value := VList [VNum (fst p); VNum (snd p)].

Module Airport.

(** The dictionaries of the four collections, with the keys that the
    [add_*] methods give them. *)
Record Runway : Type := mkRunway {
  rw_name : value;
  start_pos : Vec;
  end_pos : Vec;
  rw_width : value;
  active : value;
  rw_length : Q;
  rw_heading : Q
}.

Record Taxiway : Type := mkTaxiway {
  tw_name : value;
  points : list Vec;
  tw_width : value
}.

Record Gate : Type := mkGate {
  g_name : value;
  g_position : Vec;
  g_heading : value;
  g_size : value;
  occupied : bool
}.

Record Building : Type := mkBuilding {
  b_name : value;
  polygon : list Vec;
  height : value;
  b_type : value
}.

Record Weather : Type := mkWeather {
  visibility : value;
  fog_density : value;
  wind_direction : value;
  wind_speed : value;
  precipitation : value
}.

Record t : Type := mk {
  name : value;
  code : value;
  location : Vec;
  runways : list Runway;
  taxiways : list Taxiway;
  gates : list Gate;
  buildings : list Building;
  weather : Weather;
  scale : Q;
  background_image : value
}.

Definition init (name code : value) (location : Vec) (runways : list Runway)
    (taxiways : list Taxiway) (gates : list Gate) : t :=
  {| name := name; code := code; location := location;
     runways := runways; taxiways := taxiways; gates := gates;
     buildings := [];
     weather := {| visibility := VNum 10000; fog_density := VNum 0;
                   wind_direction := VNum 0; wind_speed := VNum 0;
                   precipitation := VNone |};
     scale := 1; background_image := VNone |}.

Definition set_name (v : value) (a : t) : t :=
  {| name := v; code := code a; location := location a;
     runways := runways a; taxiways := taxiways a; gates := gates a;
     buildings := buildings a; weather := weather a;
     scale := scale a; background_image := background_image a |}.

Definition set_code (v : value) (a : t) : t :=
  {| name := name a; code := v; location := location a;
     runways := runways a; taxiways := taxiways a; gates := gates a;
     buildings := buildings a; weather := weather a;
     scale := scale a; background_image := background_image a |}.

Definition set_location (p : Vec) (a : t) : t :=
  {| name := name a; code := code a; location := p;
     runways := runways a; taxiways := taxiways a; gates := gates a;
     buildings := buildings a; weather := weather a;
     scale := scale a; background_image := background_image a |}.

Definition set_runways (l : list Runway) (a : t) : t :=
  {| name := name a; code := code a; location := location a;
     runways := l; taxiways := taxiways a; gates := gates a;
     buildings := buildings a; weather := weather a;
     scale := scale a; background_image := background_image a |}.

Definition set_taxiways (l : list Taxiway) (a : t) : t :=
  {| name := name a; code := code a; location := location a;
     runways := runways a; taxiways := l; gates := gates a;
     buildings := buildings a; weather := weather a;
     scale := scale a; background_image := background_image a |}.

Definition set_gates (l : list Gate) (a : t) : t :=
  {| name := name a; code := code a; location := location a;
     runways := runways a; taxiways := taxiways a; gates := l;
     buildings := buildings a; weather := weather a;
     scale := scale a; background_image := background_image a |}.

Definition set_buildings (l : list Building) (a : t) : t :=
  {| name := name a; code := code a; location := location a;
     runways := runways a; taxiways := taxiways a; gates := gates a;
     buildings := l; weather := weather a;
     scale := scale a; background_image := background_image a |}.

Definition set_weather_record (w : Weather) (a : t) : t :=
  {| name := name a; code := code a; location := location a;
     runways := runways a; taxiways := taxiways a; gates := gates a;
     buildings := buildings a; weather := w;
     scale := scale a; background_image := background_image a |}.

Definition set_visibility (v : value) (w : Weather) : Weather :=
  {| visibility := v; fog_density := fog_density w;
     wind_direction := wind_direction w; wind_speed := wind_speed w;
     precipitation := precipitation w |}.

Definition set_fog_density (v : value) (w : Weather) : Weather :=
  {| visibility := visibility w; fog_density := v;
     wind_direction := wind_direction w; wind_speed := wind_speed w;
     precipitation := precipitation w |}.

Definition set_wind_direction (v : value) (w : Weather) : Weather :=
  {| visibility := visibility w; fog_density := fog_density w;
     wind_direction := v; wind_speed := wind_speed w;
     precipitation := precipitation w |}.

Definition set_wind_speed (v : value) (w : Weather) : Weather :=
  {| visibility := visibility w; fog_density := fog_density w;
     wind_direction := wind_direction w; wind_speed := v;
     precipitation := precipitation w |}.

Definition set_precipitation (v : value) (w : Weather) : Weather :=
  {| visibility := visibility w; fog_density := fog_density w;
     wind_direction := wind_direction w; wind_speed := wind_speed w;
     precipitation := v |}.

(** [self.weather[...] = v] *)
Definition update_weather (f : Weather -> Weather) : Py t unit :=
  modify (fun a => set_weather_record (f (weather a)) a).

Definition is_none (v : value) : bool :=
  match v with
  | VNone => true
  | _ => false
  end.

(** One record of the list that [get_active_runways] returns. *)
Record ActiveRunway : Type := mkActive {
  runway : Runway;
  direction : string;
  heading : Q;
  difference : Q
}.

(** The coordinates of an end of a runway as [add_runway] receives them: a
    tuple or a list of two numbers, each an int or a float, or a [Vector2],
    whose coordinates are floats. *)
Inductive Coord : Type :=
| CInt (z : Z)
| CFloat (q : Q).

Definition Point : Type := (Coord * Coord)%type.

Definition point_of_vec (p : Vec) : Point := (CFloat (fst p), CFloat (snd p)).

(** [list.sort(key=...)]: a stable sort by the key, here by insertion. *)
Fixpoint insert_by {A} (key : A -> Q) (x : A) (l : list A) : list A :=
  match l with
  | [] => [x]
  | y :: rest =>
      if Qle_bool (key x) (key y) then x :: y :: rest
      else y :: insert_by key x rest
  end.

Fixpoint sort_by {A} (key : A -> Q) (l : list A) : list A :=
  match l with
  | [] => []
  | x :: rest => insert_by key x (sort_by key rest)
  end.

Section Methods.
Context `{PyLib}.

(** [Vector2(p)]: an int coordinate becomes a float. *)
Definition vector_coord (c : Coord) : exn + Q :=
  match c with
  | CInt z =>
      if in_float_range (inject_Z z) then inr (float_round (inject_Z z))
      else inl Vector2_overflow
  | CFloat q => inr q
  end.

Definition Vector2_point (p : Point) : exn + Vec :=
  match vector_coord (fst p) with
  | inl e => inl e
  | inr x =>
      match vector_coord (snd p) with
      | inl e => inl e
      | inr y => inr (x, y)
      end
  end.

(** [a - b] on two coordinates, with the information whether the result is
    an int: two ints are subtracted exactly; otherwise an int operand is
    converted and the result is a float. *)
Definition coord_float (c : Coord) : exn + Q :=
  match c with
  | CInt z =>
      if in_float_range (inject_Z z) then inr (float_round (inject_Z z))
      else inl OverflowError
  | CFloat q => inr q
  end.

Definition coord_sub (a b : Coord) : exn + (bool * Q) :=
  match a, b with
  | CInt x, CInt y => inr (true, inject_Z x - inject_Z y)
  | _, _ =>
      match coord_float a with
      | inl e => inl e
      | inr fa =>
          match coord_float b with
          | inl e => inl e
          | inr fb => inr (false, fa - fb)
          end
      end
  end.

(** The float that [math.atan2] makes of an argument. *)
Definition atan2_arg (is_int : bool) (q : Q) : exn + Q :=
  if is_int then
    (if in_float_range q then inr (float_round q) else inl OverflowError)
  else inr q.

(** [math.atan2(delta_x, -delta_y)]. The sign of a zero second argument
    matters when the first is zero too: [-delta_y] is the float -0.0 when
    [delta_y] is the float 0.0, and the int 0 when it is the int 0. *)
Definition _calculate_heading (start_pos end_pos : Point) : exn + Q :=
  match coord_sub (fst end_pos) (fst start_pos) with
  | inl e => inl e
  | inr (x_int, delta_x) =>
      match coord_sub (snd end_pos) (snd start_pos) with
      | inl e => inl e
      | inr (y_int, delta_y) =>
          match atan2_arg x_int delta_x with
          | inl e => inl e
          | inr y =>
              match atan2_arg y_int (- delta_y) with
              | inl e => inl e
              | inr x =>
                  let angle_rad :=
                    if Qeq_bool delta_x 0 && Qeq_bool delta_y 0 && negb y_int
                    then math_atan2_neg_zero
                    else math_atan2 y x in
                  let angle_deg := math_degrees angle_rad in
                  inr (float_mod angle_deg 360)
              end
          end
      end
  end.

Definition add_runway (name : value) (start_pos end_pos : Point)
    (width active : value) : Py t Runway :=
  sp <- lift (Vector2_point start_pos) ;;
  ep <- lift (Vector2_point end_pos) ;;
  let length := distance_to sp ep in
  h <- lift (_calculate_heading start_pos end_pos) ;;
  let runway := {| rw_name := name; start_pos := sp; end_pos := ep;
                   rw_width := width; active := active;
                   rw_length := length; rw_heading := h |} in
  modify (fun a => set_runways (runways a ++ [runway]) a) ;;;
  ret runway.

(** [add_taxiway], called with vectors as in [load_from_file]. *)
Definition add_taxiway (name : value) (points : list Vec) (width : value)
    : Py t Taxiway :=
  let taxiway := {| tw_name := name; points := points; tw_width := width |} in
  modify (fun a => set_taxiways (taxiways a ++ [taxiway]) a) ;;;
  ret taxiway.

Definition add_gate (name position heading size : value) : Py t Gate :=
  p <- lift (Vector2 position) ;;
  let gate := {| g_name := name; g_position := p; g_heading := heading;
                 g_size := size; occupied := false |} in
  modify (fun a => set_gates (gates a ++ [gate]) a) ;;;
  ret gate.

Definition add_building (name polygon height type : value) : Py t Building :=
  items <- lift (py_iter polygon) ;;
  vector_points <- lift (map_raise Vector2 items) ;;
  let building := {| b_name := name; polygon := vector_points;
                     height := height; b_type := type |} in
  modify (fun a => set_buildings (buildings a ++ [building]) a) ;;;
  ret building.

(** [set_weather]: an argument that is [None] is one that was left out. *)
Definition set_weather (visibility fog_density wind_direction wind_speed
    precipitation : value) : Py t unit :=
  (if is_none visibility then ret tt
   else update_weather (set_visibility visibility)) ;;;
  (if is_none fog_density then ret tt
   else
     m <- lift (py_min 1 fog_density) ;;
     f <- lift (py_max 0 m) ;;
     update_weather (set_fog_density f)) ;;;
  (if is_none wind_direction then ret tt
   else
     d <- lift (py_mod wind_direction 360) ;;
     update_weather (set_wind_direction d)) ;;;
  (if is_none wind_speed then ret tt
   else
     s <- lift (py_max 0 wind_speed) ;;
     update_weather (set_wind_speed s)) ;;;
  (if is_none precipitation then ret tt
   else update_weather (set_precipitation precipitation)).

(** [(heading + 180) % 360] on floats. *)
Definition reverse_of (heading : Q) : Q :=
  float_mod (float_round (heading + 180)) 360.

(** [abs((a - b + 180) % 360 - 180)] on floats: each operation rounds. *)
Definition angle_diff (a b : Q) : Q :=
  Qabs (float_round
          (float_mod (float_round (float_round (a - b) + 180)) 360 - 180)).

(** The record that the loop of [get_active_runways] appends for an active
    runway, for the wind direction [wind]. *)
Definition best_direction (wind : Q) (r : Runway) : ActiveRunway :=
  let heading := rw_heading r in
  let reverse_heading := reverse_of heading in
  let diff1 := angle_diff heading wind in
  let diff2 := angle_diff reverse_heading wind in
  if Qle_bool diff1 diff2 then
    {| runway := r; direction := "normal"; heading := heading;
       difference := diff1 |}
  else
    {| runway := r; direction := "reverse"; heading := reverse_heading;
       difference := diff2 |}.

(** The loop of [get_active_runways]; the wind direction is used, and has to
    be a number that converts to a float, only when a runway is active. *)
Fixpoint collect_active (wind_direction : value) (rws : list Runway)
    : exn + list ActiveRunway :=
  match rws with
  | [] => inr []
  | r :: rest =>
      if truthy (active r) then
        match to_float wind_direction with
        | inl e => inl e
        | inr w =>
            match collect_active wind_direction rest with
            | inl e => inl e
            | inr l => inr (best_direction w r :: l)
            end
        end
      else collect_active wind_direction rest
  end.

Definition get_active_runways (self : t) (wind_direction : value)
    : exn + list ActiveRunway :=
  let wind_direction :=
    if is_none wind_direction then Airport.wind_direction (weather self)
    else wind_direction in
  match collect_active wind_direction (runways self) with
  | inl e => inl e
  | inr active_runways => inr (sort_by difference active_runways)
  end.

End Methods.

(** *** Lookups by name

    The three loops return the first entry whose ["name"] equals the
    argument, or [None]; the argument is a string here. *)

Definition get_runway_by_name (self : t) (name : string) : option Runway :=
  List.find (fun runway => is_str name (rw_name runway)) (runways self).

Definition get_taxiway_by_name (self : t) (name : string) : option Taxiway :=
  List.find (fun taxiway => is_str name (tw_name taxiway)) (taxiways self).

Definition get_gate_by_name (self : t) (name : string) : option Gate :=
  List.find (fun gate => is_str name (g_name gate)) (gates self).

(** *** Vocabulary of the properties *)

(** [x] is the first entry of [l] whose name is the string [name]. *)
Definition first_named {A} (name_of : A -> value) (name : string) (l : list A)
    (x : A) : Prop :=
  exists pre post,
    l = pre ++ x :: post /\ name_of x = VStr name /\
    Forall (fun y => name_of y <> VStr name) pre.


(** The wind direction that [get_active_runways] works with. *)
Definition effective_wind (self : t) (wind_direction : value) : value :=
  if is_none wind_direction then Airport.wind_direction (weather self)
  else wind_direction.



Definition key_le {A} (key : A -> Q) (x y : A) : Prop := key x <= key y.

(** The entries whose key is [d]. *)
Definition with_key {A} (key : A -> Q) (d : Q) (l : list A) : list A :=
  List.filter (fun x => Qeq_bool (key x) d) l.

Definition is_active (r : Runway) : bool := truthy (active r).

(** The record of a runway: the direction of the smaller difference. *)
Definition record_of `{PyLib} (w : Q) (x : ActiveRunway) : Prop :=
  let h := rw_heading (runway x) in
  let rev := reverse_of h in
  (direction x = "normal" /\ heading x = h /\
   difference x = angle_diff h w /\ angle_diff h w <= angle_diff rev w)
  \/
  (direction x = "reverse" /\ heading x = rev /\
   difference x = angle_diff rev w /\ angle_diff rev w < angle_diff h w).

(** The value that [max(0, min(1, v))] stores for the number [q]. *)
Definition clamp01 (q : Q) : Q :=
  if Qltb q 1 then (if Qltb 0 q then q else 0) else 1.

(** An argument of [set_weather] that is left out or is a number. *)
Definition numeric_or_none (v : value) : Prop :=
  v = VNone \/ exists q, as_num v = Some q.

(** The weather that [set_weather] leaves when its numeric arguments are
    numbers. *)
Definition updated `{PyLib} (v f d s p : value) (w : Weather) : Weather :=
  {| visibility := if is_none v then visibility w else v;
     fog_density :=
       match as_num f with
       | Some q => VNum (clamp01 q)
       | None => fog_density w
       end;
     wind_direction :=
       match as_num d with
       | Some q => VNum (float_mod q 360)
       | None => wind_direction w
       end;
     wind_speed :=
       match as_num s with
       | Some q => if Qltb 0 q then s else VNum 0
       | None => wind_speed w
       end;
     precipitation := if is_none p then precipitation w else p |}.

(** A statement of [set_weather] keeps the fields of the parameters that
    were left out, its own included. *)
Definition keeps (v f d s p : value) (a0 a : Airport.t) : Prop :=
  (v = VNone -> visibility (weather a) = visibility (weather a0)) /\
  (f = VNone -> fog_density (weather a) = fog_density (weather a0)) /\
  (d = VNone -> wind_direction (weather a) = wind_direction (weather a0)) /\
  (s = VNone -> wind_speed (weather a) = wind_speed (weather a0)) /\
  (p = VNone -> precipitation (weather a) = precipitation (weather a0)).

Definition gates_free (a : Airport.t) : Prop :=
  Forall (fun g => occupied g = false) (gates a).

(** [set_weather] changes the weather and nothing else. *)
Definition weather_only (a0 a : Airport.t) : Prop :=
  a = set_weather_record (weather a) a0.

Definition free_if_normal (o : Airport.t * (exn + unit)) : Prop :=
  match snd o with
  | inr _ => gates_free (fst o)
  | inl _ => True
  end.

(** The gate that [add_gate] makes of the saved fields of [g]. *)
Definition vacated (g : Gate) : Gate :=
  {| g_name := g_name g; g_position := g_position g; g_heading := g_heading g;
     g_size := g_size g; occupied := false |}.


Section Vocabulary.
Context `{PyLib}.

(** The five statements of [set_weather]. *)
Definition visibility_step (v : value) : Py Airport.t unit :=
  if is_none v then ret tt else update_weather (set_visibility v).

Definition fog_density_step (v : value) : Py Airport.t unit :=
  if is_none v then ret tt
  else
    m <- lift (py_min 1 v) ;;
    f <- lift (py_max 0 m) ;;
    update_weather (set_fog_density f).

Definition wind_direction_step (v : value) : Py Airport.t unit :=
  if is_none v then ret tt
  else
    d <- lift (py_mod v 360) ;;
    update_weather (set_wind_direction d).

Definition wind_speed_step (v : value) : Py Airport.t unit :=
  if is_none v then ret tt
  else
    s <- lift (py_max 0 v) ;;
    update_weather (set_wind_speed s).

Definition precipitation_step (v : value) : Py Airport.t unit :=
  if is_none v then ret tt else update_weather (set_precipitation v).

(** The heading that [_calculate_heading] gives two vectors. *)
Definition vector_heading (start_pos end_pos : Vec) : Q :=
  let delta_x := fst end_pos - fst start_pos in
  let delta_y := snd end_pos - snd start_pos in
  let angle_rad :=
    if Qeq_bool delta_x 0 && Qeq_bool delta_y 0 then math_atan2_neg_zero
    else math_atan2 delta_x (- delta_y) in
  float_mod (math_degrees angle_rad) 360.

(** The runway that [add_runway] makes of two vectors. *)
Definition make_runway (name : value) (start_pos end_pos : Vec)
    (width active : value) : Runway :=
  {| rw_name := name; start_pos := start_pos; end_pos := end_pos;
     rw_width := width; active := active;
     rw_length := distance_to start_pos end_pos;
     rw_heading := vector_heading start_pos end_pos |}.

(** The runway that [add_runway] makes of the saved fields of [r]. *)
Definition rebuilt (r : Runway) : Runway :=
  make_runway (rw_name r) (start_pos r) (end_pos r) (rw_width r) (active r).


(** The airport [b] after the blocks of [load_from_file] that precede the
    weather have read the snapshot of [a]. *)
Definition reloaded (a b : Airport.t) : Airport.t :=
  {| name := name a; code := code a; location := location a;
     runways := map rebuilt (runways a);
     taxiways := taxiways a;
     gates := map vacated (gates a);
     buildings := buildings a;
     weather := weather b;
     scale := scale b; background_image := background_image b |}.

End Vocabulary.

End Airport.

(** *** Files and the console *)

(** The text of a file, as [json.load] sees it: a JSON document, or a text
    that is not one (anything else, a truncated document included). *)
Inductive FileContent : Type :=
| JsonText (v : value)
| Garbage.

(** A line printed by an [except] branch. *)
Inductive Diagnostic : Type :=
| LoadError (e : exn)
| SaveError (e : exn).

Record World : Type := mkWorld {
  files : gmap string FileContent;
  (** paths that [open(_, 'w')] refuses *)
  unwritable : gset string;
  stdout : list Diagnostic
}.

Definition set_files (fs : gmap string FileContent) (w : World) : World :=
  {| files := fs; unwritable := unwritable w; stdout := stdout w |}.

Definition print (d : Diagnostic) (w : World) : World :=
  {| files := files w; unwritable := unwritable w; stdout := stdout w ++ [d] |}.

Module AirportIO.
Import Airport.

(** The state of [load_from_file] and [save_to_file]: [self] and the world. *)
Definition State : Type := (Airport.t * World)%type.

Definition on_self {A} (m : Py Airport.t A) : Py State A :=
  fun s =>
    match m (fst s) with
    | (a, r) => ((a, snd s), r)
    end.

Definition on_world {A} (m : Py World A) : Py State A :=
  fun s =>
    match m (snd s) with
    | (w, r) => ((fst s, w), r)
    end.

Definition self : Py State Airport.t := fun s => (s, inr (fst s)).

(** [with open(filename, 'r') as f: data = json.load(f)] *)
Definition read_json (filename : string) : Py World value :=
  fun w =>
    match files w !! filename with
    | None => (w, inl OSError)
    | Some Garbage => (w, inl JSONDecodeError)
    | Some (JsonText v) => (w, inr v)
    end.

(** [with open(filename, 'w') as f: json.dump(data, f, indent=2)]: opening
    empties the file; a value that cannot be written leaves a text that is
    not a JSON document. *)
Definition write_json (filename : string) (data : value) : Py World unit :=
  fun w =>
    if decide (filename ∈ unwritable w) then (w, inl OSError)
    else if json_ok data then
      (set_files (<[filename := JsonText data]> (files w)) w, inr tt)
    else
      (set_files (<[filename := Garbage]> (files w)) w, inl TypeError).

(** What [save_to_file] writes of the dictionaries that the [add_*] methods
    build. *)
Definition runway_json (r : Runway) : value :=
  VDict [("name", rw_name r);
         ("start_pos", vec_json (start_pos r));
         ("end_pos", vec_json (end_pos r));
         ("width", rw_width r);
         ("active", active r)].

Definition taxiway_json (x : Taxiway) : value :=
  VDict [("name", tw_name x);
         ("points", VList (map vec_json (points x)));
         ("width", tw_width x)].

Definition gate_json (g : Gate) : value :=
  VDict [("name", g_name g);
         ("position", vec_json (g_position g));
         ("heading", g_heading g);
         ("size", g_size g);
         ("occupied", VBool (occupied g))].

Definition building_json (b : Building) : value :=
  VDict [("name", b_name b);
         ("polygon", VList (map vec_json (polygon b)));
         ("height", height b);
         ("type", b_type b)].

Definition weather_json (w : Weather) : value :=
  VDict [("visibility", visibility w);
         ("fog_density", fog_density w);
         ("wind_direction", wind_direction w);
         ("wind_speed", wind_speed w);
         ("precipitation", precipitation w)].

(** *** The objects that [save_to_file] reads

    The four collections of an airport are Python lists: they hold what the
    [add_*] methods appended and what was handed to the constructor, which
    keeps the lists of its caller as they are. [save_to_file] reads them as
    lists of arbitrary objects. *)
Record Attributes : Type := mkAttributes {
  at_name : value;
  at_code : value;
  at_location : Vec;
  at_runways : list value;
  at_taxiways : list value;
  at_gates : list value;
  at_buildings : list value;
  at_weather : value
}.

(** The dictionaries that the [add_*] methods build. *)
Definition runway_dict (r : Runway) : value :=
  VDict [("name", rw_name r);
         ("start_pos", VVec (start_pos r));
         ("end_pos", VVec (end_pos r));
         ("width", rw_width r);
         ("active", active r);
         ("length", VNum (rw_length r));
         ("heading", VNum (rw_heading r))].

Definition taxiway_dict (x : Taxiway) : value :=
  VDict [("name", tw_name x);
         ("points", VList (map VVec (points x)));
         ("width", tw_width x)].

Definition gate_dict (g : Gate) : value :=
  VDict [("name", g_name g);
         ("position", VVec (g_position g));
         ("heading", g_heading g);
         ("size", g_size g);
         ("occupied", VBool (occupied g))].

Definition building_dict (b : Building) : value :=
  VDict [("name", b_name b);
         ("polygon", VList (map VVec (polygon b)));
         ("height", height b);
         ("type", b_type b)].

(** The attributes of an airport all of whose entries the [add_*] methods
    built. *)
Definition attributes (a : Airport.t) : Attributes :=
  {| at_name := name a; at_code := code a; at_location := location a;
     at_runways := map runway_dict (runways a);
     at_taxiways := map taxiway_dict (taxiways a);
     at_gates := map gate_dict (gates a);
     at_buildings := map building_dict (buildings a);
     at_weather := weather_json (weather a) |}.

Definition and_then {A B} (r : exn + A) (k : A -> exn + B) : exn + B :=
  match r with
  | inl e => inl e
  | inr x => k x
  end.

(** [(p.x, p.y)]: only a vector has the two attributes. *)
Definition py_xy (p : value) : exn + value :=
  match p with
  | VVec v => inr (vec_json v)
  | _ => inl AttributeError
  end.

(** [(d[key].x, d[key].y)] *)
Definition xy_at (d : value) (key : string) : exn + value :=
  and_then (py_getitem d key) py_xy.

(** [[(p.x, p.y) for p in d[key]]] *)
Definition xys_at (d : value) (key : string) : exn + value :=
  and_then (py_getitem d key) (fun ps =>
  and_then (py_iter ps) (fun items =>
  and_then (map_raise py_xy items) (fun l => inr (VList l)))).

(** The dictionaries that the four loops of [save_to_file] append. *)
Definition runway_entry (runway : value) : exn + value :=
  and_then (py_getitem runway "name") (fun n =>
  and_then (xy_at runway "start_pos") (fun sp =>
  and_then (xy_at runway "end_pos") (fun ep =>
  and_then (py_getitem runway "width") (fun w =>
  and_then (py_getitem runway "active") (fun act =>
  inr (VDict [("name", n); ("start_pos", sp); ("end_pos", ep);
              ("width", w); ("active", act)])))))).

Definition taxiway_entry (taxiway : value) : exn + value :=
  and_then (py_getitem taxiway "name") (fun n =>
  and_then (xys_at taxiway "points") (fun ps =>
  and_then (py_getitem taxiway "width") (fun w =>
  inr (VDict [("name", n); ("points", ps); ("width", w)])))).

Definition gate_entry (gate : value) : exn + value :=
  and_then (py_getitem gate "name") (fun n =>
  and_then (xy_at gate "position") (fun p =>
  and_then (py_getitem gate "heading") (fun h =>
  and_then (py_getitem gate "size") (fun sz =>
  and_then (py_getitem gate "occupied") (fun occ =>
  inr (VDict [("name", n); ("position", p); ("heading", h);
              ("size", sz); ("occupied", occ)])))))).

Definition building_entry (building : value) : exn + value :=
  and_then (py_getitem building "name") (fun n =>
  and_then (xys_at building "polygon") (fun ps =>
  and_then (py_getitem building "height") (fun h =>
  and_then (py_getitem building "type") (fun ty =>
  inr (VDict [("name", n); ("polygon", ps); ("height", h); ("type", ty)]))))).

(** The dictionary [data] that [save_to_file] builds before the [try]. *)
Definition save_data (o : Attributes) : exn + value :=
  and_then (map_raise runway_entry (at_runways o)) (fun rs =>
  and_then (map_raise taxiway_entry (at_taxiways o)) (fun ts =>
  and_then (map_raise gate_entry (at_gates o)) (fun gs =>
  and_then (map_raise building_entry (at_buildings o)) (fun bs =>
  inr (VDict [("name", at_name o);
              ("code", at_code o);
              ("location", vec_json (at_location o));
              ("runways", VList rs);
              ("taxiways", VList ts);
              ("gates", VList gs);
              ("buildings", VList bs);
              ("weather", at_weather o)]))))).

(** The statements of [save_to_file] inside the [try]. *)
Definition save_body (filename : string) (data : value) : Py World bool :=
  write_json filename data ;;;
  ret true.

(** The [except] branch of [save_to_file]. *)
Definition save_failed (e : exn) : Py World bool :=
  modify (print (SaveError e)) ;;;
  ret false.

(** [save_to_file] on an airport with the attributes [o]. *)
Definition save_attributes (filename : string) (o : Attributes) : Py World bool :=
  data <- lift (save_data o) ;;
  try_except (save_body filename data) save_failed.

Definition save_to_file (filename : string) : Py State bool :=
  a <- self ;;
  on_world (save_attributes filename (attributes a)).

(** The dictionary that [save_to_file] builds for an airport all of whose
    entries the [add_*] methods built. *)
Definition snapshot (a : Airport.t) : value :=
  VDict [("name", name a);
         ("code", code a);
         ("location", vec_json (location a));
         ("runways", VList (map runway_json (runways a)));
         ("taxiways", VList (map taxiway_json (taxiways a)));
         ("gates", VList (map gate_json (gates a)));
         ("buildings", VList (map building_json (buildings a)));
         ("weather", weather_json (weather a))].

Section Load.
Context `{PyLib}.

Definition weather_keys : list string :=
  ["visibility"; "fog_density"; "wind_direction"; "wind_speed"; "precipitation"].

(** [set_weather] called with the keyword arguments [kwargs]: [kwargs] has to
    be a dict whose keys are parameters of [set_weather]; a parameter without
    a key is [None]. *)
Definition set_weather_kwargs (kwargs : value) : Py Airport.t unit :=
  match kwargs with
  | VDict kvs =>
      if forallb (fun kv => existsb (String.eqb (fst kv)) weather_keys) kvs then
        let arg key := default VNone (dict_lookup kvs key) in
        set_weather (arg "visibility") (arg "fog_density")
          (arg "wind_direction") (arg "wind_speed") (arg "precipitation")
      else raise TypeError
  | _ => raise TypeError
  end.

Definition load_runway (runway_data : value) : Py Airport.t unit :=
  sp <- lift (py_getitem runway_data "start_pos") ;;
  start_pos <- lift (Vector2 sp) ;;
  ep <- lift (py_getitem runway_data "end_pos") ;;
  end_pos <- lift (Vector2 ep) ;;
  n <- lift (py_getitem runway_data "name") ;;
  w <- lift (py_get runway_data "width" (VNum 45)) ;;
  act <- lift (py_get runway_data "active" (VBool true)) ;;
  add_runway n (point_of_vec start_pos) (point_of_vec end_pos) w act ;;;
  ret tt.

Definition load_taxiway (taxiway_data : value) : Py Airport.t unit :=
  ps <- lift (py_getitem taxiway_data "points") ;;
  items <- lift (py_iter ps) ;;
  points <- lift (map_raise Vector2 items) ;;
  n <- lift (py_getitem taxiway_data "name") ;;
  w <- lift (py_get taxiway_data "width" (VNum 15)) ;;
  add_taxiway n points w ;;;
  ret tt.

Definition load_gate (gate_data : value) : Py Airport.t unit :=
  n <- lift (py_getitem gate_data "name") ;;
  p <- lift (py_getitem gate_data "position") ;;
  h <- lift (py_get gate_data "heading" (VNum 0)) ;;
  s <- lift (py_get gate_data "size" (VNum 1)) ;;
  add_gate n p h s ;;;
  ret tt.

Definition load_building (building_data : value) : Py Airport.t unit :=
  n <- lift (py_getitem building_data "name") ;;
  p <- lift (py_getitem building_data "polygon") ;;
  h <- lift (py_get building_data "height" (VNum 10)) ;;
  ty <- lift (py_get building_data "type" (VStr "terminal")) ;;
  add_building n p h ty ;;;
  ret tt.

(** [if "weather" in data: self.set_weather(...)]; [data] is a dict here,
    [data.get] raised before otherwise. *)
Definition weather_in (data : value) : Py Airport.t unit :=
  match data with
  | VDict kvs =>
      match dict_lookup kvs "weather" with
      | Some kwargs => set_weather_kwargs kwargs
      | None => ret tt
      end
  | _ => raise TypeError
  end.

(** The statements of [load_from_file] after [data] was read, one
    definition for each of its commented blocks. *)
Definition load_basic (data : value) : Py Airport.t unit :=
  a <- get ;;
  n <- lift (py_get data "name" (name a)) ;;
  modify (set_name n) ;;;
  a <- get ;;
  c <- lift (py_get data "code" (code a)) ;;
  modify (set_code c) ;;;
  l <- lift (py_get data "location" (VList [VNum 0; VNum 0])) ;;
  loc <- lift (Vector2 l) ;;
  modify (set_location loc).

Definition load_runways (data : value) : Py Airport.t unit :=
  modify (set_runways []) ;;;
  rs <- lift (py_get data "runways" (VList [])) ;;
  items <- lift (py_iter rs) ;;
  for_each items load_runway.

Definition load_taxiways (data : value) : Py Airport.t unit :=
  modify (set_taxiways []) ;;;
  ts <- lift (py_get data "taxiways" (VList [])) ;;
  items <- lift (py_iter ts) ;;
  for_each items load_taxiway.

Definition load_gates (data : value) : Py Airport.t unit :=
  modify (set_gates []) ;;;
  gs <- lift (py_get data "gates" (VList [])) ;;
  items <- lift (py_iter gs) ;;
  for_each items load_gate.

Definition load_buildings (data : value) : Py Airport.t unit :=
  modify (set_buildings []) ;;;
  bs <- lift (py_get data "buildings" (VList [])) ;;
  items <- lift (py_iter bs) ;;
  for_each items load_building.

Definition load_data (data : value) : Py Airport.t unit :=
  load_basic data ;;;
  load_runways data ;;;
  load_taxiways data ;;;
  load_gates data ;;;
  load_buildings data ;;;
  weather_in data.

(** The statements of [load_from_file] inside the [try]. *)
Definition load_body (filename : string) : Py State bool :=
  data <- on_world (read_json filename) ;;
  on_self (load_data data) ;;;
  ret true.

(** The [except] branch of [load_from_file]. *)
Definition load_failed (e : exn) : Py State bool :=
  on_world (modify (print (LoadError e))) ;;;
  ret false.

Definition load_from_file (filename : string) : Py State bool :=
  try_except (load_body filename) load_failed.

End Load.

End AirportIO.

(** ** Data to run the definitions on *)

Section AircraftData.
Import Aircraft.

Definition demo_queue : list Command :=
  [ {| cmd_type := VStr "heading"; cmd_value := VNum 370;
       execution_time := None; completed := false |};
    {| cmd_type := VStr "speed"; cmd_value := VNum (-5);
       execution_time := Some 10; completed := false |};
    {| cmd_type := VStr "squawk"; cmd_value := VNum 7700;
       execution_time := None; completed := false |};
    {| cmd_type := VStr "status"; cmd_value := VStr "takeoff";
       execution_time := Some 3; completed := false |} ].

Definition demo_aircraft : Aircraft.t :=
  set_commands demo_queue
    (Aircraft.init (VStr "KLM4805") (VStr "Boeing 747-200") (0, 0)
       (VNum 0) (VNum 100) (VList [VNum 50; VNum 50])).

Definition demo_wreck : Aircraft.t := set_status "crashed" demo_aircraft.

Definition demo_calls : list (Ticks * value) :=
  [ ({| ticks_test := 0; ticks_stamp := 0 |}, VNum 1);
    ({| ticks_test := 16; ticks_stamp := 17 |}, VStr "late");
    ({| ticks_test := 2016; ticks_stamp := 2016 |}, VNum (1 # 60)) ].

Definition demo_clock : Ticks := {| ticks_test := 0; ticks_stamp := 0 |}.

(** The demo aircraft after [process_commands] at the times 5, 5 and 11. *)
Definition demo_after_5 : Aircraft.t :=
  fst (@process_commands test_lib 5 demo_aircraft).

Definition demo_after_11 : Aircraft.t :=
  fst (@process_commands test_lib 11 demo_after_5).

(** Two turns, the second one scheduled before the first. *)
Definition demo_turns : list Command :=
  [ {| cmd_type := VStr "heading"; cmd_value := VNum 90;
       execution_time := Some 4; completed := false |};
    {| cmd_type := VStr "heading"; cmd_value := VNum 270;
       execution_time := Some 1; completed := false |} ].

Definition demo_turning : Aircraft.t := set_commands demo_turns demo_aircraft.

End AircraftData.

Section AirportData.
Import Airport AirportIO.

Definition demo_empty : Airport.t :=
  Airport.init (VStr "Los Rodeos Airport") (VStr "GCXO") (120, 80) [] [] [].

(** An airport made with the [add_*] methods, whose first gate was then
    occupied. *)
Definition demo_airport : Airport.t :=
  let built :=
    fst ((@add_runway test_lib (VStr "12/30") (CInt 0, CInt 0) (CInt 3000, CInt 0)
            (VNum 45) (VBool true) ;;;
          @add_runway test_lib (VStr "08/26") (CInt 0, CInt 0) (CInt 0, CInt 100)
            (VNum 30) (VBool true) ;;;
          @add_runway test_lib (VStr "closed") (CInt 0, CInt 0) (CInt 50, CInt 0)
            (VNum 30) (VBool false) ;;;
          add_taxiway (VStr "A") [(0, 10); (20, 10); (20, 40)] (VNum 15) ;;;
          @add_gate test_lib (VStr "G1") (VList [VNum 25; VNum 40]) (VNum 90) (VNum 2) ;;;
          @add_gate test_lib (VStr "G2") (VList [VNum 35; VNum 40]) (VNum 90) (VNum 1) ;;;
          @add_building test_lib (VStr "Terminal")
            (VList [VList [VNum 0; VNum 50]; VList [VNum 40; VNum 50];
                    VList [VNum 40; VNum 70]])
            (VNum 10) (VStr "terminal") ;;;
          @set_weather test_lib (VNum 500) (VNum (9 # 10)) (VNum 300) (VNum 12) VNone)
         demo_empty) in
  set_gates
    (match gates built with
     | g :: rest =>
         {| g_name := g_name g; g_position := g_position g;
            g_heading := g_heading g; g_size := g_size g; occupied := true |}
         :: rest
     | [] => []
     end) built.

Definition demo_world : World :=
  {| files := ∅; unwritable := {["/readonly.json"]}; stdout := [] |}.

Definition demo_saved : State :=
  fst (save_to_file "rodeos.json" (demo_airport, demo_world)).

Definition demo_loaded : State :=
  fst (@load_from_file test_lib "rodeos.json" (demo_empty, snd demo_saved)).

(** An airport whose runway was handed to the constructor, with tuples for
    its two ends. *)
Definition demo_given : Attributes :=
  {| at_name := VStr "Los Rodeos Airport"; at_code := VStr "GCXO";
     at_location := (0, 0);
     at_runways :=
       [VDict [("name", VStr "12/30");
               ("start_pos", VList [VNum 0; VNum 0]);
               ("end_pos", VList [VNum 3000; VNum 0]);
               ("width", VNum 45); ("active", VBool true);
               ("length", VNum 3000); ("heading", VNum 90)]];
     at_taxiways := []; at_gates := []; at_buildings := [];
     at_weather := weather_json (weather demo_empty) |}.

End AirportData.

(** * Properties *)

(** ** Aircraft *)

Section AircraftProperties.
Context `{PyLib}.
Import Aircraft.

Lemma move_crashed (clock : Ticks) (dt : value) (a : Aircraft.t) :
  status a = "crashed" -> move clock dt a = (a, inr tt).
Proof.
  intros Hs. unfold move, bind, get. now rewrite Hs.
Qed.

(** C3. On an aircraft whose status is "crashed", any sequence of calls of
    [move], whatever the [delta_time] of each call (a number or not) and
    whatever the clock shows, returns normally and leaves the position, and
    the rest of the aircraft, as it was. *)
Theorem crashed_moves_keep_position (a : Aircraft.t) (calls : list (Ticks * value)) :
  status a = "crashed" ->
  let run := for_each calls (fun c => move (fst c) (snd c)) a in
  position (fst run) = position a /\ run = (a, inr tt).
Proof.
  intros Hs. cbv zeta.
  assert (Hrun : for_each calls (fun c => move (fst c) (snd c)) a = (a, inr tt)).
  { induction calls as [|c rest IH]; [reflexivity|].
    cbn [for_each]. unfold bind at 1. now rewrite move_crashed. }
  now rewrite Hrun.
Qed.


Lemma to_float_number (v : value) (q : Q) :
  as_num v = Some q -> in_float_range q = true -> to_float v = inr (float_round q).
Proof. intros Hq Hr. unfold to_float. now rewrite Hq, Hr. Qed.

Lemma to_float_overflow (v : value) (q : Q) :
  as_num v = Some q -> in_float_range q = false -> to_float v = inl OverflowError.
Proof. intros Hq Hr. unfold to_float. now rewrite Hq, Hr. Qed.

Lemma to_float_other (v : value) :
  as_num v = None -> to_float v = inl TypeError.
Proof. intros Hq. unfold to_float. now rewrite Hq. Qed.

Lemma to_float_inr (v : value) (x : Q) :
  to_float v = inr x ->
  exists q, as_num v = Some q /\ in_float_range q = true /\ x = float_round q.
Proof.
  unfold to_float. destruct (as_num v) as [q|]; [|discriminate].
  destruct (in_float_range q) eqn:Hr; [|discriminate].
  intros [= <-]. now exists q.
Qed.

Lemma to_float_inl (v : value) (e : exn) :
  to_float v = inl e ->
  (e = TypeError /\ as_num v = None) \/
  (e = OverflowError /\ exists q, as_num v = Some q /\ in_float_range q = false).
Proof.
  unfold to_float. destruct (as_num v) as [q|]; [|intros [= <-]; now left].
  destruct (in_float_range q) eqn:Hr; [discriminate|].
  intros [= <-]. right. split; [reflexivity|]. now exists q.
Qed.

Lemma move_flying (clock : Ticks) (dtv : value) (a : Aircraft.t) (v h dt : Q) :
  status a <> "crashed" ->
  to_float (speed a) = inr v ->
  to_float (heading a) = inr h ->
  to_float dtv = inr dt ->
  move clock dtv a =
    (record_sample clock
       (set_position
          (vec_add (position a)
             (math_sin (math_radians h) * (v * scale) * dt,
              - math_cos (math_radians h) * (v * scale) * dt)) a),
     inr tt).
Proof.
  intros Hs Hv Hh Hdt.
  apply String.eqb_neq in Hs.
  unfold move, bind, get, lift, modify.
  now rewrite Hs, Hv, Hh, Hdt.
Qed.


(** C8. [change_status] with a value that is not one of the six valid
    statuses (a string that is none of them, or a value that is not a string)
    returns normally and leaves the aircraft, its status included, unchanged;
    with one of the six it returns normally and the status is that one. *)
Theorem change_status_valid_or_ignored :
  (forall (a : Aircraft.t) (s : value),
     (forall n, In n ["parked"; "taxiing"; "takeoff"; "landing"; "airborne"; "crashed"] ->
                s <> VStr n) ->
     change_status s a = (a, inr tt) /\
     status (fst (change_status s a)) = status a) /\
  (forall (a : Aircraft.t) (n : string),
     In n ["parked"; "taxiing"; "takeoff"; "landing"; "airborne"; "crashed"] ->
     snd (change_status (VStr n) a) = inr tt /\
     status (fst (change_status (VStr n) a)) = n).
Proof.
  split.
  - intros a s Hs.
    assert (Hc : change_status s a = (a, inr tt)).
    { unfold change_status. destruct s as [| | |n| | | |]; try reflexivity.
      destruct (existsb (String.eqb n) valid_statuses) eqn:He; [|reflexivity].
      apply existsb_exists in He. destruct He as [m [Hin Heq]].
      apply String.eqb_eq in Heq. subst m. now destruct (Hs n Hin). }
    now rewrite Hc.
  - intros a n Hin. unfold change_status.
    assert (He : existsb (String.eqb n) valid_statuses = true).
    { apply existsb_exists. exists n. split; [exact Hin | apply String.eqb_refl]. }
    now rewrite He.
Qed.

(** *** The command queue *)

Lemma set_commands_id (a : Aircraft.t) : set_commands (commands a) a = a.
Proof. now destruct a. Qed.

Lemma set_commands_twice (cs cs' : list Command) (a : Aircraft.t) :
  set_commands cs (set_commands cs' a) = set_commands cs a.
Proof. reflexivity. Qed.

Lemma set_course_frame (v : value) (cs : list Command) (a : Aircraft.t) :
  set_course v (set_commands cs a) =
  (set_commands cs (fst (set_course v a)), snd (set_course v a)).
Proof.
  unfold set_course, bind, lift, modify. now destruct (py_mod v 360).
Qed.

Lemma change_speed_frame (v : value) (cs : list Command) (a : Aircraft.t) :
  change_speed v (set_commands cs a) =
  (set_commands cs (fst (change_speed v a)), snd (change_speed v a)).
Proof.
  unfold change_speed, bind, lift, modify. now destruct (py_max 0 v).
Qed.

Lemma change_status_frame (v : value) (cs : list Command) (a : Aircraft.t) :
  change_status v (set_commands cs a) =
  (set_commands cs (fst (change_status v a)), snd (change_status v a)).
Proof.
  unfold change_status. destruct v; try reflexivity.
  now destruct (existsb _ _).
Qed.

(** [apply_command] neither reads nor writes the queue. *)
Lemma apply_command_frame (c : Command) (cs : list Command) (a : Aircraft.t) :
  apply_command c (set_commands cs a) =
  (set_commands cs (fst (apply_command c a)), snd (apply_command c a)).
Proof.
  unfold apply_command.
  destruct (is_str "heading" _); [apply set_course_frame|].
  destruct (is_str "speed" _); [apply change_speed_frame|].
  destruct (is_str "status" _); [apply change_status_frame|].
  destruct (is_str "altitude" _); reflexivity.
Qed.

Lemma apply_command_commands (c : Command) (a : Aircraft.t) :
  commands (fst (apply_command c a)) = commands a.
Proof.
  rewrite <- (set_commands_id a) at 1. now rewrite apply_command_frame.
Qed.

(** A command that raises has changed nothing, and raises in every state. *)
Lemma apply_command_raises (c : Command) (a a' : Aircraft.t) (e : exn) :
  apply_command c a = (a', inl e) ->
  a' = a /\ forall b, apply_command c b = (b, inl e).
Proof.
  unfold apply_command.
  destruct (is_str "heading" _).
  { unfold set_course, bind, lift, modify.
    destruct (py_mod _ 360); intros [= <- <-]. now split. }
  destruct (is_str "speed" _).
  { unfold change_speed, bind, lift, modify.
    destruct (py_max 0 _); intros [= <- <-]. now split. }
  destruct (is_str "status" _).
  { unfold change_status. destruct (cmd_value c); try discriminate.
    destruct (existsb _ _); discriminate. }
  destruct (is_str "altitude" _); discriminate.
Qed.

Lemma process_queue_frame (ct : Q) (queue cs : list Command) (a : Aircraft.t) :
  process_queue ct queue (set_commands cs a) =
  (fst (process_queue ct queue a),
   (set_commands cs (fst (snd (process_queue ct queue a))),
    snd (snd (process_queue ct queue a)))).
Proof.
  revert a. induction queue as [|c rest IH]; intros a; [reflexivity|].
  cbn [process_queue]. destruct (fires ct c).
  - rewrite apply_command_frame.
    destruct (apply_command c a) as [a1 [e|u]]; cbn [fst snd]; [reflexivity|].
    rewrite IH. now destruct (process_queue ct rest a1) as [q [b r]].
  - rewrite IH. now destruct (process_queue ct rest a) as [q [b r]].
Qed.

(** The loop over the queue stored in the aircraft, whose entries it marks in
    place, computes [process_queue]. *)
Lemma loop_process_queue (ct : Q) (queue pre : list Command) (a : Aircraft.t) :
  commands a = pre ++ queue ->
  for_each_from (List.length pre) queue (process_entry ct) a =
  (set_commands (pre ++ fst (process_queue ct queue a))
     (fst (snd (process_queue ct queue a))),
   snd (snd (process_queue ct queue a))).
Proof.
  revert pre a. induction queue as [|c rest IH]; intros pre a Hc.
  - cbn. rewrite <- Hc. now rewrite set_commands_id.
  - cbn [for_each_from process_queue]. unfold bind at 1. unfold process_entry at 1.
    unfold fires.
    destruct (completed c) eqn:Hdone; cbn [negb andb].
    + unfold ret at 1.
      replace (List.length pre + 1)%nat with (List.length (pre ++ [c])) by (rewrite List.length_app; reflexivity).
      rewrite (IH (pre ++ [c]) a) by (now rewrite <- app_assoc).
      destruct (process_queue ct rest a) as [q [b r]]. cbn [fst snd].
      now rewrite <- app_assoc.
    + destruct (is_due ct c) eqn:Hdue.
      * unfold bind at 1.
        pose proof (apply_command_commands c a) as Hk.
        destruct (apply_command c a) as [a1 [e|u]] eqn:Ha; cbn [fst snd] in *.
        { rewrite <- Hc, <- Hk. now rewrite set_commands_id. }
        unfold modify at 1.
        assert (Hq : commands (complete_at (List.length pre) a1)
                     = (pre ++ [mark_completed c]) ++ rest).
        { unfold complete_at. cbn [commands set_commands]. rewrite Hk, Hc.
          rewrite <- app_assoc. cbn [app].
          rewrite (alter_app_r_alt mark_completed pre (c :: rest) (List.length pre)) by lia.
          now rewrite Nat.sub_diag. }
        replace (List.length pre + 1)%nat with (List.length (pre ++ [mark_completed c]))
          by (rewrite List.length_app; reflexivity).
        rewrite (IH _ _ Hq). unfold complete_at. rewrite process_queue_frame.
        destruct (process_queue ct rest a1) as [q [b r]]. cbn [fst snd].
        now rewrite <- app_assoc.
      * unfold ret at 1.
        replace (List.length pre + 1)%nat with (List.length (pre ++ [c])) by (rewrite List.length_app; reflexivity).
        rewrite (IH (pre ++ [c]) a) by (now rewrite <- app_assoc).
        destruct (process_queue ct rest a) as [q [b r]]. cbn [fst snd].
        now rewrite <- app_assoc.
Qed.

Lemma process_commands_queue (ct : Q) (a : Aircraft.t) :
  process_commands ct a =
  (set_commands (fst (process_queue ct (commands a) a))
     (fst (snd (process_queue ct (commands a) a))),
   snd (snd (process_queue ct (commands a) a))).
Proof.
  unfold process_commands, bind, get.
  exact (loop_process_queue ct (commands a) [] a eq_refl).
Qed.






Lemma process_queue_advance (ct : Q) (queue : list Command) (a : Aircraft.t) :
  Forall2 advance queue (fst (process_queue ct queue a)).
Proof.
  revert a. induction queue as [|c rest IH]; intros a; [constructor|].
  cbn [process_queue]. destruct (fires ct c) eqn:Hf.
  - destruct (apply_command c a) as [a1 [e|u]].
    + cbn [fst]. apply Forall2_same_length_lookup_2; [reflexivity|].
      intros i x y Hx Hy. left. congruence.
    + specialize (IH a1). destruct (process_queue ct rest a1) as [q [b r]].
      cbn [fst] in *. constructor; [|exact IH].
      right. split; [|reflexivity].
      unfold fires in Hf. apply andb_prop in Hf as [Hn _].
      now destruct (completed c).
  - specialize (IH a). destruct (process_queue ct rest a) as [q [b r]].
    cbn [fst] in *. constructor; [now left | exact IH].
Qed.


Lemma process_commands_advance (ct : Q) (a : Aircraft.t) :
  Forall2 advance (commands a) (commands (fst (process_commands ct a))).
Proof.
  rewrite process_commands_queue. cbn [fst commands set_commands].
  apply process_queue_advance.
Qed.

Lemma fired_from_lookup (k i : nat) (c : Command) (before after : list Command) :
  In (i, c) (fired_from k before after) ->
  (k <= i)%nat /\ before !! (i - k)%nat = Some c /\ completed c = false /\
  completed_at after (i - k).
Proof.
  revert k after. induction before as [|b bs IH]; intros k after; [intros []|].
  destruct after as [|b' afs]; [intros []|].
  cbn [fired_from]. rewrite in_app_iff. intros [Hin | Hin].
  - destruct (completed b) eqn:Hb; [destruct Hin|].
    destruct (completed b') eqn:Hb'; [|destruct Hin].
    destruct Hin as [[= <- <-]|[]]. rewrite Nat.sub_diag.
    repeat split; [lia | assumption |]. now exists b'.
  - destruct (IH _ _ Hin) as (Hle & Hl & Hn & c' & Hc' & Hd).
    replace (i - k)%nat with (S (i - (k + 1))) by lia.
    repeat split; [lia | exact Hl | exact Hn |]. now exists c'.
Qed.

Lemma fired_index (a a' : Aircraft.t) (i : nat) :
  In i (map fst (fired a a')) ->
  (exists c, commands a !! i = Some c /\ completed c = false) /\
  completed_at (commands a') i.
Proof.
  intros Hin. apply in_map_iff in Hin as [[i' c] [<- Hin]].
  destruct (fired_from_lookup _ _ _ _ _ Hin) as (_ & Hl & Hn & Hd).
  rewrite Nat.sub_0_r in *. cbn [fst]. split; [now exists c | exact Hd].
Qed.


Lemma advance_keeps_completed (cs cs' : list Command) (i : nat) (c : Command) :
  Forall2 advance cs cs' -> cs !! i = Some c -> completed c = true ->
  cs' !! i = Some c.
Proof.
  intros Hadv Hc Hdone.
  destruct (Forall2_lookup_l _ _ _ _ _ Hadv Hc) as [c' [Hc' [-> | [Hn ->]]]];
    [exact Hc' | congruence].
Qed.

Lemma states_keep_completed (ts : list Q) (a s : Aircraft.t) (k i : nat) (c : Command) :
  states ts a !! k = Some s ->
  commands a !! i = Some c -> completed c = true ->
  commands s !! i = Some c.
Proof.
  revert a k. induction ts as [|ct rest IH]; intros a k Hk Hc Hdone.
  - destruct k as [|k]; cbn in Hk; [congruence | discriminate].
  - destruct k as [|k]; cbn [states] in Hk; [cbn in Hk; congruence|].
    apply (IH _ k Hk); [|exact Hdone].
    exact (advance_keeps_completed _ _ i c (process_commands_advance ct a) Hc Hdone).
Qed.


Lemma apply_well_typed (c : Command) (a : Aircraft.t) :
  well_typed c = true -> snd (apply_command c a) = inr tt.
Proof.
  unfold well_typed, apply_command. destruct (is_str "heading" _) eqn:Hh.
  { cbn [orb]. unfold set_course, bind, lift, py_mod.
    destruct (cmd_value c); try discriminate; reflexivity. }
  destruct (is_str "speed" _) eqn:Hs.
  { cbn [orb]. unfold change_speed, bind, lift, py_max.
    destruct (as_num (cmd_value c)); [reflexivity | discriminate]. }
  intros _. destruct (is_str "status" _).
  { unfold change_status. destruct (cmd_value c); try reflexivity.
    now destruct (existsb _ _). }
  now destruct (is_str "altitude" _).
Qed.

Lemma process_queue_well_typed (ct : Q) (queue : list Command) (a : Aircraft.t) :
  Forall (fun c => well_typed c = true) queue ->
  snd (snd (process_queue ct queue a)) = inr tt.
Proof.
  intros Hq. revert a. induction Hq as [|c rest Hc _ IH]; intros a; [reflexivity|].
  cbn [process_queue]. destruct (fires ct c).
  - pose proof (apply_well_typed c a Hc) as Ha.
    destruct (apply_command c a) as [a1 [e|u]]; [discriminate|].
    specialize (IH a1). now destruct (process_queue ct rest a1) as [q o].
  - specialize (IH a). now destruct (process_queue ct rest a) as [q o].
Qed.

Lemma process_commands_well_typed (ct : Q) (a : Aircraft.t) :
  Forall (fun c => well_typed c = true) (commands a) ->
  snd (process_commands ct a) = inr tt.
Proof.
  intros Hq. rewrite process_commands_queue. cbn [snd].
  now apply process_queue_well_typed.
Qed.





Lemma apply_unknown (c : Command) (a : Aircraft.t) :
  known_type c = false -> apply_command c a = (a, inr tt).
Proof.
  unfold known_type, apply_command. intros Hk.
  destruct (is_str "heading" _); [discriminate|].
  destruct (is_str "speed" _); [discriminate|].
  destruct (is_str "status" _); [discriminate|].
  destruct (is_str "altitude" _); [discriminate|]. reflexivity.
Qed.

Lemma process_queue_unknown (ct : Q) (cs : list Command) (i : nat) (c : Command)
    (a : Aircraft.t) :
  cs !! i = Some c -> known_type c = false -> fires ct c = true ->
  snd (snd (process_queue ct cs a)) = inr tt ->
  process_queue ct (<[i := mark_completed c]> cs) a = process_queue ct cs a /\
  fst (process_queue ct cs a) !! i = Some (mark_completed c).
Proof.
  revert i a. induction cs as [|c0 rest IH]; intros i a Hc Hk Hf Hr; [discriminate|].
  destruct i as [|i].
  - cbn in Hc. injection Hc as ->. cbn [process_queue] in *.
    change (<[0%nat := mark_completed c]> (c :: rest)) with (mark_completed c :: rest).
    cbn [process_queue]. rewrite Hf in *. rewrite (apply_unknown c a Hk) in *.
    replace (fires ct (mark_completed c)) with false by reflexivity.
    destruct (process_queue ct rest a) as [q o]. now split.
  - change (<[S i := mark_completed c]> (c0 :: rest))
      with (c0 :: <[i := mark_completed c]> rest).
    change ((c0 :: rest) !! S i = Some c) with (rest !! i = Some c) in Hc.
    cbn [process_queue] in *. destruct (fires ct c0).
    + destruct (apply_command c0 a) as [a1 [e|u]]; [discriminate|].
      specialize (IH i a1 Hc Hk Hf).
      destruct (process_queue ct rest a1) as [q [b r]]. cbn [fst snd] in *.
      destruct (IH Hr) as [-> Hl]. now split.
    + specialize (IH i a Hc Hk Hf).
      destruct (process_queue ct rest a) as [q [b r]]. cbn [fst snd] in *.
      destruct (IH Hr) as [-> Hl]. now split.
Qed.

(** C10. A command whose type is none of "heading", "speed", "status" and
    "altitude" changes nothing when it is applied and raises nothing. When
    such a command is in the queue, not completed and due, a call of
    [process_commands] that returns normally marks it completed, and leaves
    the aircraft exactly as it would have if the command had been completed
    before the call. In every later call, at whatever time, the command is
    not completed again and its entry stays as it is. A call returns
    normally when every heading and every speed command of the queue carries
    a number. *)
Theorem unknown_command_consumed_once :
  (forall (c : Command) (a : Aircraft.t),
     known_type c = false -> apply_command c a = (a, inr tt)) /\
  (forall (ct : Q) (a a' : Aircraft.t) (i : nat) (c : Command),
     process_commands ct a = (a', inr tt) ->
     commands a !! i = Some c ->
     known_type c = false ->
     fires ct c = true ->
     commands a' !! i = Some (mark_completed c) /\
     process_commands ct
       (set_commands (<[i := mark_completed c]> (commands a)) a) = (a', inr tt) /\
     forall (ts : list Q) (k : nat) (sk sk' : Aircraft.t),
       states ts a' !! k = Some sk ->
       states ts a' !! (k + 1)%nat = Some sk' ->
       ~ In i (map fst (fired sk sk')) /\
       commands sk' !! i = Some (mark_completed c)) /\
  (forall (ct : Q) (a : Aircraft.t),
     Forall (fun c => well_typed c = true) (commands a) ->
     snd (process_commands ct a) = inr tt).
Proof.
  split; [exact apply_unknown|]. split; [|exact process_commands_well_typed].
  intros ct a a' i c Hp Hc Hk Hf.
  pose proof Hp as Hp'. rewrite process_commands_queue in Hp'.
  injection Hp' as Ha' Hr.
  destruct (process_queue_unknown ct (commands a) i c a Hc Hk Hf Hr) as [Heq Hl].
  assert (Hi : commands a' !! i = Some (mark_completed c)) by now subst a'.
  split; [exact Hi|]. split.
  - rewrite process_commands_queue. cbn [commands set_commands].
    rewrite process_queue_frame, Heq. cbn [fst snd].
    rewrite set_commands_twice. now rewrite Ha', Hr.
  - intros ts k sk sk' Hsk Hsk'. split.
    + intros Hin. destruct (fired_index _ _ _ Hin) as [[c' [Hc' Hn]] _].
      pose proof (states_keep_completed ts a' sk k i _ Hsk Hi eq_refl) as Hkeep.
      rewrite Hkeep in Hc'. injection Hc' as <-. discriminate.
    + exact (states_keep_completed ts a' sk' _ i _ Hsk' Hi eq_refl).
Qed.

End AircraftProperties.

(** ** Arithmetic of angles *)

Lemma Qmod_range (q m : Q) : 0 < m -> 0 <= Qmod q m /\ Qmod q m < m.
Proof.
  intros Hm. unfold Qmod.
  pose proof (Qfloor_le (q / m)) as Hlo.
  pose proof (Qlt_floor (q / m)) as Hhi.
  rewrite inject_Z_plus in Hhi. change (inject_Z 1) with 1 in Hhi.
  assert (Hq : q == m * (q / m)) by (field; lra).
  set (f := inject_Z (Qfloor (q / m))) in *.
  split.
  - assert (m * f <= m * (q / m)) by (apply Qmult_le_l; assumption). lra.
  - assert (m * (q / m) < m * (f + 1)) by (apply Qmult_lt_l; assumption). lra.
Qed.

Lemma Qmod_congruent (q m : Q) : exists k : Z, q == Qmod q m + m * inject_Z k.
Proof. exists (Qfloor (q / m)). unfold Qmod. ring. Qed.

(** The two cases of [%]: exact, or the exact remainder rounded. *)
Lemma float_mod_exact `{PyLib} (q m : Q) :
  0 <= q \/ is_integer q = true -> float_mod q m = Qmod q m.
Proof.
  intros Hq. unfold float_mod.
  destruct (Qle_bool 0 q) eqn:H0; [reflexivity|].
  destruct Hq as [Hq | ->]; [|reflexivity].
  apply Qle_bool_iff in Hq. congruence.
Qed.

Lemma float_mod_rounded `{PyLib} (q m : Q) :
  q < 0 -> is_integer q = false -> float_mod q m = float_round (Qmod q m).
Proof.
  intros Hq Hi. unfold float_mod. rewrite Hi.
  destruct (Qle_bool 0 q) eqn:H0; [|reflexivity].
  apply Qle_bool_iff in H0. lra.
Qed.

(** With a monotone rounding, [% 360] stays between 0 and 360: the upper end
    is reached when a remainder just below 360 is rounded up. *)
Lemma float_mod_between `{PyLib} (q : Q) :
  rounding_ok -> 0 <= float_mod q 360 /\ float_mod q 360 <= 360.
Proof.
  intros [Hmono Hwhole].
  destruct (Qmod_range q 360) as [Hlo Hhi]; [reflexivity|].
  unfold float_mod. destruct (Qle_bool 0 q || is_integer q); [lra|].
  pose proof (Hwhole 0%Z) as H0. pose proof (Hwhole 360%Z) as H360.
  change (inject_Z 0) with 0 in H0. change (inject_Z 360) with 360 in H360.
  pose proof (Hmono 0 (Qmod q 360) Hlo) as H1.
  assert (Hle : Qmod q 360 <= 360) by lra.
  pose proof (Hmono (Qmod q 360) 360 Hle) as H2.
  rewrite H0 in H1 by (cbn; lia). rewrite H360 in H2 by (cbn; lia).
  now split.
Qed.

Lemma float_mod_cases `{PyLib} (q m : Q) :
  float_mod q m = Qmod q m \/ float_mod q m = float_round (Qmod q m).
Proof.
  unfold float_mod. destruct (Qle_bool 0 q || is_integer q); [now left | now right].
Qed.

Lemma Qltb_lt (a b : Q) : Qltb a b = true <-> a < b.
Proof.
  unfold Qltb. rewrite negb_true_iff. split; intros Hab.
  - apply Qnot_le_lt. intros Hle. apply Qle_bool_iff in Hle. congruence.
  - destruct (Qle_bool b a) eqn:Hb; [|reflexivity].
    apply Qle_bool_iff in Hb. lra.
Qed.

Lemma Qltb_ge (a b : Q) : Qltb a b = false <-> b <= a.
Proof.
  unfold Qltb. rewrite negb_false_iff. apply Qle_bool_iff.
Qed.

Lemma Qle_bool_false (a b : Q) : Qle_bool a b = false -> b < a.
Proof.
  intros Hb. apply Qnot_le_lt. intros Hle. apply Qle_bool_iff in Hle. congruence.
Qed.

(** ** Invariants of the monad *)

Lemma bind_keeps {St A B} (I : St -> Prop) (m : Py St A) (k : A -> Py St B) :
  (forall s, I s -> I (fst (m s))) ->
  (forall x s, I s -> I (fst (k x s))) ->
  forall s, I s -> I (fst (bind m k s)).
Proof.
  intros Hm Hk s Hs. unfold bind. specialize (Hm s Hs).
  destruct (m s) as [s1 [e|x]]; [exact Hm|]. now apply Hk.
Qed.

Lemma for_each_keeps {St A} (I : St -> Prop) (body : A -> Py St unit) :
  (forall x s, I s -> I (fst (body x s))) ->
  forall l s, I s -> I (fst (for_each l body s)).
Proof.
  intros Hb l. induction l as [|x l IH]; intros s Hs; [exact Hs|].
  cbn [for_each]. apply bind_keeps; [apply Hb | intros _; exact IH | exact Hs].
Qed.

Lemma lift_keeps {St A} (I : St -> Prop) (r : exn + A) (s : St) :
  I s -> I (fst (lift r s)).
Proof. now intros Hs. Qed.

(** A property of the outcome that every raise has holds of [bind m k] when
    it holds of [k]. *)
Lemma bind_post {St A B} (P : St * (exn + B) -> Prop) (m : Py St A)
    (k : A -> Py St B) :
  (forall e s, P (s, inl e)) ->
  (forall x s, P (k x s)) ->
  forall s, P (bind m k s).
Proof.
  intros He Hk s. unfold bind. destruct (m s) as [s1 [e|x]]; [apply He | apply Hk].
Qed.

(** ** Airport *)

Section AirportProperties.
Context `{PyLib}.
Import Airport.

(** *** The sort *)

Section Sort.
Context {A : Type} (key : A -> Q).

Lemma insert_by_perm (x : A) (l : list A) : Permutation (insert_by key x l) (x :: l).
Proof.
  induction l as [|y l IH]; [reflexivity|].
  cbn [insert_by]. destruct (Qle_bool (key x) (key y)); [reflexivity|].
  rewrite IH. apply perm_swap.
Qed.

Lemma sort_by_perm (l : list A) : Permutation (sort_by key l) l.
Proof.
  induction l as [|x l IH]; [reflexivity|].
  cbn [sort_by]. rewrite insert_by_perm. now rewrite IH.
Qed.

Lemma insert_by_sorted (x : A) (l : list A) :
  StronglySorted (key_le key) l -> StronglySorted (key_le key) (insert_by key x l).
Proof.
  induction l as [|y l IH]; intros Hs.
  - repeat constructor.
  - cbn [insert_by]. destruct (Qle_bool (key x) (key y)) eqn:Hxy.
    + apply Qle_bool_iff in Hxy. constructor; [exact Hs|].
      constructor; [exact Hxy|].
      apply StronglySorted_inv in Hs as [_ Hall].
      eapply List.Forall_impl; [|exact Hall]. unfold key_le. intros z Hz. lra.
    + apply Qle_bool_false in Hxy.
      apply StronglySorted_inv in Hs as [Hs Hall].
      constructor; [now apply IH|].
      rewrite (insert_by_perm x l). constructor; [unfold key_le; lra | exact Hall].
Qed.

Lemma sort_by_sorted (l : list A) : StronglySorted (key_le key) (sort_by key l).
Proof.
  induction l as [|x l IH]; [constructor|]. now apply insert_by_sorted.
Qed.

Lemma insert_by_with_key (d : Q) (x : A) (l : list A) :
  with_key key d (insert_by key x l) = with_key key d (x :: l).
Proof.
  induction l as [|y l IH]; [reflexivity|].
  cbn [insert_by]. destruct (Qle_bool (key x) (key y)) eqn:Hxy; [reflexivity|].
  apply Qle_bool_false in Hxy.
  unfold with_key in *. cbn [List.filter] in *. rewrite IH.
  destruct (Qeq_bool (key x) d) eqn:Hx; [|reflexivity].
  apply Qeq_bool_iff in Hx.
  destruct (Qeq_bool (key y) d) eqn:Hy; [|reflexivity].
  apply Qeq_bool_iff in Hy. lra.
Qed.

(** The sort is stable: entries of equal key keep their order. *)
Lemma sort_by_stable (d : Q) (l : list A) :
  with_key key d (sort_by key l) = with_key key d l.
Proof.
  induction l as [|x l IH]; [reflexivity|].
  cbn [sort_by]. rewrite insert_by_with_key.
  unfold with_key in *. cbn [List.filter]. now rewrite IH.
Qed.

End Sort.

(** *** Runway selection *)

Lemma collect_active_numeric (wind : value) (w : Q) (rws : list Runway) :
  to_float wind = inr w ->
  collect_active wind rws = inr (map (best_direction w) (List.filter is_active rws)).
Proof.
  intros Hw. induction rws as [|r rest IH]; [reflexivity|].
  cbn [collect_active List.filter]. unfold is_active at 1.
  destruct (truthy (active r)); [|exact IH].
  now rewrite Hw, IH.
Qed.

Lemma collect_active_fails (wind : value) (e : exn) (rws : list Runway) :
  to_float wind = inl e ->
  Exists (fun r => is_active r = true) rws ->
  collect_active wind rws = inl e.
Proof.
  intros Hw. induction 1 as [r rest Hr | r rest _ IH]; cbn [collect_active].
  - unfold is_active in Hr. now rewrite Hr, Hw.
  - destruct (truthy (active r)); [now rewrite Hw | exact IH].
Qed.

Lemma best_direction_runway (w : Q) (r : Runway) : runway (best_direction w r) = r.
Proof. unfold best_direction. now destruct (Qle_bool _ _). Qed.

Lemma best_direction_record (w : Q) (r : Runway) : record_of w (best_direction w r).
Proof.
  unfold record_of, best_direction.
  destruct (Qle_bool _ _) eqn:Hd; cbn [runway direction heading difference].
  - left. repeat split. now apply Qle_bool_iff.
  - right. repeat split. now apply Qle_bool_false.
Qed.

(** C1. For a wind direction [w] that is a number in the range of the
    floats, [get_active_runways] returns one record for each runway whose
    [active] flag is true and for no other; the record of a runway carries
    the runway's heading or its reciprocal (heading + 180 modulo 360),
    whichever has the smaller absolute shortest-angle difference
    abs((a - w + 180) % 360 - 180) to the wind as a float (the heading
    itself when the two are equal), and that difference, each operation of
    the formula being the one of the floats; the list is in ascending order
    of the difference, and the records of equal difference are in the order
    of their runways. With no wind direction given, the one of the weather
    is used. An int outside the range of the floats is refused with
    [OverflowError] when a runway is active. *)
Theorem active_runways_by_wind :
  (forall a b : Q,
     angle_diff a b
     = Qabs (float_round
               (float_mod (float_round (float_round (a - b) + 180)) 360 - 180)) /\
     reverse_of a = float_mod (float_round (a + 180)) 360) /\
  (forall (self : Airport.t) (wind : value) (w : Q),
     as_num wind = Some w ->
     in_float_range w = true ->
     exists l,
       get_active_runways self wind = inr l /\
       Permutation (map runway l) (List.filter is_active (runways self)) /\
       Forall (record_of (float_round w)) l /\
       StronglySorted (fun x y => difference x <= difference y) l /\
       forall d : Q,
         with_key difference d l =
         with_key difference d
           (map (best_direction (float_round w))
              (List.filter is_active (runways self)))) /\
  (forall self : Airport.t,
     get_active_runways self VNone
     = get_active_runways self (wind_direction (weather self))) /\
  (forall (self : Airport.t) (wind : value) (w : Q),
     as_num wind = Some w ->
     in_float_range w = false ->
     Exists (fun r => is_active r = true) (runways self) ->
     get_active_runways self wind = inl OverflowError).
Proof.
  split; [split; reflexivity|]. split; [|split].
  - intros self wind w Hw Hr.
    assert (Hn : is_none wind = false) by (destruct wind; try reflexivity; discriminate).
    unfold get_active_runways.
    rewrite Hn, (collect_active_numeric wind _ _ (to_float_number _ _ Hw Hr)).
    eexists. split; [reflexivity|]. split; [|split; [|split]].
    + rewrite sort_by_perm, map_map.
      erewrite map_ext; [apply Permutation_refl' , map_id|].
      apply best_direction_runway.
    + eapply Permutation_Forall; [symmetry; apply sort_by_perm|].
      apply List.Forall_map, List.Forall_forall. intros r _. apply best_direction_record.
    + apply (sort_by_sorted difference).
    + intros d. apply sort_by_stable.
  - intros self. unfold get_active_runways. cbn [is_none].
    now destruct (is_none (wind_direction (weather self))).
  - intros self wind w Hw Hr Hex.
    assert (Hn : is_none wind = false) by (destruct wind; try reflexivity; discriminate).
    unfold get_active_runways.
    now rewrite Hn, (collect_active_fails wind _ _ (to_float_overflow _ _ Hw Hr) Hex).
Qed.

(** *** Weather *)

Lemma set_weather_steps (v f d s p : value) :
  set_weather v f d s p =
  (visibility_step v ;;; fog_density_step f ;;; wind_direction_step d ;;;
   wind_speed_step s ;;; precipitation_step p).
Proof. reflexivity. Qed.

Lemma clamp01_range (q : Q) : 0 <= clamp01 q <= 1.
Proof.
  unfold clamp01. destruct (Qltb q 1) eqn:H1; [|lra].
  apply Qltb_lt in H1. destruct (Qltb 0 q) eqn:H0; [|lra].
  apply Qltb_lt in H0. lra.
Qed.

Lemma clamp01_cases (q : Q) :
  (q <= 0 -> clamp01 q = 0) /\ (0 < q < 1 -> clamp01 q = q) /\
  (1 <= q -> clamp01 q = 1).
Proof.
  unfold clamp01. repeat split.
  - intros Hq. destruct (Qltb q 1) eqn:H1; [|apply Qltb_ge in H1; lra].
    destruct (Qltb 0 q) eqn:H0; [apply Qltb_lt in H0; lra | reflexivity].
  - intros [H0 H1]. apply Qltb_lt in H0, H1. now rewrite H0, H1.
  - intros Hq. apply Qltb_ge in Hq. now rewrite Hq.
Qed.

Lemma clamp_fog (v : value) (q : Q) :
  as_num v = Some q ->
  exists m, py_min 1 v = inr m /\ py_max 0 m = inr (VNum (clamp01 q)).
Proof.
  intros Hq. unfold py_min, clamp01. rewrite Hq.
  destruct (Qltb q 1) eqn:H1; eexists; (split; [reflexivity|]).
  - unfold py_max. rewrite Hq. destruct (Qltb 0 q) eqn:H0; [|reflexivity].
    destruct v as [|b|q'| | | | |]; try discriminate; injection Hq as <-.
    + destruct b; vm_compute in H0, H1; discriminate.
    + reflexivity.
  - reflexivity.
Qed.

Lemma as_num_not_none (v : value) (q : Q) : as_num v = Some q -> is_none v = false.
Proof. destruct v; try reflexivity; discriminate. Qed.

Lemma set_weather_record_id (a : Airport.t) : set_weather_record (weather a) a = a.
Proof. now destruct a. Qed.

Lemma set_weather_numeric (v f d s p : value) (a : Airport.t) :
  numeric_or_none f -> numeric_or_none d -> numeric_or_none s ->
  set_weather v f d s p a
  = (set_weather_record (updated v f d s p (weather a)) a, inr tt).
Proof.
  intros Hf Hd Hs. destruct a as [n c loc rws tws gs bs w sc bg].
  destruct w as [wv wf wd ws wp].
  unfold set_weather, updated, bind, update_weather, modify, lift, ret.
  cbn [weather visibility fog_density wind_direction wind_speed precipitation].
  destruct Hf as [-> | [qf Hqf]], Hd as [-> | [qd Hqd]], Hs as [-> | [qs Hqs]].
  all: try (destruct (clamp_fog f qf Hqf) as [m [Hmin Hmax]];
            rewrite (as_num_not_none f qf Hqf), Hmin, Hmax, Hqf).
  all: try (rewrite (as_num_not_none d qd Hqd), Hqd;
            replace (py_mod d 360) with (inr (A:=exn) (VNum (float_mod qd 360)))
              by (unfold py_mod; rewrite Hqd; destruct d; try reflexivity; discriminate)).
  all: try (rewrite (as_num_not_none s qs Hqs), Hqs; unfold py_max; rewrite Hqs).
  all: cbn [is_none as_num]; destruct (is_none v), (is_none p); reflexivity.
Qed.

Ltac keeps_field :=
  match goal with
  | Ha : keeps _ _ _ _ _ _ _ |- _ =>
      unfold keeps in *; cbn; destruct Ha as (H1 & H2 & H3 & H4 & H5);
      repeat split; try assumption; intros Hx;
      first [discriminate Hx | subst; discriminate]
  end.

Lemma set_weather_keeps_from (v f d s p : value) (a0 a : Airport.t) :
  keeps v f d s p a0 a -> keeps v f d s p a0 (fst (set_weather v f d s p a)).
Proof.
  rewrite set_weather_steps. revert a.
  repeat (apply (bind_keeps (keeps v f d s p a0)); [|intros _]); intros a Ha.
  - unfold visibility_step. destruct v; try exact Ha.
    all: keeps_field.
  - unfold fog_density_step. destruct (is_none f) eqn:Hn; [exact Ha|].
    unfold bind, lift, update_weather, modify.
    destruct (py_min 1 f); [exact Ha|]. destruct (py_max 0 _); [exact Ha|].
    keeps_field.
  - unfold wind_direction_step. destruct (is_none d) eqn:Hn; [exact Ha|].
    unfold bind, lift, update_weather, modify.
    destruct (py_mod d 360); [exact Ha|].
    keeps_field.
  - unfold wind_speed_step. destruct (is_none s) eqn:Hn; [exact Ha|].
    unfold bind, lift, update_weather, modify.
    destruct (py_max 0 s); [exact Ha|].
    keeps_field.
  - unfold precipitation_step. destruct p; try exact Ha.
    all: keeps_field.
Qed.

Lemma set_weather_keeps (v f d s p : value) (a : Airport.t) :
  keeps v f d s p a (fst (set_weather v f d s p a)).
Proof. apply set_weather_keeps_from. unfold keeps. tauto. Qed.

(** C6. [set_weather] updates the weather in part. Whatever the call does,
    the field of every parameter that was left out ([None]) is as before.
    When the fog density, the wind direction and the wind speed are each left
    out or a number, the call returns normally and, of the parameters that
    were given: the visibility and the precipitation are stored as they are;
    the fog density is stored clamped to [0, 1]; the wind direction is
    stored reduced modulo 360 by [%] -- the remainder in [0, 360) for an
    int and for a float that is not negative or is whole, and that
    remainder rounded to a float for another negative float; the wind speed
    is stored as it is when positive and as 0 otherwise. A fog density of
    1.5 is stored as 1, one of -0.2 as 0. *)
Theorem set_weather_partial_update :
  (forall (v f d s p : value) (a : Airport.t),
     let w' := weather (fst (set_weather v f d s p a)) in
     (v = VNone -> visibility w' = visibility (weather a)) /\
     (f = VNone -> fog_density w' = fog_density (weather a)) /\
     (d = VNone -> wind_direction w' = wind_direction (weather a)) /\
     (s = VNone -> wind_speed w' = wind_speed (weather a)) /\
     (p = VNone -> precipitation w' = precipitation (weather a))) /\
  (forall (v f d s p : value) (a : Airport.t),
     numeric_or_none f -> numeric_or_none d -> numeric_or_none s ->
     exists a',
       set_weather v f d s p a = (a', inr tt) /\
       (v <> VNone -> visibility (weather a') = v) /\
       (p <> VNone -> precipitation (weather a') = p) /\
       (forall q, as_num f = Some q ->
          exists c, fog_density (weather a') = VNum c /\ 0 <= c <= 1 /\
                    (q <= 0 -> c = 0) /\ (0 < q < 1 -> c = q) /\ (1 <= q -> c = 1)) /\
       (forall q, as_num d = Some q ->
          exists c, wind_direction (weather a') = VNum c /\
                    (0 <= q \/ is_integer q = true ->
                     0 <= c /\ c < 360 /\ exists k : Z, q == c + 360 * inject_Z k) /\
                    (q < 0 -> is_integer q = false ->
                     exists r, c = float_round r /\ 0 <= r /\ r < 360 /\
                               exists k : Z, q == r + 360 * inject_Z k)) /\
       (forall q, as_num s = Some q ->
          exists c, as_num (wind_speed (weather a')) = Some c /\ 0 <= c /\
                    (0 < q -> c = q) /\ (q <= 0 -> c = 0))) /\
  (forall a : Airport.t,
     fog_density (weather (fst (set_weather VNone (VNum (3 # 2)) VNone VNone VNone a)))
       = VNum 1 /\
     fog_density (weather (fst (set_weather VNone (VNum (- 1 # 5)) VNone VNone VNone a)))
       = VNum 0).
Proof.
  split; [|split].
  - intros v f d s p a. exact (set_weather_keeps v f d s p a).
  - intros v f d s p a Hf Hd Hs. eexists. split; [now apply set_weather_numeric|].
    cbn [weather set_weather_record updated visibility fog_density wind_direction
         wind_speed precipitation].
    split; [|split; [|split; [|split]]].
    + intros Hv. destruct v; try reflexivity. now destruct Hv.
    + intros Hp. destruct p; try reflexivity. now destruct Hp.
    + intros q ->. exists (clamp01 q). split; [reflexivity|].
      split; [apply clamp01_range | apply clamp01_cases].
    + intros q ->. exists (float_mod q 360). split; [reflexivity|].
      destruct (Qmod_range q 360) as [Hlo Hhi]; [reflexivity|].
      split.
      * intros Hq. rewrite (float_mod_exact _ _ Hq).
        split; [exact Hlo|]. split; [exact Hhi | apply Qmod_congruent].
      * intros Hq Hi. exists (Qmod q 360).
        split; [now apply float_mod_rounded|].
        split; [exact Hlo|]. split; [exact Hhi | apply Qmod_congruent].
    + intros q Hq. rewrite Hq. destruct (Qltb 0 q) eqn:H0.
      * apply Qltb_lt in H0. exists q. split; [exact Hq|].
        split; [lra|]. split; [reflexivity | lra].
      * apply Qltb_ge in H0. exists 0. split; [reflexivity|].
        split; [lra|]. split; [lra | reflexivity].
  - intros a. split.
    + rewrite set_weather_numeric; [reflexivity | | left; reflexivity | left; reflexivity].
      right. eexists. reflexivity.
    + rewrite set_weather_numeric; [reflexivity | | left; reflexivity | left; reflexivity].
      right. eexists. reflexivity.
Qed.

End AirportProperties.

(** ** Loading and saving *)

Section IOProperties.
Context `{PyLib}.
Import Airport AirportIO.

(** *** What [save_to_file] builds *)

Lemma map_raise_map {A B C} (f : B -> exn + C) (g : A -> B) (h : A -> C)
    (l : list A) :
  (forall x, f (g x) = inr (h x)) -> map_raise f (map g l) = inr (map h l).
Proof.
  intros Hf. induction l as [|x l IH]; [reflexivity|].
  cbn [map map_raise]. now rewrite Hf, IH.
Qed.

Lemma xys_of_vectors (ps : list Vec) :
  map_raise py_xy (map VVec ps) = inr (map vec_json ps).
Proof. now apply map_raise_map. Qed.

Lemma runway_entry_dict (r : Runway) : runway_entry (runway_dict r) = inr (runway_json r).
Proof. reflexivity. Qed.

Lemma taxiway_entry_dict (x : Taxiway) :
  taxiway_entry (taxiway_dict x) = inr (taxiway_json x).
Proof.
  unfold taxiway_entry, taxiway_dict, xys_at, and_then, py_getitem.
  cbn [dict_lookup String.eqb Ascii.eqb Bool.eqb py_iter].
  now rewrite xys_of_vectors.
Qed.

Lemma gate_entry_dict (g : Gate) : gate_entry (gate_dict g) = inr (gate_json g).
Proof. reflexivity. Qed.

Lemma building_entry_dict (b : Building) :
  building_entry (building_dict b) = inr (building_json b).
Proof.
  unfold building_entry, building_dict, xys_at, and_then, py_getitem.
  cbn [dict_lookup String.eqb Ascii.eqb Bool.eqb py_iter].
  now rewrite xys_of_vectors.
Qed.

(** On entries that the [add_*] methods built, the dictionary is built
    without an exception. *)
Lemma save_data_attributes (a : Airport.t) :
  save_data (attributes a) = inr (snapshot a).
Proof.
  unfold save_data, attributes, and_then.
  cbn [at_name at_code at_location at_runways at_taxiways at_gates at_buildings
       at_weather].
  rewrite (map_raise_map _ _ _ _ runway_entry_dict),
    (map_raise_map _ _ _ _ taxiway_entry_dict),
    (map_raise_map _ _ _ _ gate_entry_dict),
    (map_raise_map _ _ _ _ building_entry_dict).
  reflexivity.
Qed.

(** [save_to_file] on such an airport. *)
Lemma save_to_file_typed (filename : string) (a : Airport.t) (w : World) :
  save_to_file filename (a, w)
  = match save_body filename (snapshot a) w with
    | (w1, inr _) => ((a, w1), inr true)
    | (w1, inl e) => ((a, print (SaveError e) w1), inr false)
    end.
Proof.
  unfold save_to_file, bind at 1, self, on_world, save_attributes, bind at 1, lift.
  cbn [fst snd]. rewrite save_data_attributes. unfold try_except.
  assert (Hb : forall w1 b, save_body filename (snapshot a) w = (w1, inr b) -> b = true).
  { intros w1 b. unfold save_body, bind, ret.
    destruct (write_json filename (snapshot a) w) as [w2 [e|u]]; [discriminate|].
    now intros [= _ <-]. }
  destruct (save_body filename (snapshot a) w) as [w1 [e|b]] eqn:E.
  - reflexivity.
  - now rewrite (Hb w1 b eq_refl).
Qed.


(** *** Gates after a load *)

Lemma load_gate_free (gate_data : value) (a : Airport.t) :
  gates_free a -> gates_free (fst (load_gate gate_data a)).
Proof.
  unfold load_gate, add_gate. revert a.
  repeat (apply bind_keeps; [intros a Ha; exact Ha | intros ?]).
  apply bind_keeps; [|intros _ a Ha; exact Ha].
  apply bind_keeps; [intros a Ha; exact Ha | intros p].
  apply bind_keeps; [|intros _ a Ha; exact Ha].
  intros a Ha. unfold modify, gates_free in *. cbn [fst gates set_gates].
  apply Forall_app. split; [exact Ha|]. now repeat constructor.
Qed.

Lemma load_gates_free (data : value) (a : Airport.t) :
  gates_free (fst (load_gates data a)).
Proof.
  unfold load_gates, bind at 1, modify at 1.
  assert (H0 : gates_free (set_gates [] a)) by constructor.
  revert H0. generalize (set_gates [] a). clear a.
  repeat (apply bind_keeps; [intros a Ha; exact Ha | intros ?]).
  apply for_each_keeps. intros gd s. apply load_gate_free.
Qed.

Lemma load_building_free (building_data : value) (a : Airport.t) :
  gates_free a -> gates_free (fst (load_building building_data a)).
Proof.
  unfold load_building, add_building. revert a.
  repeat (apply bind_keeps; [intros a Ha; exact Ha | intros ?]).
  apply bind_keeps; [|intros _ a Ha; exact Ha].
  repeat (apply bind_keeps; [intros a Ha; exact Ha | intros ?]).
  intros a Ha. exact Ha.
Qed.

Lemma load_buildings_free (data : value) (a : Airport.t) :
  gates_free a -> gates_free (fst (load_buildings data a)).
Proof.
  unfold load_buildings. revert a.
  apply bind_keeps; [intros a Ha; exact Ha | intros _].
  repeat (apply bind_keeps; [intros a Ha; exact Ha | intros ?]).
  apply for_each_keeps. intros bd s. apply load_building_free.
Qed.

Lemma weather_only_refl (a : Airport.t) : weather_only a a.
Proof. unfold weather_only. now rewrite set_weather_record_id. Qed.

Lemma update_weather_only (f : Weather -> Weather) (a0 a : Airport.t) :
  weather_only a0 a -> weather_only a0 (fst (update_weather f a)).
Proof.
  unfold weather_only, update_weather, modify. cbn [fst]. intros ->. reflexivity.
Qed.

Lemma set_weather_only (v f d s p : value) (a0 a : Airport.t) :
  weather_only a0 a -> weather_only a0 (fst (set_weather v f d s p a)).
Proof.
  rewrite set_weather_steps. revert a.
  repeat (apply (bind_keeps (weather_only a0)); [|intros _]); intros a Ha.
  - unfold visibility_step. destruct (is_none v); [exact Ha|].
    now apply update_weather_only.
  - unfold fog_density_step. destruct (is_none f); [exact Ha|]. revert a Ha.
    repeat (apply bind_keeps; [intros a Ha; exact Ha | intros ?]).
    intros a. apply update_weather_only.
  - unfold wind_direction_step. destruct (is_none d); [exact Ha|]. revert a Ha.
    repeat (apply bind_keeps; [intros a Ha; exact Ha | intros ?]).
    intros a. apply update_weather_only.
  - unfold wind_speed_step. destruct (is_none s); [exact Ha|]. revert a Ha.
    repeat (apply bind_keeps; [intros a Ha; exact Ha | intros ?]).
    intros a. apply update_weather_only.
  - unfold precipitation_step. destruct (is_none p); [exact Ha|].
    now apply update_weather_only.
Qed.

Lemma weather_in_only (data : value) (a : Airport.t) :
  weather_only a (fst (weather_in data a)).
Proof.
  unfold weather_in. destruct data; try apply weather_only_refl.
  destruct (dict_lookup kvs "weather") as [kwargs|]; [|apply weather_only_refl].
  unfold set_weather_kwargs. destruct kwargs; try apply weather_only_refl.
  destruct (forallb _ _); [|apply weather_only_refl].
  apply set_weather_only, weather_only_refl.
Qed.

Lemma weather_in_free (data : value) (a : Airport.t) :
  gates_free a -> gates_free (fst (weather_in data a)).
Proof.
  intros Ha. pose proof (weather_in_only data a) as Hw.
  unfold weather_only in Hw. unfold gates_free. now rewrite Hw.
Qed.

(** After a load that did not raise, no gate is occupied. *)
Lemma load_data_free (data : value) (a a' : Airport.t) :
  load_data data a = (a', inr tt) -> gates_free a'.
Proof.
  intros Hl.
  assert (Hp : free_if_normal (load_data data a)); [|now rewrite Hl in Hp].
  unfold load_data. revert a Hl. intros a _. revert a.
  do 3 (apply (bind_post free_if_normal); [intros; exact I | intros _]).
  intros s. unfold free_if_normal.
  assert (Hg : gates_free
                 (fst ((load_gates data ;;; load_buildings data ;;; weather_in data) s))).
  { unfold bind at 1. pose proof (load_gates_free data s) as H0.
    destruct (load_gates data s) as [s1 [e|u]]; [exact H0|]. cbn [fst] in H0.
    revert s1 H0. apply bind_keeps; [apply load_buildings_free | intros _].
    apply weather_in_free. }
  now destruct ((load_gates data ;;; load_buildings data ;;; weather_in data) s)
    as [s' [e|u]].
Qed.

(** *** Loading what was saved *)

Lemma Vector2_vec_json (p : Vec) : Vector2 (vec_json p) = inr p.
Proof. now destruct p. Qed.

Lemma map_raise_vec_json (ps : list Vec) :
  map_raise Vector2 (map vec_json ps) = inr ps.
Proof.
  induction ps as [|p ps IH]; [reflexivity|].
  cbn [map map_raise]. now rewrite Vector2_vec_json, IH.
Qed.

Lemma calculate_heading_vectors (sp ep : Vec) :
  _calculate_heading (point_of_vec sp) (point_of_vec ep)
  = inr (vector_heading sp ep).
Proof.
  unfold _calculate_heading, vector_heading, point_of_vec, coord_sub, coord_float,
    atan2_arg.
  cbn [fst snd negb]. now rewrite andb_true_r.
Qed.

(** [add_runway] on two vectors, as [load_from_file] calls it. *)
Lemma add_runway_vectors (n : value) (sp ep : Vec) (w act : value) (a : Airport.t) :
  add_runway n (point_of_vec sp) (point_of_vec ep) w act a
  = (set_runways (runways a ++ [make_runway n sp ep w act]) a,
     inr (make_runway n sp ep w act)).
Proof.
  unfold add_runway, bind, lift, modify, ret.
  rewrite calculate_heading_vectors.
  destruct sp as [sx sy], ep as [ex ey]. reflexivity.
Qed.

(** [add_runway] appends the runway it returns, or raises and leaves the
    airport. *)
Lemma add_runway_cases (n : value) (sp ep : Point) (w act : value) (a : Airport.t) :
  (exists p q h,
     Vector2_point sp = inr p /\ Vector2_point ep = inr q /\
     _calculate_heading sp ep = inr h /\
     let r := {| rw_name := n; start_pos := p; end_pos := q; rw_width := w;
                 active := act; rw_length := distance_to p q; rw_heading := h |} in
     add_runway n sp ep w act a = (set_runways (runways a ++ [r]) a, inr r)) \/
  (exists e, add_runway n sp ep w act a = (a, inl e)).
Proof.
  unfold add_runway, bind, lift, modify, ret.
  destruct (Vector2_point sp) as [e|p]; [right; now exists e|].
  destruct (Vector2_point ep) as [e|q]; [right; now exists e|].
  destruct (_calculate_heading sp ep) as [e|h]; [right; now exists e|].
  left. now exists p, q, h.
Qed.

Lemma load_runway_json (r : Runway) (s : Airport.t) :
  load_runway (runway_json r) s
  = (set_runways (runways s ++ [rebuilt r]) s, inr tt).
Proof.
  destruct r as [n [sx sy] [ex ey] w act len hd].
  unfold load_runway, runway_json, bind, lift, py_getitem, py_get.
  cbn [dict_lookup String.eqb Ascii.eqb Bool.eqb rw_name start_pos end_pos
       rw_width active vec_json Vector2 fst snd].
  now rewrite add_runway_vectors.
Qed.

Lemma load_taxiway_json (x : Taxiway) (s : Airport.t) :
  load_taxiway (taxiway_json x) s
  = (set_taxiways (taxiways s ++ [x]) s, inr tt).
Proof.
  destruct x as [n ps w].
  unfold load_taxiway, taxiway_json, bind, lift, py_getitem.
  cbn [dict_lookup String.eqb Ascii.eqb Bool.eqb tw_name points tw_width py_iter].
  now rewrite map_raise_vec_json.
Qed.

Lemma load_gate_json (g : Gate) (s : Airport.t) :
  load_gate (gate_json g) s
  = (set_gates (gates s ++ [vacated g]) s, inr tt).
Proof. destruct g as [n [px py] h sz occ]. reflexivity. Qed.

Lemma load_building_json (b : Building) (s : Airport.t) :
  load_building (building_json b) s
  = (set_buildings (buildings s ++ [b]) s, inr tt).
Proof.
  destruct b as [n ps h ty].
  unfold load_building, building_json, add_building, bind, lift, py_getitem, py_get.
  cbn [dict_lookup String.eqb Ascii.eqb Bool.eqb b_name polygon height b_type py_iter].
  now rewrite map_raise_vec_json.
Qed.

Lemma load_runways_json (rws : list Runway) (s : Airport.t) :
  for_each (map runway_json rws) load_runway s
  = (set_runways (runways s ++ map rebuilt rws) s, inr tt).
Proof.
  revert s. induction rws as [|r rws IH]; intros s; cbn [map for_each].
  - rewrite app_nil_r. now destruct s.
  - unfold bind at 1. rewrite load_runway_json, IH.
    cbn [runways set_runways]. now rewrite <- app_assoc.
Qed.

Lemma load_taxiways_json (tws : list Taxiway) (s : Airport.t) :
  for_each (map taxiway_json tws) load_taxiway s
  = (set_taxiways (taxiways s ++ tws) s, inr tt).
Proof.
  revert s. induction tws as [|x tws IH]; intros s; cbn [map for_each].
  - rewrite app_nil_r. now destruct s.
  - unfold bind at 1. rewrite load_taxiway_json, IH.
    cbn [taxiways set_taxiways]. now rewrite <- app_assoc.
Qed.

Lemma load_gates_json (gs : list Gate) (s : Airport.t) :
  for_each (map gate_json gs) load_gate s
  = (set_gates (gates s ++ map vacated gs) s, inr tt).
Proof.
  revert s. induction gs as [|g gs IH]; intros s; cbn [map for_each].
  - rewrite app_nil_r. now destruct s.
  - unfold bind at 1. rewrite load_gate_json, IH.
    cbn [gates set_gates]. now rewrite <- app_assoc.
Qed.

Lemma load_buildings_json (bs : list Building) (s : Airport.t) :
  for_each (map building_json bs) load_building s
  = (set_buildings (buildings s ++ bs) s, inr tt).
Proof.
  revert s. induction bs as [|b bs IH]; intros s; cbn [map for_each].
  - rewrite app_nil_r. now destruct s.
  - unfold bind at 1. rewrite load_building_json, IH.
    cbn [buildings set_buildings]. now rewrite <- app_assoc.
Qed.

Lemma load_basic_snapshot (a s : Airport.t) :
  load_basic (snapshot a) s
  = (set_location (location a) (set_code (code a) (set_name (name a) s)), inr tt).
Proof. destruct a as [n c [lx ly] rws tws gs bs w sc bg]. reflexivity. Qed.

Lemma load_runways_snapshot (a s : Airport.t) :
  load_runways (snapshot a) s = (set_runways (map rebuilt (runways a)) s, inr tt).
Proof.
  assert (Hg : py_get (snapshot a) "runways" (VList [])
               = inr (VList (map runway_json (runways a)))) by reflexivity.
  unfold load_runways, bind, modify, lift. rewrite Hg. cbn [py_iter].
  now rewrite load_runways_json.
Qed.

Lemma load_taxiways_snapshot (a s : Airport.t) :
  load_taxiways (snapshot a) s = (set_taxiways (taxiways a) s, inr tt).
Proof.
  assert (Hg : py_get (snapshot a) "taxiways" (VList [])
               = inr (VList (map taxiway_json (taxiways a)))) by reflexivity.
  unfold load_taxiways, bind, modify, lift. rewrite Hg. cbn [py_iter].
  now rewrite load_taxiways_json.
Qed.

Lemma load_gates_snapshot (a s : Airport.t) :
  load_gates (snapshot a) s = (set_gates (map vacated (gates a)) s, inr tt).
Proof.
  assert (Hg : py_get (snapshot a) "gates" (VList [])
               = inr (VList (map gate_json (gates a)))) by reflexivity.
  unfold load_gates, bind, modify, lift. rewrite Hg. cbn [py_iter].
  now rewrite load_gates_json.
Qed.

Lemma load_buildings_snapshot (a s : Airport.t) :
  load_buildings (snapshot a) s = (set_buildings (buildings a) s, inr tt).
Proof.
  assert (Hg : py_get (snapshot a) "buildings" (VList [])
               = inr (VList (map building_json (buildings a)))) by reflexivity.
  unfold load_buildings, bind, modify, lift. rewrite Hg. cbn [py_iter].
  now rewrite load_buildings_json.
Qed.

Lemma load_data_snapshot (a b : Airport.t) :
  load_data (snapshot a) b = weather_in (snapshot a) (reloaded a b).
Proof.
  unfold load_data, bind.
  rewrite load_basic_snapshot, load_runways_snapshot, load_taxiways_snapshot,
    load_gates_snapshot, load_buildings_snapshot.
  reflexivity.
Qed.

Lemma weather_in_snapshot (a s : Airport.t) :
  weather_in (snapshot a) s
  = set_weather (visibility (weather a)) (fog_density (weather a))
      (wind_direction (weather a)) (wind_speed (weather a))
      (precipitation (weather a)) s.
Proof. reflexivity. Qed.

Lemma save_success (filename : string) (a : Airport.t) (w : World) (st1 : State) :
  save_to_file filename (a, w) = (st1, inr true) ->
  st1 = (a, set_files (<[filename := JsonText (snapshot a)]> (files w)) w).
Proof.
  rewrite save_to_file_typed.
  unfold save_body, bind, write_json, ret.
  destruct (decide _); [discriminate|].
  destruct (json_ok (snapshot a)); [|discriminate].
  now intros [= <-].
Qed.

Lemma load_saved (filename : string) (a b : Airport.t) (w : World) :
  let w1 := set_files (<[filename := JsonText (snapshot a)]> (files w)) w in
  fst (fst (load_from_file filename (b, w1)))
    = fst (weather_in (snapshot a) (reloaded a b)) /\
  (snd (weather_in (snapshot a) (reloaded a b)) = inr tt ->
   snd (load_from_file filename (b, w1)) = inr true).
Proof.
  cbv zeta.
  unfold load_from_file, try_except, load_body, load_failed, bind, on_world,
    on_self, read_json, modify, ret.
  cbn [fst snd files set_files]. rewrite lookup_insert_eq. cbn [fst snd].
  rewrite load_data_snapshot.
  destruct (weather_in (snapshot a) (reloaded a b)) as [b' [e|u]]; cbn [fst snd].
  - split; [reflexivity | discriminate].
  - split; reflexivity.
Qed.

(** What the blocks before the weather have loaded stays. *)
Lemma weather_in_reloaded (a b : Airport.t) :
  exists w', fst (weather_in (snapshot a) (reloaded a b))
             = set_weather_record w' (reloaded a b).
Proof.
  eexists. exact (weather_in_only (snapshot a) (reloaded a b)).
Qed.



(** *** Which runways come back as they were *)





(** C9. After a [load_from_file] that returns [True], whatever the file
    holds, no gate of the airport is occupied. [save_to_file] writes the
    [occupied] flag of every gate, and a load of the file written reads the
    gates back, in the same order, with the flag [False]. *)
Theorem loaded_gates_are_free :
  (forall (filename : string) (st st' : State),
     load_from_file filename st = (st', inr true) ->
     Forall (fun g => occupied g = false) (gates (fst st'))) /\
  (forall (a : Airport.t) (g : Gate),
     py_getitem (snapshot a) "gates" = inr (VList (map gate_json (gates a))) /\
     py_getitem (gate_json g) "occupied" = inr (VBool (occupied g))) /\
  (forall (a b : Airport.t) (filename : string) (w : World) (st1 : State),
     save_to_file filename (a, w) = (st1, inr true) ->
     files (snd st1) !! filename = Some (JsonText (snapshot a)) /\
     gates (fst (fst (load_from_file filename (b, snd st1))))
       = map vacated (gates a)).
Proof.
  split; [|split].
  - intros filename [a w] st' Hl.
    unfold load_from_file, try_except in Hl.
    destruct (load_body filename (a, w)) as [st1 [e|ok]] eqn:Hb.
    { unfold load_failed, bind, on_world, modify, ret in Hl. discriminate. }
    injection Hl as <- ->.
    unfold load_body, bind, on_world, on_self, read_json, ret in Hb.
    cbn [fst snd] in Hb.
    destruct (files w !! filename) as [[data|]|]; try discriminate.
    cbn [fst snd] in Hb.
    destruct (load_data data a) as [a' [e|[]]] eqn:Hd; [discriminate|].
    injection Hb as <-. cbn [fst].
    exact (load_data_free data a a' Hd).
  - intros a g. split; reflexivity.
  - intros a b filename w st1 Hsave.
    rewrite (save_success _ _ _ _ Hsave). cbn [fst snd files set_files].
    split; [apply lookup_insert_eq|].
    destruct (load_saved filename a b w) as [Hst _]. cbv zeta in Hst.
    rewrite Hst. destruct (weather_in_reloaded a b) as [w' ->].
    reflexivity.
Qed.

End IOProperties.

(** * The properties on an example *)

Section Examples.
Import Aircraft.

(** Three calls of [move], one of them with a string, on the crashed demo
    aircraft. *)
Lemma crashed_moves_keep_position_witness :
  status demo_wreck = "crashed" /\
  position (fst (for_each demo_calls (fun c => @move test_lib (fst c) (snd c)) demo_wreck))
    = position demo_wreck.
Proof.
  split; [reflexivity|].
  exact (proj1 (@crashed_moves_keep_position test_lib demo_wreck demo_calls eq_refl)).
Defined.


(** An unknown status, a number and a valid status on the demo aircraft. *)
Lemma change_status_valid_or_ignored_witness :
  (forall n, In n ["parked"; "taxiing"; "takeoff"; "landing"; "airborne"; "crashed"] ->
             VStr "holding" <> VStr n) /\
  In "landing" ["parked"; "taxiing"; "takeoff"; "landing"; "airborne"; "crashed"] /\
  status (fst (change_status (VStr "holding") demo_aircraft)) = status demo_aircraft /\
  status (fst (change_status (VNum 3) demo_aircraft)) = status demo_aircraft /\
  status (fst (change_status (VStr "landing") demo_aircraft)) = "landing".
Proof.
  assert (H1 : forall n,
             In n ["parked"; "taxiing"; "takeoff"; "landing"; "airborne"; "crashed"] ->
             VStr "holding" <> VStr n).
  { intros n Hn. cbn in Hn. intuition (subst; discriminate). }
  assert (H2 : forall n,
             In n ["parked"; "taxiing"; "takeoff"; "landing"; "airborne"; "crashed"] ->
             VNum 3 <> VStr n) by discriminate.
  assert (H3 : In "landing"
                 ["parked"; "taxiing"; "takeoff"; "landing"; "airborne"; "crashed"]).
  { cbn. tauto. }
  split; [exact H1|]. split; [exact H3|]. split; [|split].
  - exact (proj2 (proj1 change_status_valid_or_ignored demo_aircraft (VStr "holding") H1)).
  - exact (proj2 (proj1 change_status_valid_or_ignored demo_aircraft (VNum 3) H2)).
  - exact (proj2 (proj2 change_status_valid_or_ignored demo_aircraft "landing" H3)).
Defined.


(** The command of type "squawk" in the queue of the demo aircraft. *)
Lemma unknown_command_consumed_once_witness :
  (known_type {| cmd_type := VStr "squawk"; cmd_value := VNum 7700;
                 execution_time := None; completed := false |} = false /\
   @process_commands test_lib 5 demo_aircraft = (demo_after_5, inr tt) /\
   commands demo_aircraft !! 2%nat
     = Some {| cmd_type := VStr "squawk"; cmd_value := VNum 7700;
               execution_time := None; completed := false |} /\
   fires 5 {| cmd_type := VStr "squawk"; cmd_value := VNum 7700;
              execution_time := None; completed := false |} = true /\
   @states test_lib [11; 12] demo_after_5 !! 1%nat = Some demo_after_11 /\
   @states test_lib [11; 12] demo_after_5 !! 2%nat = Some demo_after_11 /\
   Forall (fun c => well_typed c = true) (commands demo_aircraft)) /\
  @apply_command test_lib
     {| cmd_type := VStr "squawk"; cmd_value := VNum 7700;
        execution_time := None; completed := false |} demo_aircraft
    = (demo_aircraft, inr tt) /\
  commands demo_after_5 !! 2%nat
    = Some {| cmd_type := VStr "squawk"; cmd_value := VNum 7700;
              execution_time := None; completed := true |} /\
  ~ In 2%nat (map fst (fired demo_after_11 demo_after_11)) /\
  snd (@process_commands test_lib 5 demo_aircraft) = inr tt.
Proof.
  set (c := {| cmd_type := VStr "squawk"; cmd_value := VNum 7700;
               execution_time := None; completed := false |}).
  assert (Hk : known_type c = false) by reflexivity.
  assert (Hp : @process_commands test_lib 5 demo_aircraft = (demo_after_5, inr tt))
    by (vm_compute; reflexivity).
  assert (Hc : commands demo_aircraft !! 2%nat = Some c) by reflexivity.
  assert (Hf : fires 5 c = true) by reflexivity.
  assert (H1 : @states test_lib [11; 12] demo_after_5 !! 1%nat = Some demo_after_11)
    by reflexivity.
  assert (H2 : @states test_lib [11; 12] demo_after_5 !! (1 + 1)%nat = Some demo_after_11)
    by (vm_compute; reflexivity).
  assert (Hwt : Forall (fun c => well_typed c = true) (commands demo_aircraft))
    by (repeat constructor).
  split; [repeat split; assumption|].
  split; [exact (proj1 (@unknown_command_consumed_once test_lib) c demo_aircraft Hk)|].
  destruct (proj1 (proj2 (@unknown_command_consumed_once test_lib))
              5 demo_aircraft demo_after_5 2%nat c Hp Hc Hk Hf) as (Hm & _ & Hlater).
  split; [exact Hm|].
  split; [exact (proj1 (Hlater [11; 12] 1%nat demo_after_11 demo_after_11 H1 H2))|].
  exact (proj2 (proj2 (@unknown_command_consumed_once test_lib)) 5 demo_aircraft Hwt).
Defined.

End Examples.

Section AirportExamples.
Import Airport AirportIO.
#[local] Existing Instance test_lib.

(** The runways of the demo airport for a wind from 100 degrees. *)
Lemma active_runways_by_wind_witness :
  as_num (VNum 100) = Some 100 /\
  in_float_range 100 = true /\
  exists l,
    get_active_runways demo_airport (VNum 100) = inr l /\
    Permutation (map runway l) (List.filter is_active (runways demo_airport)) /\
    Forall (record_of 100) l /\
    StronglySorted (fun x y => difference x <= difference y) l /\
    forall d : Q,
      with_key difference d l =
      with_key difference d
        (map (best_direction 100) (List.filter is_active (runways demo_airport))).
Proof.
  assert (Hr : in_float_range 100 = true) by (vm_compute; reflexivity).
  split; [reflexivity|]. split; [exact Hr|].
  exact (proj1 (proj2 (@active_runways_by_wind test_lib))
           demo_airport (VNum 100) 100 eq_refl Hr).
Defined.

(** A fog density of 1.5, a wind direction of 725 and rain on the demo
    airport, the other parameters left out. *)
Lemma set_weather_partial_update_witness :
  (numeric_or_none (VNum (3 # 2)) /\ numeric_or_none (VNum 725) /\
   numeric_or_none VNone /\ VStr "rain" <> VNone) /\
  visibility (weather (fst (@set_weather test_lib VNone (VNum (3 # 2)) (VNum 725)
                              VNone (VStr "rain") demo_airport)))
    = visibility (weather demo_airport) /\
  exists a',
    @set_weather test_lib VNone (VNum (3 # 2)) (VNum 725) VNone (VStr "rain")
      demo_airport = (a', inr tt) /\
    precipitation (weather a') = VStr "rain" /\
    (exists c, fog_density (weather a') = VNum c /\ c = 1) /\
    (exists c, wind_direction (weather a') = VNum c /\ 0 <= c /\ c < 360 /\
               exists k : Z, 725 == c + 360 * inject_Z k).
Proof.
  assert (Hf : numeric_or_none (VNum (3 # 2))) by (right; eexists; reflexivity).
  assert (Hd : numeric_or_none (VNum 725)) by (right; eexists; reflexivity).
  assert (Hs : numeric_or_none VNone) by (left; reflexivity).
  assert (Hp : VStr "rain" <> VNone) by discriminate.
  split; [repeat split; assumption|]. split.
  - exact (proj1 (proj1 (@set_weather_partial_update test_lib)
                    VNone (VNum (3 # 2)) (VNum 725) VNone (VStr "rain") demo_airport)
             eq_refl).
  - destruct (proj1 (proj2 (@set_weather_partial_update test_lib))
                VNone (VNum (3 # 2)) (VNum 725) VNone (VStr "rain") demo_airport
                Hf Hd Hs) as (a' & Hrun & _ & Hprec & Hfog & Hdir & _).
    exists a'. split; [exact Hrun|]. split; [exact (Hprec Hp)|]. split.
    + destruct (Hfog (3 # 2) eq_refl) as (c & Hc & _ & _ & _ & H1).
      exists c. split; [exact Hc|]. apply H1. discriminate.
    + destruct (Hdir 725 eq_refl) as (c & Hc & Hwhole & _).
      exists c. split; [exact Hc|]. apply Hwhole. left. lra.
Defined.


(** The gates of the demo airport, the first of them occupied, after the
    same save and load. *)
Lemma loaded_gates_are_free_witness :
  (@load_from_file test_lib "rodeos.json" (demo_empty, snd demo_saved)
     = (demo_loaded, inr true) /\
   save_to_file "rodeos.json" (demo_airport, demo_world) = (demo_saved, inr true)) /\
  Forall (fun g => occupied g = false) (gates (fst demo_loaded)) /\
  files (snd demo_saved) !! "rodeos.json" = Some (JsonText (snapshot demo_airport)) /\
  gates (fst demo_loaded) = map vacated (gates demo_airport).
Proof.
  assert (Hload : @load_from_file test_lib "rodeos.json" (demo_empty, snd demo_saved)
                  = (demo_loaded, inr true)) by (vm_compute; reflexivity).
  assert (Hsave : save_to_file "rodeos.json" (demo_airport, demo_world)
                  = (demo_saved, inr true)) by (vm_compute; reflexivity).
  split; [split; assumption|]. split.
  - exact (proj1 (@loaded_gates_are_free test_lib)
             "rodeos.json" (demo_empty, snd demo_saved) demo_loaded Hload).
  - exact (proj2 (proj2 (@loaded_gates_are_free test_lib))
             demo_airport demo_empty "rodeos.json" demo_world demo_saved Hsave).
Defined.

(** A runway of length zero added from int coordinates has the heading 0:
    [math.atan2] gets the ints 0 and 0. Its file holds the two ends, and
    the load computes the heading from them as vectors, where [-delta_y] is
    the float -0.0: the runway comes back with the heading 180. *)
Lemma zero_length_runway_turns :
  let a := fst (@add_runway test_lib (VStr "pad") (CInt 0, CInt 0) (CInt 0, CInt 0)
                  (VNum 45) (VBool true) demo_empty) in
  let saved := save_to_file "pad.json" (a, demo_world) in
  let loaded := @load_from_file test_lib "pad.json" (demo_empty, snd (fst saved)) in
  snd saved = inr true /\ snd loaded = inr true /\
  Forall2 Qeq (map rw_heading (runways a)) [0] /\
  Forall2 Qeq (map rw_heading (runways (fst (fst loaded)))) [180] /\
  runways (fst (fst loaded)) <> runways a.
Proof.
  vm_compute. split; [reflexivity|]. split; [reflexivity|].
  split; [repeat constructor|]. split; [repeat constructor|].
  discriminate.
Qed.

(** The airport whose runway has tuples for its ends: building the
    dictionary raises [AttributeError], and [save_to_file] lets it out. *)
Lemma save_lets_exception_out :
  save_attributes "rodeos.json" demo_given demo_world
    = (demo_world, inl AttributeError) /\
  forall b : bool,
    snd (save_attributes "rodeos.json" demo_given demo_world) <> inr b.
Proof.
  assert (E : save_attributes "rodeos.json" demo_given demo_world
              = (demo_world, inl AttributeError)) by (vm_compute; reflexivity).
  split; [exact E|]. intros b. rewrite E. discriminate.
Qed.

End AirportExamples.

(** ** Runs that fail *)

Section FailingRuns.
Import Airport AirportIO.

(** Loading a file that does not exist. *)
Example load_missing_file :
  let result := @load_from_file test_lib "nowhere.json" (demo_empty, demo_world) in
  snd result = inr false /\
  fst (fst result) = demo_empty /\
  stdout (snd (fst result)) = [LoadError OSError].
Proof. vm_compute. repeat split. Qed.

(** Saving where the file cannot be opened. *)
Example save_unwritable_file :
  let result := save_to_file "/readonly.json" (demo_airport, demo_world) in
  snd result = inr false /\
  stdout (snd (fst result)) = [SaveError OSError] /\
  files (snd (fst result)) !! "/readonly.json" = None.
Proof. vm_compute. repeat split. Qed.

(** Saving a runway whose width is an object that JSON cannot hold leaves a
    file that cannot be loaded. *)
Example save_unserializable :
  let a := set_runways
             [make_runway (H := test_lib) (VStr "09/27") (0, 0) (100, 0)
                (VObj 1) (VBool true)] demo_empty in
  let saved := save_to_file "odd.json" (a, demo_world) in
  let loaded := @load_from_file test_lib "odd.json" (demo_empty, snd (fst saved)) in
  snd saved = inr false /\
  stdout (snd (fst saved)) = [SaveError TypeError] /\
  files (snd (fst saved)) !! "odd.json" = Some Garbage /\
  snd loaded = inr false /\
  stdout (snd (fst loaded)) = [SaveError TypeError; LoadError JSONDecodeError].
Proof. vm_compute. repeat split. Qed.

(** A file whose weather has a key that [set_weather] does not know: the
    load fails after the collections were replaced. *)
Example load_unknown_weather_key :
  let data := VDict [("name", VStr "Tenerife");
                     ("gates", VList [VDict [("name", VStr "G9");
                                             ("position", VList [VNum 1; VNum 2]);
                                             ("occupied", VBool true)]]);
                     ("weather", VDict [("humidity", VNum 40)])] in
  let w := {| files := {["odd.json" := JsonText data]}; unwritable := ∅;
              stdout := [] |} in
  let result := @load_from_file test_lib "odd.json" (demo_airport, w) in
  snd result = inr false /\
  name (fst (fst result)) = VStr "Tenerife" /\
  runways (fst (fst result)) = [] /\
  map occupied (gates (fst (fst result))) = [false] /\
  stdout (snd (fst result)) = [LoadError TypeError].
Proof. vm_compute. repeat split. Qed.

(** A heading command whose value is not a number raises at every call, and
    the commands behind it are never reached. *)
Example ill_typed_command_blocks_queue :
  let a := Aircraft.set_commands
             [ {| Aircraft.cmd_type := VStr "heading"; Aircraft.cmd_value := VNone;
                  Aircraft.execution_time := None; Aircraft.completed := false |};
               {| Aircraft.cmd_type := VStr "speed"; Aircraft.cmd_value := VNum 80;
                  Aircraft.execution_time := None; Aircraft.completed := false |} ]
             demo_aircraft in
  @Aircraft.process_commands test_lib 5 a = (a, inl TypeError).
Proof. vm_compute. reflexivity. Qed.

End FailingRuns.

(** Runs with the rounding of binary64. *)
Section Rounding.
Import Airport.

(** The remainder of a negative float close to 0 is rounded to 360. *)
Example remainder_reaches_360 :
  @float_mod ieee_lib (- (1 / inject_Z (10 ^ 20))) 360 = 360 /\
  Aircraft.heading
    (fst (@Aircraft.set_course ieee_lib (VNum (- (1 / inject_Z (10 ^ 20))))
            demo_aircraft)) = VNum 360 /\
  wind_direction
    (weather (fst (@set_weather ieee_lib VNone VNone
                     (VNum (- (1 / inject_Z (10 ^ 20)))) VNone VNone demo_empty)))
    = VNum 360.
Proof. vm_compute. repeat split. Qed.

(** A runway that points up and a hair to the left has the heading 360. *)
Example heading_reaches_360 :
  @_calculate_heading ieee_lib (CFloat 0, CFloat 0)
    (CFloat (- (1 / inject_Z (10 ^ 20))), CFloat (- (1))) = inr 360.
Proof. vm_compute. reflexivity. Qed.

(** A heading one float above 90 and a wind from 0: in exact arithmetic
    the reciprocal is closer to the wind; the floats find both at 90 and
    keep the heading. *)
Example near_tie_keeps_heading :
  let r := {| rw_name := VStr "09/27"; start_pos := (0, 0); end_pos := (100, 0);
              rw_width := VNum 45; active := VBool true; rw_length := 100;
              rw_heading := 90 + 1 / inject_Z (2 ^ 46) |} in
  @float_round ieee_lib (rw_heading r) == rw_heading r /\
  direction (@best_direction ieee_lib 0 r) = "normal" /\
  direction (@best_direction test_lib 0 r) = "reverse".
Proof. vm_compute. repeat split. Qed.

(** For a wind of the size of 1e17 the floats are 16 apart, and the
    difference to the heading 90 comes out as 92. *)
Example difference_above_90 :
  @float_round ieee_lib (inject_Z 100000000000000080) == inject_Z 100000000000000080 /\
  @angle_diff ieee_lib 90 (inject_Z 100000000000000080) == 92 /\
  @angle_diff test_lib 90 (inject_Z 100000000000000080) == 90.
Proof. vm_compute. repeat split. Qed.

End Rounding.

(** * Further properties *)

(** ** Floored remainder *)

Lemma Qfloor_unique (x : Q) (k : Z) :
  inject_Z k <= x -> x < inject_Z k + 1 -> Qfloor x = k.
Proof.
  intros Hlo Hhi.
  pose proof (Qfloor_le x) as Hf. pose proof (Qlt_floor x) as Hc.
  rewrite inject_Z_plus in Hc. change (inject_Z 1) with 1 in Hc.
  assert (H1 : (k < Qfloor x + 1)%Z).
  { rewrite Zlt_Qlt, inject_Z_plus. change (inject_Z 1) with 1. lra. }
  assert (H2 : (Qfloor x < k + 1)%Z).
  { rewrite Zlt_Qlt, inject_Z_plus. change (inject_Z 1) with 1. lra. }
  lia.
Qed.

Lemma Qmod_unique (q m r : Q) (k : Z) :
  0 < m -> 0 <= r -> r < m -> q == r + m * inject_Z k -> Qmod q m == r.
Proof.
  intros Hm Hlo Hhi Hq. unfold Qmod.
  assert (Hk : Qfloor (q / m) = k).
  { apply Qfloor_unique.
    - apply Qle_shift_div_l; [exact Hm|].
      assert (E : inject_Z k * m == m * inject_Z k) by ring.
      rewrite E, Hq. lra.
    - apply Qlt_shift_div_r; [exact Hm|].
      assert (E : (inject_Z k + 1) * m == m * inject_Z k + m) by ring.
      rewrite E, Hq. lra. }
  rewrite Hk, Hq. ring.
Qed.


(** Adding a multiple of the modulus changes nothing. *)
Lemma Qmod_shift (q m : Q) (k : Z) :
  0 < m -> Qmod (q + m * inject_Z k) m == Qmod q m.
Proof.
  intros Hm. destruct (Qmod_range q m Hm) as [Hlo Hhi].
  destruct (Qmod_congruent q m) as [j Hj].
  apply (Qmod_unique _ m (Qmod q m) (j + k)); [exact Hm | exact Hlo | exact Hhi|].
  rewrite inject_Z_plus. rewrite Hj at 1. ring.
Qed.

(** ** Aircraft: course, speed and movement *)

Section MoreAircraft.
Context `{PyLib}.
Import Aircraft.


(** X2. [change_speed] with a number never raises and stores a speed that is
    not negative: the given value when it is positive, 0 otherwise. Nothing
    else of the aircraft changes. With a value that is not a number it raises
    [TypeError] and changes nothing. *)
Theorem change_speed_never_negative :
  (forall (a : Aircraft.t) (v : value) (q : Q),
     as_num v = Some q ->
     exists stored c,
       change_speed v a = (set_speed stored a, inr tt) /\
       as_num stored = Some c /\ 0 <= c /\
       (0 < q -> stored = v) /\ (q <= 0 -> stored = VNum 0)) /\
  (forall (a : Aircraft.t) (v : value),
     as_num v = None -> change_speed v a = (a, inl TypeError)).
Proof.
  split.
  - intros a v q Hq. unfold change_speed, bind, lift, modify, py_max. rewrite Hq.
    destruct (Qltb 0 q) eqn:H0.
    + apply Qltb_lt in H0. exists v, q. split; [reflexivity|].
      split; [exact Hq|]. split; [lra|]. split; [reflexivity | lra].
    + apply Qltb_ge in H0. exists (VNum 0), 0. split; [reflexivity|].
      split; [reflexivity|]. split; [lra|]. split; [lra | reflexivity].
  - intros a v Hn. unfold change_speed, bind, lift, py_max. now rewrite Hn.
Qed.

(** *** What [move] does and leaves *)

Lemma record_sample_frame (clock : Ticks) (a : Aircraft.t) :
  set_flight_data (flight_data a) (record_sample clock a) = a.
Proof.
  unfold record_sample. destruct (last (flight_data a)) as [s|];
    [destruct (Qltb _ _)|]; now destruct a.
Qed.

Lemma usable_to_float (v : value) : usable v <-> exists x, to_float v = inr x.
Proof.
  split.
  - intros (q & Hq & Hr). exists (float_round q). now apply to_float_number.
  - intros (x & Hx). destruct (to_float_inr _ _ Hx) as (q & Hq & Hr & _).
    now exists q.
Qed.

Lemma to_float_error (v : value) (e : exn) :
  to_float v = inl e -> (e = TypeError \/ e = OverflowError) /\ ~ usable v.
Proof.
  intros He. split.
  - destruct (to_float_inl _ _ He) as [[-> _] | [-> _]]; [now left | now right].
  - intros Hu. apply usable_to_float in Hu. destruct Hu as [x Hx]. congruence.
Qed.

(** The three ways a call of [move] ends. *)
Lemma move_cases (clock : Ticks) (dtv : value) (a : Aircraft.t) :
  (status a = "crashed" /\ move clock dtv a = (a, inr tt)) \/
  (status a <> "crashed" /\
   (exists v h dt,
      to_float (speed a) = inr v /\ to_float (heading a) = inr h /\
      to_float dtv = inr dt /\
      move clock dtv a =
        (record_sample clock
           (set_position
              (vec_add (position a)
                 (math_sin (math_radians h) * (v * scale) * dt,
                  - math_cos (math_radians h) * (v * scale) * dt)) a),
         inr tt))) \/
  (status a <> "crashed" /\
   exists e,
     (e = TypeError \/ e = OverflowError) /\
     ~ (usable (speed a) /\ usable (heading a) /\ usable dtv) /\
     move clock dtv a = (a, inl e)).
Proof.
  destruct (String.eqb (status a) "crashed") eqn:Hs.
  - left. apply String.eqb_eq in Hs. split; [exact Hs | now apply move_crashed].
  - right. pose proof Hs as Hne. apply String.eqb_neq in Hne.
    destruct (to_float (speed a)) as [e|v] eqn:Hv;
      [|destruct (to_float (heading a)) as [e|h] eqn:Hh;
        [|destruct (to_float dtv) as [e|dt] eqn:Hd]].
    + right. split; [exact Hne|]. exists e.
      destruct (to_float_error _ _ Hv) as [He Hu].
      split; [exact He|]. split; [tauto|].
      unfold move, bind, get, lift. now rewrite Hs, Hv.
    + right. split; [exact Hne|]. exists e.
      destruct (to_float_error _ _ Hh) as [He Hu].
      split; [exact He|]. split; [tauto|].
      unfold move, bind, get, lift. now rewrite Hs, Hv, Hh.
    + right. split; [exact Hne|]. exists e.
      destruct (to_float_error _ _ Hd) as [He Hu].
      split; [exact He|]. split; [tauto|].
      unfold move, bind, get, lift. now rewrite Hs, Hv, Hh, Hd.
    + left. split; [exact Hne|]. exists v, h, dt. repeat split.
      now apply move_flying.
Qed.


Lemma seconds_le (x y : Z) : (x <= y)%Z -> seconds x <= seconds y.
Proof.
  intros Hxy. unfold seconds. rewrite Zle_Qle in Hxy.
  apply Qmult_le_compat_r; [exact Hxy | discriminate].
Qed.

Lemma spaced_snoc (fd : list Sample) (l x : Sample) :
  spaced fd -> last fd = Some l -> s_time l + 1 < s_time x -> spaced (fd ++ [x]).
Proof.
  intros Hfd Hl Hx i s s' Hs Hs'.
  rewrite last_lookup in Hl.
  assert (Hi : (i + 1 < List.length (fd ++ [x]))%nat).
  { apply lookup_lt_Some in Hs'. exact Hs'. }
  rewrite List.length_app in Hi. cbn [List.length] in Hi.
  destruct (decide (i + 1 < List.length fd)%nat) as [Hlt | Hge].
  - rewrite lookup_app_l in Hs by lia. rewrite lookup_app_l in Hs' by lia.
    now apply (Hfd i).
  - assert (Hi' : (i + 1)%nat = List.length fd) by lia.
    rewrite lookup_app_l in Hs by lia.
    rewrite lookup_app_r in Hs' by lia.
    replace (i + 1 - List.length fd)%nat with 0%nat in Hs' by lia.
    cbn in Hs'. injection Hs' as <-.
    replace (pred (List.length fd)) with i in Hl by lia.
    rewrite Hl in Hs. now injection Hs as <-.
Qed.

Lemma spaced_single (x : Sample) : spaced [x].
Proof.
  intros i s s' Hs Hs'. destruct i; cbn in Hs'; discriminate.
Qed.

(** What [record_sample] appends. *)
Lemma record_sample_trace (clock : Ticks) (b : Aircraft.t) :
  exists extra,
    flight_data (record_sample clock b) = flight_data b ++ extra /\
    (List.length extra <= 1)%nat /\
    Forall (fun s => s_position s = position b /\ s_heading s = heading b /\
                     s_speed s = speed b /\ s_status s = status b) extra /\
    (flight_data b = [] -> List.length extra = 1%nat) /\
    (clock_ok clock -> spaced (flight_data b) ->
     spaced (flight_data (record_sample clock b))).
Proof.
  unfold record_sample. destruct (last (flight_data b)) as [l|] eqn:Hl.
  - destruct (Qltb (s_time l + 1) (seconds (ticks_test clock))) eqn:Hdue.
    + eexists. split; [reflexivity|]. split; [cbn; lia|].
      split; [repeat constructor|]. split; [reflexivity|].
      intros Hclock Hsp. cbn [flight_data set_flight_data].
      apply (spaced_snoc _ l); [exact Hsp | exact Hl|].
      cbn [s_time]. apply Qltb_lt in Hdue.
      pose proof (seconds_le _ _ Hclock). lra.
    + exists []. rewrite app_nil_r. split; [reflexivity|]. split; [cbn; lia|].
      split; [constructor|]. split; [|tauto].
      intros Hnil. rewrite Hnil in Hl. discriminate.
  - apply last_None in Hl. eexists. split; [reflexivity|]. split; [cbn; lia|].
    split; [repeat constructor|]. split; [reflexivity|].
    intros _ _. cbn [flight_data set_flight_data]. rewrite Hl. apply spaced_single.
Qed.

(** X4. The trace [flight_data] only grows, by at most one sample at each
    call of [move], and the sample holds the position, heading, speed and
    status that the call leaves. A crashed aircraft gets no sample; an
    aircraft without a trace gets one at its first normal move. When the
    clock does not go back between the two readings of a call, samples stay
    more than one second apart. *)
Theorem move_trace_grows :
  forall (clock : Ticks) (dtv : value) (a : Aircraft.t),
    let a' := fst (move clock dtv a) in
    (exists extra,
       flight_data a' = flight_data a ++ extra /\
       (List.length extra <= 1)%nat /\
       Forall (fun s => s_position s = position a' /\ s_heading s = heading a' /\
                        s_speed s = speed a' /\ s_status s = status a') extra /\
       (status a = "crashed" -> extra = [])) /\
    (flight_data a = [] -> status a <> "crashed" ->
     snd (move clock dtv a) = inr tt -> List.length (flight_data a') = 1%nat) /\
    (clock_ok clock -> spaced (flight_data a) -> spaced (flight_data a')).
Proof.
  intros clock dtv a. cbv zeta.
  destruct (move_cases clock dtv a)
    as [[Hs ->] | [[Hs (v & h & dt & Hv & Hh & Hd & ->)]
                   | [Hs (e & He & Hn & ->)]]];
    cbn [fst snd].
  - split; [|split; [contradiction | tauto]].
    exists []. rewrite app_nil_r.
    split; [reflexivity|]. split; [cbn; lia|]. split; [constructor | reflexivity].
  - set (b := set_position _ a).
    destruct (record_sample_trace clock b) as (extra & He & Hlen & Hall & Hone & Hsp).
    pose proof (record_sample_frame clock b) as Hf.
    assert (Hsame : position (record_sample clock b) = position b /\
                    heading (record_sample clock b) = heading b /\
                    speed (record_sample clock b) = speed b /\
                    status (record_sample clock b) = status b).
    { apply (f_equal (fun x => (position x, heading x, speed x, status x))) in Hf.
      cbn in Hf. now injection Hf as -> -> -> ->. }
    destruct Hsame as (Hp & Hhd & Hspd & Hst).
    split; [|split].
    + exists extra. split; [exact He|]. split; [exact Hlen|]. split.
      * rewrite Hp, Hhd, Hspd, Hst. exact Hall.
      * intros Hc. contradiction.
    + intros Hnil _ _. rewrite He. change (flight_data b) with (flight_data a).
      rewrite Hnil. cbn [app]. now apply Hone.
    + exact Hsp.
  - split; [|split; [discriminate | tauto]].
    exists []. rewrite app_nil_r.
    split; [reflexivity|]. split; [cbn; lia|]. split; [constructor | reflexivity].
Qed.


(** *** More on the command queue *)

Lemma process_queue_app (ct : Q) (q1 q2 : list Command) (a : Aircraft.t) :
  process_queue ct (q1 ++ q2) a =
  match snd (snd (process_queue ct q1 a)) with
  | inl e =>
      (fst (process_queue ct q1 a) ++ q2,
       (fst (snd (process_queue ct q1 a)), inl e))
  | inr _ =>
      (fst (process_queue ct q1 a)
       ++ fst (process_queue ct q2 (fst (snd (process_queue ct q1 a)))),
       snd (process_queue ct q2 (fst (snd (process_queue ct q1 a)))))
  end.
Proof.
  revert a. induction q1 as [|c rest IH]; intros a.
  - cbn. now destruct (process_queue ct q2 a).
  - cbn [app process_queue]. destruct (fires ct c).
    + destruct (apply_command c a) as [a1 [e|u]]; [reflexivity|].
      rewrite IH. destruct (process_queue ct rest a1) as [q [b [e|u']]]; cbn [fst snd].
      * reflexivity.
      * now destruct (process_queue ct q2 b).
    + rewrite IH. destruct (process_queue ct rest a) as [q [b [e|u']]]; cbn [fst snd].
      * reflexivity.
      * now destruct (process_queue ct q2 b).
Qed.

(** X7. [add_command] never raises and appends one entry, not completed, at
    the end of the queue. The next [process_commands] does what it would
    have done without the new command and then, if it has not raised and
    the new command is due, applies the new command last and marks it. *)
Theorem added_command_is_processed_last :
  forall (ct : Q) (a a2 : Aircraft.t) (r : exn + unit) (ty v : value)
         (time : option Q),
    process_commands ct a = (a2, r) ->
    let c := {| cmd_type := ty; cmd_value := v; execution_time := time;
                completed := false |} in
    add_command ty v time a = (set_commands (commands a ++ [c]) a, inr tt) /\
    process_commands ct (fst (add_command ty v time a)) =
      match r with
      | inl e => (set_commands (commands a2 ++ [c]) a2, inl e)
      | inr _ =>
          if is_due ct c then
            match apply_command c a2 with
            | (a3, inl e) => (set_commands (commands a2 ++ [c]) a2, inl e)
            | (a3, inr _) =>
                (set_commands (commands a2 ++ [mark_completed c]) a3, inr tt)
            end
          else (set_commands (commands a2 ++ [c]) a2, inr tt)
      end.
Proof.
  intros ct a a2 r ty v time Hp. cbv zeta.
  split; [reflexivity|].
  rewrite process_commands_queue in Hp. injection Hp as Ha2 Hr.
  unfold add_command, modify. cbn [fst].
  rewrite process_commands_queue. cbn [commands set_commands].
  rewrite process_queue_frame, process_queue_app. cbn [fst snd].
  rewrite Hr. subst a2. cbn [commands set_commands].
  destruct r as [e|u]; cbn [fst snd]; [reflexivity|].
  cbn [process_queue]. unfold fires. cbn [completed negb andb].
  destruct (is_due ct _); cbn [fst snd]; [|reflexivity].
  rewrite apply_command_frame.
  pose proof (apply_command_raises
                {| cmd_type := ty; cmd_value := v; execution_time := time;
                   completed := false |}
                (fst (snd (process_queue ct (commands a) a)))) as Hraise.
  destruct (apply_command _ (fst (snd (process_queue ct (commands a) a))))
    as [a3 [e|u']]; cbn [fst snd].
  - destruct (Hraise a3 e eq_refl) as [-> _]. reflexivity.
  - reflexivity.
Qed.

Lemma apply_keeps_heading (d : Command) (a : Aircraft.t) :
  is_str "heading" (cmd_type d) = false ->
  heading (fst (apply_command d a)) = heading a.
Proof.
  intros Hd. unfold apply_command. rewrite Hd.
  destruct (is_str "speed" _).
  { unfold change_speed, bind, lift, modify. now destruct (py_max 0 _). }
  destruct (is_str "status" _).
  { unfold change_status. destruct (cmd_value d); try reflexivity.
    now destruct (existsb _ _). }
  now destruct (is_str "altitude" _).
Qed.

Lemma process_queue_keeps_heading (ct : Q) (post : list Command) (a : Aircraft.t) :
  Forall (fun d => fires ct d && is_str "heading" (cmd_type d) = false) post ->
  heading (fst (snd (process_queue ct post a))) = heading a.
Proof.
  intros Hpost. revert a. induction Hpost as [|d rest Hd _ IH]; intros a; [reflexivity|].
  cbn [process_queue]. destruct (fires ct d) eqn:Hf.
  - cbn [andb] in Hd. pose proof (apply_keeps_heading d a Hd) as Hk.
    destruct (apply_command d a) as [a1 [e|u]]; cbn [fst snd] in *; [exact Hk|].
    rewrite <- Hk, <- (IH a1). now destruct (process_queue ct rest a1) as [q [b r]].
  - rewrite <- (IH a). now destruct (process_queue ct rest a) as [q [b r]].
Qed.

(** X8. Commands are applied in the order of the queue, not of their times:
    after a call that returns normally, the heading is the one of the last
    entry of the queue that was a due heading command with a number (its
    value [% 360]), whatever the scheduled times of the others. *)
Theorem last_due_heading_wins :
  forall (ct : Q) (a a' : Aircraft.t) (pre post : list Command) (c : Command)
         (hq : Q),
    commands a = pre ++ c :: post ->
    process_commands ct a = (a', inr tt) ->
    fires ct c = true ->
    is_str "heading" (cmd_type c) = true ->
    as_num (cmd_value c) = Some hq ->
    Forall (fun d => fires ct d && is_str "heading" (cmd_type d) = false) post ->
    heading a' = VNum (float_mod hq 360).
Proof.
  intros ct a a' pre post c hq Hc Hp Hf Hh Hq Hpost.
  rewrite process_commands_queue, Hc in Hp. injection Hp as Ha' Hr.
  subst a'. cbn [heading set_commands].
  rewrite process_queue_app in *.
  destruct (process_queue ct pre a) as [q1 [b1 [e|u]]]; cbn [fst snd] in *;
    [discriminate|].
  cbn [process_queue] in *. rewrite Hf in *.
  assert (Ha : apply_command c b1 = (set_heading (VNum (float_mod hq 360)) b1, inr tt)).
  { unfold apply_command. rewrite Hh. unfold set_course, bind, lift, modify, py_mod.
    rewrite Hq. destruct (cmd_value c); try reflexivity; discriminate. }
  rewrite Ha in *.
  pose proof (process_queue_keeps_heading ct post
                (set_heading (VNum (float_mod hq 360)) b1) Hpost) as Hk.
  destruct (process_queue ct post _) as [q2 [b2 r2]]. cbn [fst snd] in *.
  exact Hk.
Qed.

Lemma apply_command_rest (c : Command) (a : Aircraft.t) :
  position (fst (apply_command c a)) = position a /\
  flight_data (fst (apply_command c a)) = flight_data a /\
  same_identity a (fst (apply_command c a)).
Proof.
  unfold apply_command, same_identity.
  destruct (is_str "heading" _).
  { unfold set_course, bind, lift, modify. destruct (py_mod _ 360); cbn; tauto. }
  destruct (is_str "speed" _).
  { unfold change_speed, bind, lift, modify. destruct (py_max 0 _); cbn; tauto. }
  destruct (is_str "status" _).
  { unfold change_status. destruct (cmd_value c) as [| | |s| | | |]; try (cbn; tauto).
    destruct (existsb (String.eqb s) valid_statuses); cbn; tauto. }
  destruct (is_str "altitude" _); cbn; tauto.
Qed.

Lemma process_queue_rest (ct : Q) (queue : list Command) (a : Aircraft.t) :
  position (fst (snd (process_queue ct queue a))) = position a /\
  flight_data (fst (snd (process_queue ct queue a))) = flight_data a /\
  same_identity a (fst (snd (process_queue ct queue a))).
Proof.
  revert a. induction queue as [|c rest IH]; intros a.
  - cbn. unfold same_identity. tauto.
  - cbn [process_queue]. destruct (fires ct c).
    + destruct (apply_command_rest c a) as (Hp & Hf & Hi).
      destruct (apply_command c a) as [a1 [e|u]]; cbn [fst snd] in *; [tauto|].
      destruct (IH a1) as (Hp1 & Hf1 & Hi1).
      destruct (process_queue ct rest a1) as [q [b r]]. cbn [fst snd] in *.
      unfold same_identity in *. repeat split; try congruence.
      all: intuition congruence.
    + destruct (IH a) as (Hp1 & Hf1 & Hi1).
      destruct (process_queue ct rest a) as [q [b r]]. cbn [fst snd] in *. tauto.
Qed.

Lemma process_queue_flags (ct : Q) (queue : list Command) (a : Aircraft.t) :
  Forall2
    (fun c c' => same_command c c' /\
                 (completed c = true -> completed c' = true) /\
                 (completed c' = true -> completed c = true \/ fires ct c = true))
    queue (fst (process_queue ct queue a)).
Proof.
  assert (Hsame : forall c : Command,
             same_command c c /\ (completed c = true -> completed c = true) /\
             (completed c = true -> completed c = true \/ fires ct c = true)).
  { intros c. unfold same_command. tauto. }
  revert a. induction queue as [|c rest IH]; intros a; [constructor|].
  cbn [process_queue]. destruct (fires ct c) eqn:Hf.
  - destruct (apply_command c a) as [a1 [e|u]].
    + cbn [fst]. apply Forall2_same_length_lookup_2; [reflexivity|].
      intros i x y Hx Hy. rewrite Hx in Hy. injection Hy as <-. apply Hsame.
    + specialize (IH a1). destruct (process_queue ct rest a1) as [q [b r]].
      cbn [fst] in *. constructor; [|exact IH].
      unfold same_command. cbn. tauto.
  - specialize (IH a). destruct (process_queue ct rest a) as [q [b r]].
    cbn [fst] in *. constructor; [apply Hsame | exact IH].
Qed.

(** X9. Whatever it does, [process_commands] leaves the position, the trace
    and the identity of the aircraft, and in the queue it changes flags
    only: the queue keeps its length and the type, value and time of every
    entry; a completed entry stays completed, and an entry is completed
    afterwards only if it was before or was due. *)
Theorem process_commands_touches_flags_only :
  forall (ct : Q) (a : Aircraft.t),
    let a' := fst (process_commands ct a) in
    position a' = position a /\ flight_data a' = flight_data a /\
    same_identity a a' /\
    List.length (commands a') = List.length (commands a) /\
    Forall2
      (fun c c' => same_command c c' /\
                   (completed c = true -> completed c' = true) /\
                   (completed c' = true -> completed c = true \/ fires ct c = true))
      (commands a) (commands a').
Proof.
  intros ct a. cbv zeta. rewrite process_commands_queue. cbn [fst].
  destruct (process_queue_rest ct (commands a) a) as (Hp & Hf & Hi).
  pose proof (process_queue_flags ct (commands a) a) as Hfl.
  cbn [position flight_data commands set_commands].
  split; [exact Hp|]. split; [exact Hf|]. split; [exact Hi|].
  split; [symmetry; exact (Forall2_length _ _ _ Hfl) | exact Hfl].
Qed.

Lemma process_queue_idle (ct : Q) (queue : list Command) (a : Aircraft.t) :
  Forall (fun c => fires ct c = false) queue ->
  process_queue ct queue a = (queue, (a, inr tt)).
Proof.
  induction 1 as [|c rest Hc _ IH]; [reflexivity|].
  cbn [process_queue]. now rewrite Hc, IH.
Qed.

(** X10. A call of [process_commands] at a time for which no entry is due
    (every entry is completed or scheduled later; the empty queue is the
    least case) returns normally and changes nothing at all, whatever the
    values of the pending commands. *)
Theorem nothing_due_nothing_done :
  forall (ct : Q) (a : Aircraft.t),
    Forall (fun c => completed c = true \/
                     exists et, execution_time c = Some et /\ ct < et)
      (commands a) ->
    process_commands ct a = (a, inr tt).
Proof.
  intros ct a Hall. rewrite process_commands_queue.
  rewrite process_queue_idle; [cbn [fst snd]; now rewrite set_commands_id|].
  eapply List.Forall_impl; [|exact Hall]. intros c [Hd | (et & He & Hlt)].
  - unfold fires. now rewrite Hd.
  - unfold fires, is_due. rewrite He.
    destruct (Qle_bool et ct) eqn:Hle; [|apply andb_false_r].
    apply Qle_bool_iff in Hle. lra.
Qed.

End MoreAircraft.

Section MoreAircraftExamples.
Import Aircraft.
#[local] Existing Instance test_lib.

Lemma test_rounding_ok : @rounding_ok test_lib.
Proof. split; [intros x y Hxy; exact Hxy | intros z _; reflexivity]. Qed.


(** The speeds -5 and "fast" on the demo aircraft. *)
Lemma change_speed_never_negative_witness :
  (as_num (VNum (-5)) = Some (-5) /\ as_num (VStr "fast") = None) /\
  (exists stored c,
     change_speed (VNum (-5)) demo_aircraft = (set_speed stored demo_aircraft, inr tt) /\
     as_num stored = Some c /\ 0 <= c /\
     (0 < -5 -> stored = VNum (-5)) /\ (-5 <= 0 -> stored = VNum 0)) /\
  change_speed (VStr "fast") demo_aircraft = (demo_aircraft, inl TypeError).
Proof.
  split; [split; reflexivity|]. split.
  - exact (proj1 change_speed_never_negative demo_aircraft (VNum (-5)) (-5) eq_refl).
  - exact (proj2 change_speed_never_negative demo_aircraft (VStr "fast") eq_refl).
Defined.


(** A first move of the demo aircraft, whose trace is empty. *)
Lemma move_trace_grows_witness :
  (flight_data demo_aircraft = [] /\ status demo_aircraft <> "crashed" /\
   snd (@move test_lib demo_clock (VNum 1) demo_aircraft) = inr tt /\
   clock_ok demo_clock /\ spaced (flight_data demo_aircraft)) /\
  List.length (flight_data (fst (@move test_lib demo_clock (VNum 1) demo_aircraft)))
    = 1%nat /\
  spaced (flight_data (fst (@move test_lib demo_clock (VNum 1) demo_aircraft))).
Proof.
  assert (H0 : flight_data demo_aircraft = []) by reflexivity.
  assert (H1 : status demo_aircraft <> "crashed") by discriminate.
  assert (H2 : snd (@move test_lib demo_clock (VNum 1) demo_aircraft) = inr tt)
    by reflexivity.
  assert (H3 : clock_ok demo_clock) by (unfold clock_ok; cbn; lia).
  assert (H4 : spaced (flight_data demo_aircraft)).
  { intros i s s' Hs. destruct i; discriminate. }
  split; [repeat split; assumption|].
  destruct (@move_trace_grows test_lib demo_clock (VNum 1) demo_aircraft)
    as (_ & Hone & Hsp).
  split; [exact (Hone H0 H1 H2) | exact (Hsp H3 H4)].
Defined.


(** An altitude command added to the demo aircraft and processed at 5. *)
Lemma added_command_is_processed_last_witness :
  @process_commands test_lib 5 demo_aircraft = (demo_after_5, inr tt) /\
  @process_commands test_lib 5
    (fst (add_command (VStr "altitude") (VNum 3000) None demo_aircraft))
  = (set_commands
       (commands demo_after_5
        ++ [ {| cmd_type := VStr "altitude"; cmd_value := VNum 3000;
                execution_time := None; completed := true |} ])
       (set_altitude (VNum 3000) demo_after_5), inr tt).
Proof.
  assert (Hp : @process_commands test_lib 5 demo_aircraft = (demo_after_5, inr tt))
    by (vm_compute; reflexivity).
  split; [exact Hp|].
  exact (proj2 (@added_command_is_processed_last test_lib 5 demo_aircraft
                  demo_after_5 (inr tt) (VStr "altitude") (VNum 3000) None Hp)).
Defined.

(** The two turns processed at 5: the second entry decides, though it was
    scheduled first. *)
Lemma last_due_heading_wins_witness :
  (commands demo_turning
     = [ {| cmd_type := VStr "heading"; cmd_value := VNum 90;
            execution_time := Some 4; completed := false |} ]
       ++ {| cmd_type := VStr "heading"; cmd_value := VNum 270;
             execution_time := Some 1; completed := false |} :: [] /\
   @process_commands test_lib 5 demo_turning
     = (fst (@process_commands test_lib 5 demo_turning), inr tt) /\
   fires 5 {| cmd_type := VStr "heading"; cmd_value := VNum 270;
              execution_time := Some 1; completed := false |} = true) /\
  heading (fst (@process_commands test_lib 5 demo_turning)) = VNum (Qmod 270 360).
Proof.
  assert (Hp : @process_commands test_lib 5 demo_turning
               = (fst (@process_commands test_lib 5 demo_turning), inr tt))
    by (vm_compute; reflexivity).
  split; [repeat split; exact Hp|].
  exact (@last_due_heading_wins test_lib 5 demo_turning
           (fst (@process_commands test_lib 5 demo_turning))
           [ {| cmd_type := VStr "heading"; cmd_value := VNum 90;
                execution_time := Some 4; completed := false |} ] []
           {| cmd_type := VStr "heading"; cmd_value := VNum 270;
              execution_time := Some 1; completed := false |} 270
           eq_refl Hp eq_refl eq_refl eq_refl (List.Forall_nil _)).
Defined.

(** The demo aircraft before and after the call at 5. *)
Lemma process_commands_touches_flags_only_witness :
  position demo_after_5 = position demo_aircraft /\
  flight_data demo_after_5 = flight_data demo_aircraft /\
  List.length (commands demo_after_5) = List.length (commands demo_aircraft).
Proof.
  destruct (@process_commands_touches_flags_only test_lib 5 demo_aircraft)
    as (Hp & Hf & _ & Hl & _).
  split; [exact Hp|]. split; [exact Hf | exact Hl].
Defined.

(** The demo aircraft at 7, with its speed command scheduled for 10. *)
Lemma nothing_due_nothing_done_witness :
  Forall (fun c => completed c = true \/
                   exists et, execution_time c = Some et /\ 7 < et)
    (commands demo_after_5) /\
  @process_commands test_lib 7 demo_after_5 = (demo_after_5, inr tt).
Proof.
  assert (Hall : Forall (fun c => completed c = true \/
                                  exists et, execution_time c = Some et /\ 7 < et)
                   (commands demo_after_5)).
  { constructor; [left; reflexivity|].
    constructor; [right; exists 10; split; reflexivity|].
    constructor; [left; reflexivity|].
    constructor; [left; reflexivity | constructor]. }
  split; [exact Hall|].
  exact (@nothing_due_nothing_done test_lib 7 demo_after_5 Hall).
Defined.

End MoreAircraftExamples.

(** ** Airport: lookups, runways and weather *)

Section MoreAirport.
Context `{PyLib}.
Import Airport AirportIO.

Lemma is_str_true (n : string) (v : value) : is_str n v = true <-> v = VStr n.
Proof.
  destruct v; cbn; try (split; [discriminate | discriminate]).
  rewrite String.eqb_eq. split; [now intros -> | now intros [= ->]].
Qed.

Lemma is_str_false (n : string) (v : value) : is_str n v = false <-> v <> VStr n.
Proof.
  rewrite <- is_str_true. now destruct (is_str n v).
Qed.

Section FirstNamed.
Context {A : Type} (name_of : A -> value) (n : string).

Lemma find_named_some (l : list A) (x : A) :
  List.find (fun y => is_str n (name_of y)) l = Some x <->
  first_named name_of n l x.
Proof.
  split.
  - induction l as [|y l IH]; [discriminate|].
    cbn [List.find]. destruct (is_str n (name_of y)) eqn:Hy.
    + intros [= ->]. exists [], l. split; [reflexivity|].
      split; [now apply is_str_true | constructor].
    + intros Hf. destruct (IH Hf) as (pre & post & -> & Hx & Hpre).
      exists (y :: pre), post. split; [reflexivity|]. split; [exact Hx|].
      constructor; [now apply is_str_false | exact Hpre].
  - intros (pre & post & -> & Hx & Hpre).
    induction Hpre as [|y pre Hy _ IH]; cbn [app List.find].
    + apply is_str_true in Hx. now rewrite Hx.
    + apply is_str_false in Hy. now rewrite Hy.
Qed.

Lemma find_named_none (l : list A) :
  List.find (fun y => is_str n (name_of y)) l = None <->
  Forall (fun y => name_of y <> VStr n) l.
Proof.
  induction l as [|y l IH]; cbn [List.find].
  - split; [constructor | reflexivity].
  - destruct (is_str n (name_of y)) eqn:Hy.
    + split; [discriminate|]. intros Hall. apply Forall_cons_1 in Hall as [Hne _].
      apply is_str_false in Hne. congruence.
    + rewrite IH. split.
      * intros Hall. constructor; [now apply is_str_false | exact Hall].
      * intros Hall. now apply Forall_cons_1 in Hall as [_ Hall].
Qed.


End FirstNamed.

(** X11. [get_runway_by_name], [get_taxiway_by_name] and [get_gate_by_name]
    return the first entry of their collection whose name is the given
    string, and [None] exactly when no entry has that name. *)
Theorem lookups_find_the_first :
  (forall (self : Airport.t) (n : string),
     (forall r, get_runway_by_name self n = Some r <->
                first_named rw_name n (runways self) r) /\
     (get_runway_by_name self n = None <->
      Forall (fun r => rw_name r <> VStr n) (runways self))) /\
  (forall (self : Airport.t) (n : string),
     (forall x, get_taxiway_by_name self n = Some x <->
                first_named tw_name n (taxiways self) x) /\
     (get_taxiway_by_name self n = None <->
      Forall (fun x => tw_name x <> VStr n) (taxiways self))) /\
  (forall (self : Airport.t) (n : string),
     (forall g, get_gate_by_name self n = Some g <->
                first_named g_name n (gates self) g) /\
     (get_gate_by_name self n = None <->
      Forall (fun g => g_name g <> VStr n) (gates self))).
Proof.
  split; [|split]; intros self n; (split; [intros x; apply find_named_some |
                                            apply find_named_none]).
Qed.


(** *** Headings and differences *)

Lemma Qmod_comp (q q' m : Q) : q == q' -> Qmod q m == Qmod q' m.
Proof.
  intros Hq. unfold Qmod.
  assert (Hf : Qfloor (q / m) = Qfloor (q' / m)).
  { apply Qfloor_comp. now rewrite Hq. }
  rewrite Hf, Hq. reflexivity.
Qed.












(** With a monotone rounding a difference to the wind is between 0 and
    180. *)
Lemma angle_diff_between (h w : Q) :
  rounding_ok -> 0 <= angle_diff h w /\ angle_diff h w <= 180.
Proof.
  intros Hround. unfold angle_diff.
  set (c := float_mod _ 360).
  destruct (float_mod_between (float_round (float_round (h - w) + 180)) Hround)
    as [Hlo Hhi].
  fold c in Hlo, Hhi.
  destruct Hround as [Hmono Hwhole].
  pose proof (Hwhole (-180)%Z) as Hm. pose proof (Hwhole 180%Z) as Hp.
  change (inject_Z (-180)) with (-180) in Hm.
  change (inject_Z 180) with 180 in Hp.
  assert (H1 : -180 <= c - 180) by lra.
  assert (H2 : c - 180 <= 180) by lra.
  apply Hmono in H1. apply Hmono in H2.
  rewrite Hm in H1 by (cbn; lia). rewrite Hp in H2 by (cbn; lia).
  split; [apply Qabs_nonneg|].
  apply Qabs_Qle_condition. split; lra.
Qed.

(** X14. When the rounding is monotone, the difference to the wind of every
    record that [get_active_runways] returns is between 0 and 180, and it
    is the smaller of the differences of the two directions as the code
    computes them. (In exact arithmetic the two add up to 180 and the
    smaller is at most 90; with floats of the size of 1e17 for the wind
    that bound fails.) *)
Theorem chosen_difference_within_180 :
  rounding_ok ->
  forall (self : Airport.t) (wind : value) (l : list ActiveRunway),
    get_active_runways self wind = inr l ->
    Forall (fun x =>
              0 <= difference x /\ difference x <= 180 /\
              exists w, to_float (effective_wind self wind) = inr w /\
                        difference x <= angle_diff (rw_heading (runway x)) w /\
                        difference x
                        <= angle_diff (reverse_of (rw_heading (runway x))) w) l.
Proof.
  intros Hround self wind l Hl. unfold get_active_runways in Hl.
  fold (effective_wind self wind) in Hl.
  destruct (collect_active _ (runways self)) as [e|l0] eqn:Hc; [discriminate|].
  injection Hl as <-.
  eapply Permutation_Forall; [symmetry; apply sort_by_perm|].
  revert l0 Hc. induction (runways self) as [|r rws IH]; intros l0 Hc;
    cbn [collect_active] in Hc.
  - injection Hc as <-. constructor.
  - destruct (truthy (active r)); [|now apply IH].
    destruct (to_float _) as [e|w] eqn:Hw; [discriminate|].
    destruct (collect_active _ rws) as [e|l1]; [discriminate|].
    injection Hc as <-. constructor; [|now apply IH].
    unfold best_direction.
    destruct (Qle_bool _ _) eqn:Hle; cbn [difference runway].
    + apply Qle_bool_iff in Hle.
      destruct (angle_diff_between (rw_heading r) w Hround) as [H0 H1].
      split; [exact H0|]. split; [exact H1|].
      exists w. split; [reflexivity|]. split; [lra | exact Hle].
    + apply Qle_bool_false in Hle.
      destruct (angle_diff_between (reverse_of (rw_heading r)) w Hround) as [H0 H1].
      split; [exact H0|]. split; [exact H1|].
      exists w. split; [reflexivity|]. split; lra.
Qed.

Lemma collect_active_none (wind : value) (rws : list Runway) :
  Forall (fun r => is_active r = false) rws -> collect_active wind rws = inr [].
Proof.
  induction 1 as [|r rws Hr _ IH]; [reflexivity|].
  cbn [collect_active]. unfold is_active in Hr. now rewrite Hr.
Qed.

Lemma collect_active_raises (wind : value) (rws : list Runway) :
  Exists (fun r => is_active r = true) rws -> as_num wind = None ->
  collect_active wind rws = inl TypeError.
Proof.
  intros Hex Hw. apply collect_active_fails; [|exact Hex].
  now apply to_float_other.
Qed.

Lemma collect_active_length (wind : value) (rws : list Runway) (l : list ActiveRunway) :
  collect_active wind rws = inr l ->
  List.length l = List.length (List.filter is_active rws).
Proof.
  revert l. induction rws as [|r rws IH]; intros l Hc; cbn [collect_active] in Hc.
  - now injection Hc as <-.
  - cbn [List.filter]. unfold is_active at 1.
    destruct (truthy (active r)); [|now apply IH].
    destruct (to_float _) as [e|w]; [discriminate|].
    destruct (collect_active _ rws) as [e|l1]; [discriminate|].
    injection Hc as <-. cbn [List.length]. f_equal. now apply IH.
Qed.

Lemma collect_active_snoc_inactive (wind : value) (rws : list Runway) (r : Runway) :
  is_active r = false ->
  collect_active wind (rws ++ [r]) = collect_active wind rws.
Proof.
  intros Hr. induction rws as [|x rws IH]; cbn [app collect_active].
  - unfold is_active in Hr. now rewrite Hr.
  - rewrite IH. reflexivity.
Qed.

(** X15. [get_active_runways] returns as many records as there are active
    runways. With no active runway it returns the empty list whatever the
    wind direction is, a value that is not a number included; with an
    active runway and a wind direction (the given one, or the one of the
    weather when none is given) that is not a number it raises
    [TypeError]. A runway added as inactive changes no result. *)
Theorem active_runways_edge_cases :
  (forall (self : Airport.t) (wind : value) (l : list ActiveRunway),
     get_active_runways self wind = inr l ->
     List.length l = List.length (List.filter is_active (runways self))) /\
  (forall (self : Airport.t) (wind : value),
     Forall (fun r => is_active r = false) (runways self) ->
     get_active_runways self wind = inr []) /\
  (forall (self : Airport.t) (wind : value),
     Exists (fun r => is_active r = true) (runways self) ->
     as_num (effective_wind self wind) = None ->
     get_active_runways self wind = inl TypeError) /\
  (forall (self : Airport.t) (wind n : value) (sp ep : Point) (w act : value),
     truthy act = false ->
     weather (fst (add_runway n sp ep w act self)) = weather self /\
     get_active_runways (fst (add_runway n sp ep w act self)) wind
       = get_active_runways self wind).
Proof.
  split; [|split; [|split]].
  - intros self wind l Hl. unfold get_active_runways in Hl.
    destruct (collect_active _ (runways self)) as [e|l0] eqn:Hc; [discriminate|].
    injection Hl as <-.
    rewrite (Permutation_length (sort_by_perm difference l0)).
    exact (collect_active_length _ _ _ Hc).
  - intros self wind Hall. unfold get_active_runways.
    now rewrite collect_active_none.
  - intros self wind Hex Hw. unfold get_active_runways.
    fold (effective_wind self wind). now rewrite collect_active_raises.
  - intros self wind n sp ep w act Hact.
    destruct (add_runway_cases n sp ep w act self)
      as [(p & q & h & _ & _ & _ & Hadd) | (e & Hadd)]; cbv zeta in Hadd;
      rewrite Hadd; cbn [fst]; [|split; reflexivity].
    split; [reflexivity|].
    unfold get_active_runways. cbn [runways weather set_runways].
    now rewrite collect_active_snoc_inactive.
Qed.

(** *** More on the weather *)

Lemma step_keeps_precipitation (m : Py Airport.t unit) (a : Airport.t) :
  (m = ret tt \/ exists f, (forall w, precipitation (f w) = precipitation w) /\
                           m = update_weather f) ->
  precipitation (weather (fst (m a))) = precipitation (weather a).
Proof.
  intros [-> | (f & Hf & ->)]; [reflexivity|].
  unfold update_weather, modify. cbn [fst weather set_weather_record]. apply Hf.
Qed.

Lemma visibility_step_precipitation (v : value) (a : Airport.t) :
  precipitation (weather (fst (visibility_step v a))) = precipitation (weather a).
Proof. unfold visibility_step. now destruct (is_none v). Qed.

Lemma fog_density_step_precipitation (v : value) (a : Airport.t) :
  precipitation (weather (fst (fog_density_step v a))) = precipitation (weather a).
Proof.
  unfold fog_density_step, bind, lift. destruct (is_none v); [reflexivity|].
  destruct (py_min 1 v); [reflexivity|]. now destruct (py_max 0 _).
Qed.

Lemma wind_direction_step_precipitation (v : value) (a : Airport.t) :
  precipitation (weather (fst (wind_direction_step v a))) = precipitation (weather a).
Proof.
  unfold wind_direction_step, bind, lift. destruct (is_none v); [reflexivity|].
  now destruct (py_mod v 360).
Qed.

Lemma wind_speed_step_precipitation (v : value) (a : Airport.t) :
  precipitation (weather (fst (wind_speed_step v a))) = precipitation (weather a).
Proof.
  unfold wind_speed_step, bind, lift. destruct (is_none v); [reflexivity|].
  now destruct (py_max 0 v).
Qed.

Lemma precipitation_step_normal (v : value) (a : Airport.t) :
  snd (precipitation_step v a) = inr tt.
Proof. unfold precipitation_step. now destruct (is_none v). Qed.

(** X16. [set_weather] changes the weather and nothing else of the airport,
    also when it raises. It is not all-or-nothing: a fog density that is
    neither [None] nor a number makes it raise [TypeError] after the
    visibility was stored and before anything else is, and whenever the
    call raises the precipitation is as before. *)
Theorem set_weather_is_not_atomic :
  (forall (v f d s p : value) (a : Airport.t),
     fst (set_weather v f d s p a)
     = set_weather_record (weather (fst (set_weather v f d s p a))) a) /\
  (forall (v f d s p : value) (a : Airport.t),
     f <> VNone -> as_num f = None ->
     set_weather v f d s p a
     = (if is_none v then a
        else set_weather_record (set_visibility v (weather a)) a,
        inl TypeError)) /\
  (forall (v f d s p : value) (a : Airport.t),
     snd (set_weather v f d s p a) <> inr tt ->
     precipitation (weather (fst (set_weather v f d s p a)))
     = precipitation (weather a)).
Proof.
  split; [|split].
  - intros v f d s p a.
    exact (set_weather_only v f d s p a a (weather_only_refl a)).
  - intros v f d s p a Hf Hn.
    assert (Hnone : is_none f = false) by (destruct f; try reflexivity; now destruct Hf).
    unfold set_weather, bind, update_weather, modify, lift, ret, py_min.
    rewrite Hnone, Hn. now destruct (is_none v).
  - intros v f d s p a Hr. rewrite set_weather_steps in *. unfold bind in *.
    pose proof (visibility_step_precipitation v a) as H1.
    destruct (visibility_step v a) as [a1 [e|u1]]; cbn [fst snd] in *; [exact H1|].
    pose proof (fog_density_step_precipitation f a1) as H2.
    destruct (fog_density_step f a1) as [a2 [e|u2]]; cbn [fst snd] in *;
      [congruence|].
    pose proof (wind_direction_step_precipitation d a2) as H3.
    destruct (wind_direction_step d a2) as [a3 [e|u3]]; cbn [fst snd] in *;
      [congruence|].
    pose proof (wind_speed_step_precipitation s a3) as H4.
    destruct (wind_speed_step s a3) as [a4 [e|u4]]; cbn [fst snd] in *;
      [congruence|].
    pose proof (precipitation_step_normal p a4) as H5.
    destruct (precipitation_step p a4) as [a5 [e|[]]]; cbn [fst snd] in *;
      [discriminate | now destruct Hr].
Qed.

(** *** More on saved files *)

(** X17. Loading a saved airport merges the saved weather into the weather
    of the loading airport: a field that was saved as [None] (the
    precipitation of a new airport, say) is not restored, the loading
    airport keeps its own value there. *)
Theorem loaded_weather_is_merged :
  forall (a b : Airport.t) (filename : string) (w : World) (st1 : State),
    save_to_file filename (a, w) = (st1, inr true) ->
    numeric_or_none (fog_density (weather a)) ->
    numeric_or_none (wind_direction (weather a)) ->
    numeric_or_none (wind_speed (weather a)) ->
    let b' := fst (fst (load_from_file filename (b, snd st1))) in
    weather b'
    = updated (visibility (weather a)) (fog_density (weather a))
        (wind_direction (weather a)) (wind_speed (weather a))
        (precipitation (weather a)) (weather b) /\
    (visibility (weather a) = VNone ->
     visibility (weather b') = visibility (weather b)) /\
    (precipitation (weather a) = VNone ->
     precipitation (weather b') = precipitation (weather b)) /\
    (precipitation (weather a) <> VNone ->
     precipitation (weather b') = precipitation (weather a)).
Proof.
  intros a b filename w st1 Hsave Hf Hd Hs. cbv zeta.
  rewrite (save_success _ _ _ _ Hsave). cbn [fst snd].
  destruct (load_saved filename a b w) as [Hst _]. cbv zeta in Hst.
  rewrite Hst, weather_in_snapshot, (set_weather_numeric _ _ _ _ _ _ Hf Hd Hs).
  cbn [fst weather set_weather_record reloaded updated visibility precipitation].
  split; [reflexivity|]. split; [|split].
  - now intros ->.
  - now intros ->.
  - intros Hp. destruct (precipitation (weather a)); try reflexivity.
    now destruct Hp.
Qed.

Lemma rebuilt_json (rws : list Runway) :
  map runway_json (map rebuilt rws) = map runway_json rws.
Proof. rewrite List.map_map. apply List.map_ext. reflexivity. Qed.

Lemma vacated_free (gs : list Gate) :
  Forall (fun g => occupied g = false) gs -> map vacated gs = gs.
Proof.
  induction 1 as [|g gs Hg _ IH]; [reflexivity|].
  cbn [map]. rewrite IH. f_equal. destruct g. unfold vacated. cbn in *.
  now subst.
Qed.

(** X18. What a second [save_to_file] would write after a save and a load:
    the document of the first save with every gate free and the weather of
    the loading airport. If no gate was occupied and the weather came back,
    it is the same document. *)
Theorem second_save_document :
  forall (a b : Airport.t) (filename : string) (w : World) (st1 : State),
    save_to_file filename (a, w) = (st1, inr true) ->
    let b' := fst (fst (load_from_file filename (b, snd st1))) in
    snapshot b'
    = snapshot (set_weather_record (weather b')
                  (set_gates (map vacated (gates a)) a)) /\
    (gates_free a -> weather b' = weather a -> snapshot b' = snapshot a).
Proof.
  intros a b filename w st1 Hsave. cbv zeta.
  rewrite (save_success _ _ _ _ Hsave). cbn [fst snd].
  destruct (load_saved filename a b w) as [Hst _]. cbv zeta in Hst.
  rewrite Hst. destruct (weather_in_reloaded a b) as [w' ->].
  assert (E : snapshot (set_weather_record w' (reloaded a b))
              = snapshot (set_weather_record w'
                            (set_gates (map vacated (gates a)) a))).
  { unfold snapshot.
    cbn [name code location runways taxiways gates buildings weather
         set_weather_record set_gates reloaded].
    now rewrite rebuilt_json. }
  split; [exact E|].
  intros Hfree Hw. rewrite E. cbn [weather set_weather_record] in *. subst w'.
  unfold gates_free in Hfree. rewrite (vacated_free _ Hfree).
  now destruct a.
Qed.

(** *** Loads that fail, loads of partial documents *)

Lemma py_get_dict (kvs : list (string * value)) (key : string) (d : value) :
  py_get (VDict kvs) key d = inr (default d (dict_lookup kvs key)).
Proof. unfold py_get. now destruct (dict_lookup kvs key). Qed.

Lemma load_basic_dict (kvs : list (string * value)) (a : Airport.t) (loc : Vec) :
  Vector2 (default (VList [VNum 0; VNum 0]) (dict_lookup kvs "location")) = inr loc ->
  load_basic (VDict kvs) a
  = (set_location loc
       (set_code (default (code a) (dict_lookup kvs "code"))
          (set_name (default (name a) (dict_lookup kvs "name")) a)), inr tt).
Proof.
  intros Hloc. unfold load_basic, bind, get, modify, lift.
  rewrite !py_get_dict. cbn [code set_name]. now rewrite Hloc.
Qed.



(** X19. A load that cannot read a JSON object out of the file (no file, a
    text that is not JSON, a JSON value that is not an object) prints the
    error, returns [False] and leaves the airport as it was. *)
Theorem unreadable_file_keeps_airport :
  forall (filename : string) (a : Airport.t) (w : World),
    (files w !! filename = None ->
     load_from_file filename (a, w)
     = ((a, print (LoadError OSError) w), inr false)) /\
    (files w !! filename = Some Garbage ->
     load_from_file filename (a, w)
     = ((a, print (LoadError JSONDecodeError) w), inr false)) /\
    (forall v, files w !! filename = Some (JsonText v) ->
               (forall kvs, v <> VDict kvs) ->
               load_from_file filename (a, w)
               = ((a, print (LoadError AttributeError) w), inr false)).
Proof.
  intros filename a w.
  unfold load_from_file, try_except, load_body, load_failed, bind, on_world,
    on_self, read_json, modify, ret.
  cbn [fst snd]. split; [|split].
  - now intros ->.
  - now intros ->.
  - intros v -> Hv. cbn [fst snd].
    destruct v as [|b|q|s|l|kvs|p|o]; try reflexivity. now destruct (Hv kvs).
Qed.


(** X21. Loading a JSON object without the keys of the collections, the
    location and the weather succeeds: name and code fall back to the
    current ones, the location to (0, 0) and not to the current one, the
    four collections are emptied and the weather is kept. *)
Theorem load_of_partial_document :
  forall (kvs : list (string * value)) (a : Airport.t) (filename : string)
         (w : World),
    files w !! filename = Some (JsonText (VDict kvs)) ->
    Forall (fun key => dict_lookup kvs key = None)
      ["location"; "runways"; "taxiways"; "gates"; "buildings"; "weather"] ->
    load_from_file filename (a, w)
    = (({| name := default (name a) (dict_lookup kvs "name");
           code := default (code a) (dict_lookup kvs "code");
           location := (0, 0);
           runways := []; taxiways := []; gates := []; buildings := [];
           weather := weather a;
           scale := scale a; background_image := background_image a |},
        w), inr true).
Proof.
  intros kvs a filename w Hfile Hkeys.
  assert (Hk : forall key,
             In key ["location"; "runways"; "taxiways"; "gates"; "buildings";
                     "weather"] -> dict_lookup kvs key = None)
    by (apply List.Forall_forall; exact Hkeys).
  assert (Hl : dict_lookup kvs "location" = None) by (apply Hk; cbn; tauto).
  assert (Hr : dict_lookup kvs "runways" = None) by (apply Hk; cbn; tauto).
  assert (Ht : dict_lookup kvs "taxiways" = None) by (apply Hk; cbn; tauto).
  assert (Hg : dict_lookup kvs "gates" = None) by (apply Hk; cbn; tauto).
  assert (Hb : dict_lookup kvs "buildings" = None) by (apply Hk; cbn; tauto).
  assert (Hw : dict_lookup kvs "weather" = None) by (apply Hk; cbn; tauto).
  unfold load_from_file, try_except, load_body, load_failed, bind at 1 2,
    on_world, on_self, read_json, modify, ret.
  cbn [fst snd]. rewrite Hfile. cbn [fst snd].
  assert (Hloc : Vector2 (default (VList [VNum 0; VNum 0])
                            (dict_lookup kvs "location")) = inr (0, 0))
    by now rewrite Hl.
  unfold load_data, bind at 1. rewrite (load_basic_dict _ _ _ Hloc).
  unfold load_runways, load_taxiways, load_gates, load_buildings, weather_in,
    bind, modify, lift.
  rewrite !py_get_dict, Hr, Ht, Hg, Hb, Hw. reflexivity.
Qed.


End MoreAirport.

Section MoreAirportExamples.
Import Airport AirportIO.
#[local] Existing Instance test_lib.

(** The runway "08/26" of the demo airport, and one that is not there. *)
Lemma lookups_find_the_first_witness :
  (exists r, get_runway_by_name demo_airport "08/26" = Some r /\
             first_named rw_name "08/26" (runways demo_airport) r) /\
  (get_runway_by_name demo_airport "17/35" = None /\
   Forall (fun r => rw_name r <> VStr "17/35") (runways demo_airport)).
Proof.
  split.
  - destruct (get_runway_by_name demo_airport "08/26") as [r|] eqn:Hr;
      [|vm_compute in Hr; discriminate].
    exists r. split; [reflexivity|].
    exact (proj1 (proj1 (proj1 lookups_find_the_first demo_airport "08/26") r) Hr).
  - assert (Hn : get_runway_by_name demo_airport "17/35" = None) by reflexivity.
    split; [exact Hn|].
    exact (proj1 (proj2 (proj1 lookups_find_the_first demo_airport "17/35")) Hn).
Defined.



(** The records of the demo airport for a wind from 100 degrees. *)
Lemma chosen_difference_within_180_witness :
  (@rounding_ok test_lib /\
   exists l, get_active_runways demo_airport (VNum 100) = inr l) /\
  (forall l, get_active_runways demo_airport (VNum 100) = inr l ->
             Forall (fun x => 0 <= difference x /\ difference x <= 180) l).
Proof.
  split; [split; [exact test_rounding_ok | eexists; reflexivity]|].
  intros l Hl.
  pose proof (@chosen_difference_within_180 test_lib test_rounding_ok
                demo_airport (VNum 100) l Hl) as Hall.
  eapply List.Forall_impl; [|exact Hall].
  intros x (H0 & H1 & _). now split.
Defined.

(** The empty airport and the demo airport asked for the wind "north". *)
Lemma active_runways_edge_cases_witness :
  (Forall (fun r => is_active r = false) (runways demo_empty) /\
   Exists (fun r => is_active r = true) (runways demo_airport) /\
   as_num (effective_wind demo_airport (VStr "north")) = None /\
   truthy (VNum 0) = false) /\
  get_active_runways demo_empty (VStr "north") = inr [] /\
  get_active_runways demo_airport (VStr "north") = inl TypeError /\
  get_active_runways
    (fst (@add_runway test_lib (VStr "04/22") (CInt 0, CInt 0) (CInt 70, CInt 70)
            (VNum 45) (VNum 0) demo_airport)) (VNum 100)
    = get_active_runways demo_airport (VNum 100).
Proof.
  assert (H1 : Forall (fun r => is_active r = false) (runways demo_empty))
    by constructor.
  assert (H2 : Exists (fun r => is_active r = true) (runways demo_airport))
    by (left; reflexivity).
  assert (H3 : as_num (effective_wind demo_airport (VStr "north")) = None)
    by reflexivity.
  assert (H4 : truthy (VNum 0) = false) by reflexivity.
  split; [repeat split; assumption|].
  split; [exact (proj1 (proj2 (@active_runways_edge_cases test_lib))
                   demo_empty (VStr "north") H1)|].
  split; [exact (proj1 (proj2 (proj2 (@active_runways_edge_cases test_lib)))
                   demo_airport (VStr "north") H2 H3)|].
  exact (proj2 (proj2 (proj2 (proj2 (@active_runways_edge_cases test_lib)))
                  demo_airport (VNum 100) (VStr "04/22") (CInt 0, CInt 0)
                  (CInt 70, CInt 70) (VNum 45) (VNum 0) H4)).
Defined.

(** A visibility, the fog density "thick" and snow on the demo airport. *)
Lemma set_weather_is_not_atomic_witness :
  (VStr "thick" <> VNone /\ as_num (VStr "thick") = None /\
   snd (@set_weather test_lib (VNum 200) (VStr "thick") VNone VNone (VStr "snow")
          demo_airport) <> inr tt) /\
  @set_weather test_lib (VNum 200) (VStr "thick") VNone VNone (VStr "snow") demo_airport
    = (set_weather_record (set_visibility (VNum 200) (weather demo_airport))
         demo_airport, inl TypeError) /\
  precipitation
    (weather (fst (@set_weather test_lib (VNum 200) (VStr "thick") VNone VNone
                     (VStr "snow") demo_airport)))
    = precipitation (weather demo_airport).
Proof.
  assert (H1 : VStr "thick" <> VNone) by discriminate.
  assert (H2 : snd (@set_weather test_lib (VNum 200) (VStr "thick") VNone VNone
                      (VStr "snow") demo_airport) <> inr tt) by discriminate.
  split; [repeat split; assumption|]. split.
  - exact (proj1 (proj2 (@set_weather_is_not_atomic test_lib))
             (VNum 200) (VStr "thick") VNone VNone (VStr "snow") demo_airport
             H1 eq_refl).
  - exact (proj2 (proj2 (@set_weather_is_not_atomic test_lib))
             (VNum 200) (VStr "thick") VNone VNone (VStr "snow") demo_airport H2).
Defined.

(** The demo airport, whose precipitation is [None], is saved and loaded
    into an airport where it rains. *)
Lemma loaded_weather_is_merged_witness :
  let rainy :=
    set_weather_record (set_precipitation (VStr "rain") (weather demo_empty))
      demo_empty in
  let b' := fst (fst (@load_from_file test_lib "rodeos.json" (rainy, snd demo_saved))) in
  save_to_file "rodeos.json" (demo_airport, demo_world) = (demo_saved, inr true) /\
  precipitation (weather demo_airport) = VNone /\
  precipitation (weather b') = VStr "rain".
Proof.
  cbv zeta.
  assert (Hsave : save_to_file "rodeos.json" (demo_airport, demo_world)
                  = (demo_saved, inr true)) by (vm_compute; reflexivity).
  assert (Hp : precipitation (weather demo_airport) = VNone) by reflexivity.
  split; [exact Hsave|]. split; [exact Hp|].
  refine (proj1 (proj2 (proj2
    (@loaded_weather_is_merged test_lib demo_airport _ "rodeos.json"
       demo_world demo_saved Hsave _ _ _))) Hp).
  - right. exists (9 # 10). reflexivity.
  - right. exists 300. reflexivity.
  - right. exists 12. reflexivity.
Defined.

(** The demo airport has an occupied gate: the second document differs in
    it and nowhere else. *)
Lemma second_save_document_witness :
  save_to_file "rodeos.json" (demo_airport, demo_world) = (demo_saved, inr true) /\
  snapshot (fst demo_loaded)
  = snapshot (set_weather_record (weather (fst demo_loaded))
                (set_gates (map vacated (gates demo_airport)) demo_airport)).
Proof.
  assert (Hsave : save_to_file "rodeos.json" (demo_airport, demo_world)
                  = (demo_saved, inr true)) by (vm_compute; reflexivity).
  split; [exact Hsave|].
  exact (proj1 (@second_save_document test_lib demo_airport demo_empty
                  "rodeos.json" demo_world demo_saved Hsave)).
Defined.

(** No file, a text that is no JSON, and the JSON number 5. *)
Lemma unreadable_file_keeps_airport_witness :
  let w := set_files (<["broken.json" := Garbage]>
                        (<["five.json" := JsonText (VNum 5)]> ∅)) demo_world in
  @load_from_file test_lib "none.json" (demo_airport, w)
    = ((demo_airport, print (LoadError OSError) w), inr false) /\
  @load_from_file test_lib "broken.json" (demo_airport, w)
    = ((demo_airport, print (LoadError JSONDecodeError) w), inr false) /\
  @load_from_file test_lib "five.json" (demo_airport, w)
    = ((demo_airport, print (LoadError AttributeError) w), inr false).
Proof.
  cbv zeta.
  pose (w := set_files (<["broken.json" := Garbage]>
                          (<["five.json" := JsonText (VNum 5)]> ∅)) demo_world).
  assert (H1 : files w !! "none.json" = None) by (vm_compute; reflexivity).
  assert (H2 : files w !! "broken.json" = Some Garbage)
    by (vm_compute; reflexivity).
  assert (H3 : files w !! "five.json" = Some (JsonText (VNum 5)))
    by (vm_compute; reflexivity).
  split; [|split].
  - exact (proj1 (@unreadable_file_keeps_airport test_lib "none.json"
                    demo_airport w) H1).
  - exact (proj1 (proj2 (@unreadable_file_keeps_airport test_lib "broken.json"
                           demo_airport w)) H2).
  - refine (proj2 (proj2 (@unreadable_file_keeps_airport test_lib "five.json"
                            demo_airport w)) (VNum 5) H3 _).
    intros kvs. discriminate.
Defined.


(** A document that holds a name only. *)
Lemma load_of_partial_document_witness :
  let w := set_files (<["name.json" := JsonText (VDict [("name", VStr "TFN")])]> ∅)
             demo_world in
  let result := @load_from_file test_lib "name.json" (demo_airport, w) in
  snd result = inr true /\
  name (fst (fst result)) = VStr "TFN" /\
  code (fst (fst result)) = code demo_airport /\
  location (fst (fst result)) = (0, 0) /\
  runways (fst (fst result)) = [] /\
  weather (fst (fst result)) = weather demo_airport.
Proof.
  cbv zeta.
  set (w := set_files (<["name.json" := JsonText (VDict [("name", VStr "TFN")])]> ∅)
              demo_world).
  assert (Hfile : files w !! "name.json"
                  = Some (JsonText (VDict [("name", VStr "TFN")])))
    by (vm_compute; reflexivity).
  rewrite (@load_of_partial_document test_lib [("name", VStr "TFN")] demo_airport
             "name.json" w Hfile).
  - vm_compute. repeat split.
  - repeat constructor.
Defined.


End MoreAirportExamples.
